(** * go-bloodlab-net: the (S)FTP polling client and the LIS1-A1 framing layer

    A shallow embedding of [ftpClient.go] (configuration object, filename
    generator, line-ending rewriting, the two send routines and the two
    polling loops) together with a model of the LIS1-A1 checksum and
    sender/receiver state machines, and the properties stated about them. *)

From Stdlib Require Import ZArith NArith List String Ascii Bool Lia Arith.
From Stdlib Require Import Strings.Byte DecimalString.
Import ListNotations.
Local Open Scope string_scope.
Local Open Scope Z_scope.

(** ** Go runtime helpers *)

Module Go.

(** Go's [int] on a 64-bit platform: two's complement wrap-around. *)
Definition wrap_int (z : Z) : Z := (z + 2 ^ 63) mod 2 ^ 64 - 2 ^ 63.

(** How a Go call ends: it returns a value, the process exits
    ([log.Fatal]), or the goroutine panics. *)
Inductive outcome (A : Type) : Type :=
| Returns (a : A)
| Exits
| Panics.
Arguments Returns {A} a.
Arguments Exits {A}.
Arguments Panics {A}.

(** [strconv.Itoa]. *)
Definition Itoa (z : Z) : string := NilZero.string_of_int (Z.to_int z).

Fixpoint zeros (n : nat) : string :=
  match n with
  | O => ""
  | S k => String "0" (zeros k)
  end.

(** [fmt.Sprintf("%0<w>d", z)]: zero padding up to width [w], the sign
    counting towards the width. *)
Definition Sprintf_0d (w : nat) (z : Z) : string :=
  if z <? 0
  then let d := Itoa (- z) in
       String "-" (zeros (w - 1 - String.length d) ++ d)
  else let d := Itoa z in zeros (w - String.length d) ++ d.

(** [fmt.Sprintf("%d", z)]. *)
Definition Sprintf_d (z : Z) : string := Itoa z.

(** [s[n:]] on a string; a slice bound out of range panics. *)
Definition slice_from (n : nat) (s : string) : option string :=
  if (n <=? String.length s)%nat
  then Some (substring n (String.length s - n) s)
  else None.

(** [strings.Replace(s, old, new, -1)] for a non-empty [old]: the
    leftmost non-overlapping occurrences are replaced, scanning left to
    right. [skip] counts the bytes of a matched occurrence still to drop. *)
Fixpoint replace_scan (old new : string) (skip : nat) (s : string) : string :=
  match s with
  | EmptyString => EmptyString
  | String c rest =>
      match skip with
      | S k => replace_scan old new k rest
      | O =>
          if prefix old s
          then new ++ replace_scan old new (String.length old - 1) rest
          else String c (replace_scan old new 0 rest)
      end
  end.

Definition Replace (s old new : string) : string :=
  if String.eqb old new then s else replace_scan old new 0 s.

Fixpoint mem_ascii (c : ascii) (cutset : string) : bool :=
  match cutset with
  | EmptyString => false
  | String d rest => Ascii.eqb c d || mem_ascii c rest
  end.

(** [strings.TrimLeft(s, cutset)] on ASCII text. *)
Fixpoint TrimLeft (s cutset : string) : string :=
  match s with
  | EmptyString => EmptyString
  | String c rest => if mem_ascii c cutset then TrimLeft rest cutset else s
  end.

Fixpoint rev_string (acc s : string) : string :=
  match s with
  | EmptyString => acc
  | String c rest => rev_string (String c acc) rest
  end.

(** [strings.TrimRight(s, cutset)] on ASCII text. *)
Definition TrimRight (s cutset : string) : string :=
  rev_string "" (TrimLeft (rev_string "" s) cutset).

(** Is [sub] a substring of [s]? ([strings.Contains]) *)
Fixpoint Contains (s sub : string) : bool :=
  prefix sub s ||
  match s with
  | EmptyString => false
  | String _ rest => Contains rest sub
  end.

End Go.

(** ** ftpClient.go: types and configuration *)

Definition error := string.

(** Modelled from the spec: the [ErrorType] enumeration, declared outside
    ftpClient.go; the kinds are those of the error taxonomy (section 7). *)
Inductive ErrorType : Set :=
| ErrorMaxConnections
| ErrorConnect
| ErrorReceive
| ErrorSend
| ErrorTimeout
| ErrorChecksumMismatch
| ErrorConfiguration
| ErrorLogin
| ErrorInternal.

Definition ErrorType_eqb (a b : ErrorType) : bool :=
  match a, b with
  | ErrorMaxConnections, ErrorMaxConnections
  | ErrorConnect, ErrorConnect
  | ErrorReceive, ErrorReceive
  | ErrorSend, ErrorSend
  | ErrorTimeout, ErrorTimeout
  | ErrorChecksumMismatch, ErrorChecksumMismatch
  | ErrorConfiguration, ErrorConfiguration
  | ErrorLogin, ErrorLogin
  | ErrorInternal, ErrorInternal => true
  | _, _ => false
  end.

(** [type FTPType int], [type AuthenticationMethod int], [type LINEBREAK int] *)
Definition FTPType := Z.
Definition FTP : FTPType := 1.
Definition SFTP : FTPType := 2.

Definition AuthenticationMethod := Z.
Definition PASSWORD : AuthenticationMethod := 1.
Definition PUBKEY : AuthenticationMethod := 2.

Definition LINEBREAK := Z.
Definition LINEBREAK_CR : LINEBREAK := 0x0d.
Definition LINEBREAK_CRLF : LINEBREAK := 0x0d0a.
Definition LINEBREAK_LF : LINEBREAK := 0x0a.

(** [time.Duration] in nanoseconds, [time.Time] as seconds since the epoch. *)
Definition Duration := Z.
Definition Second : Duration := 1000000000.
Definition Time := Z.

Record autoGeneratedFilenames : Set := mkAutoGen {
  generatorpattern : string;
  prefix : string;
  suffix : string;
  counter : Z
}.

Record ftpConfiguration : Set := mkFtpConfiguration {
  authMethod : AuthenticationMethod;
  user : string;
  key : string;
  hostkey : string;
  pollInterval : Duration;
  deleteAfterRead : bool;
  dialTimeout : Duration;
  linebreak : LINEBREAK;
  autoGenerated : autoGeneratedFilenames
}.

(** [config] is a pointer in the source; the instance is the only holder
    modelled here, so the configuration is stored by value and every
    function that writes through the pointer returns the new instance. *)
Record ftpServerInstance : Set := mkFtpServerInstance {
  ftpType : FTPType;
  host : string;
  port : Z;
  hostpath : string;
  filemask : string;
  config : ftpConfiguration;
  isRunning : bool
}.

Definition CreateSFTPClient (ftptype : FTPType) (host : string) (port : Z)
    (hostpath filemask : string) (config : ftpConfiguration)
  : ftpServerInstance * option error :=
  ({| ftpType := ftptype; host := host; port := port; hostpath := hostpath;
      filemask := filemask; config := config; isRunning := false |}, None).

Definition set_autoGenerated (conf : ftpConfiguration)
    (a : autoGeneratedFilenames) : ftpConfiguration :=
  {| authMethod := authMethod conf; user := user conf; key := key conf;
     hostkey := hostkey conf; pollInterval := pollInterval conf;
     deleteAfterRead := deleteAfterRead conf; dialTimeout := dialTimeout conf;
     linebreak := linebreak conf; autoGenerated := a |}.

Definition UserPass (conf : ftpConfiguration) (u pass : string) : ftpConfiguration :=
  {| authMethod := PASSWORD; user := u; key := pass;
     hostkey := hostkey conf; pollInterval := pollInterval conf;
     deleteAfterRead := deleteAfterRead conf; dialTimeout := dialTimeout conf;
     linebreak := linebreak conf; autoGenerated := autoGenerated conf |}.

Definition HostKey (conf : ftpConfiguration) (hk : string) : ftpConfiguration :=
  {| authMethod := authMethod conf; user := user conf; key := key conf;
     hostkey := hk; pollInterval := pollInterval conf;
     deleteAfterRead := deleteAfterRead conf; dialTimeout := dialTimeout conf;
     linebreak := linebreak conf; autoGenerated := autoGenerated conf |}.

Definition PubKey (conf : ftpConfiguration) (u pubkey : string) : ftpConfiguration :=
  {| authMethod := PUBKEY; user := u; key := pubkey;
     hostkey := hostkey conf; pollInterval := pollInterval conf;
     deleteAfterRead := deleteAfterRead conf; dialTimeout := dialTimeout conf;
     linebreak := linebreak conf; autoGenerated := autoGenerated conf |}.

Definition PollInterval (conf : ftpConfiguration) (d : Duration) : ftpConfiguration :=
  {| authMethod := authMethod conf; user := user conf; key := key conf;
     hostkey := hostkey conf; pollInterval := d;
     deleteAfterRead := deleteAfterRead conf; dialTimeout := dialTimeout conf;
     linebreak := linebreak conf; autoGenerated := autoGenerated conf |}.

Definition set_deleteAfterRead (conf : ftpConfiguration) (b : bool) : ftpConfiguration :=
  {| authMethod := authMethod conf; user := user conf; key := key conf;
     hostkey := hostkey conf; pollInterval := pollInterval conf;
     deleteAfterRead := b; dialTimeout := dialTimeout conf;
     linebreak := linebreak conf; autoGenerated := autoGenerated conf |}.

Definition DeleteAfterRead (conf : ftpConfiguration) := set_deleteAfterRead conf true.
Definition DontDeleteAfterRead (conf : ftpConfiguration) := set_deleteAfterRead conf false.

Definition set_linebreak (conf : ftpConfiguration) (l : LINEBREAK) : ftpConfiguration :=
  {| authMethod := authMethod conf; user := user conf; key := key conf;
     hostkey := hostkey conf; pollInterval := pollInterval conf;
     deleteAfterRead := deleteAfterRead conf; dialTimeout := dialTimeout conf;
     linebreak := l; autoGenerated := autoGenerated conf |}.

Definition LineBreakCR (conf : ftpConfiguration) := set_linebreak conf LINEBREAK_CR.
Definition LineBreakCRLF (conf : ftpConfiguration) := set_linebreak conf LINEBREAK_CRLF.
Definition LineBreakLF (conf : ftpConfiguration) := set_linebreak conf LINEBREAK_LF.

Definition DialTimeout (conf : ftpConfiguration) (d : Duration) : ftpConfiguration :=
  {| authMethod := authMethod conf; user := user conf; key := key conf;
     hostkey := hostkey conf; pollInterval := pollInterval conf;
     deleteAfterRead := deleteAfterRead conf; dialTimeout := d;
     linebreak := linebreak conf; autoGenerated := autoGenerated conf |}.

Definition FilenameGeneratorPattern (conf : ftpConfiguration) (pattern : string) :=
  let a := autoGenerated conf in
  set_autoGenerated conf (mkAutoGen pattern (prefix a) (suffix a) (counter a)).

Definition FilenameGeneratorPrefix (conf : ftpConfiguration) (p : string) :=
  let a := autoGenerated conf in
  set_autoGenerated conf (mkAutoGen (generatorpattern a) p (suffix a) (counter a)).

Definition NoFilenamePrefix (conf : ftpConfiguration) := FilenameGeneratorPrefix conf "".

Definition FilenameGeneratorSuffix (conf : ftpConfiguration) (s : string) :=
  let a := autoGenerated conf in
  set_autoGenerated conf (mkAutoGen (generatorpattern a) (prefix a) s (counter a)).

Definition NoFilenameSuffix (conf : ftpConfiguration) := FilenameGeneratorSuffix conf "".

Definition DefaultFTPConfig : ftpConfiguration :=
  {| authMethod := PASSWORD; user := ""; key := ""; hostkey := "";
     pollInterval := 60 * Second; deleteAfterRead := true;
     dialTimeout := 10 * Second; linebreak := LINEBREAK_LF;
     autoGenerated := mkAutoGen "yyyyMMddhhmmss-#.dat" "AUTO-" "" 0 |}.

Definition IsAlive (instance : ftpServerInstance) : bool := isRunning instance.

Definition RemoteAddress (instance : ftpServerInstance) : string * option error :=
  (host instance, None).

Definition Receive (instance : ftpServerInstance) : list byte * option error :=
  ([], Some "Not implemented, use Run(handler) method and asyncronous method from handler").

Definition WaitTermination (instance : ftpServerInstance) : option error :=
  Some "Not implemented".

(** ** ftpClient.go: filename generation and line endings *)

(** What [time.Now()] returned, field by field. *)
Record Now : Set := mkNow {
  Year : Z;
  Month : Z;
  Day : Z;
  Hour : Z;
  Minute : Z;
  Second_ : Z;
  Nanosecond : Z
}.

(** [generateFileName]; [None] is the slice panic of [Itoa(year)[2:]]. *)
Definition generateFileName (now : Now) (filename prefix suffix : string)
    (cnt : Z) : option string :=
  let filename := Go.Replace filename "yyyy" (Go.Itoa (Year now)) in
  match Go.slice_from 2 (Go.Itoa (Year now)) with
  | None => None
  | Some yy =>
      let filename := Go.Replace filename "yy" yy in
      let filename := Go.Replace filename "MM" (Go.Sprintf_0d 2 (Month now)) in
      let filename := Go.Replace filename "dd" (Go.Sprintf_0d 2 (Day now)) in
      let filename := Go.Replace filename "hh" (Go.Sprintf_0d 2 (Hour now)) in
      let filename := Go.Replace filename "mm" (Go.Sprintf_0d 2 (Minute now)) in
      let filename := Go.Replace filename "ss" (Go.Sprintf_0d 2 (Second_ now)) in
      let filename :=
        Go.Replace filename "cc" (Go.Sprintf_0d 3 (Nanosecond now / 1000)) in
      let filename := Go.Replace filename "nn" (Go.Sprintf_0d 6 (Nanosecond now)) in
      let filename := Go.Replace filename "#" (Go.Sprintf_d cnt) in
      let filename :=
        if String.eqb suffix "" then filename
        else "." ++ Go.TrimLeft "." suffix in
      Some (prefix ++ filename)
  end.

(** The pattern after the token substitutions of [generateFileName], that
    is the value of [filename] just before the suffix is handled. *)
Definition substitutedPattern (now : Now) (filename : string) (cnt : Z)
  : option string :=
  generateFileName now filename "" "" cnt.

(** [addLineEndings]: the [linebreak] argument is ignored, the
    configuration's own setting is read. *)
Definition addLineEndings (instance : ftpServerInstance)
    (msg : list (list byte)) (linebreak_arg : LINEBREAK) : list byte :=
  let lbreak :=
    let l := linebreak (config instance) in
    if l =? LINEBREAK_CR then [x0d]
    else if l =? LINEBREAK_CRLF then [x0d; x0a]
    else if l =? LINEBREAK_LF then [x0a]
    else [x0a] in
  fold_left (fun databytes m => ((databytes ++ m) ++ lbreak)%list) msg [].

(** ** ftpClient.go: the world outside the process

    The handler is user code and the (S)FTP server is a remote machine:
    both are modelled by the answers they give. A run is determined by the
    instance and by these answers, and produces the sequence of handler
    callbacks and remote commands it issues. *)

(** The library functions [strings.ToUpper] and [sftp.Match]. *)
Record Platform : Type := mkPlatform {
  ToUpper : string -> string;
  Match : string -> string -> bool * option error
}.

Inductive Event : Set :=
| OnError (kind : ErrorType) (err : option error)
| OnConnected (result : option error)
| OnDataReceived (fileData : list byte) (receivedAt : Time) (result : option error)
| Dial (address : string)
| NewClient
| Login (user key : string)
| ReadDir (path : string)
| List_ (path : string)
| Open (path : string)
| Rename (from to : string)
| Retr (path : string)
| Remove (path : string)
| Delete (path : string)
| Stor (path : string) (data : list byte)
| Create (path : string)
| Write (data : list byte)
| CloseConnection.

(** One directory entry together with the answers given while the loop
    works on it: the server's to each command, the handler's to
    [DataReceived]. [renameErr] answers the FTP rename, [openErr] the SFTP
    [Open] or the FTP [Retr], [readAll] and [closeErr] the reading and
    closing of the opened file, [removeErr] the SFTP [Remove] or the FTP
    [Delete]. *)
Record PolledFile : Set := mkPolledFile {
  Name : string;
  ModTime : Time;
  renameErr : option error;
  openErr : option error;
  readAll : list byte * option error;
  closeErr : option error;
  dataReceivedErr : option error;
  removeErr : option error
}.

(** What the [select] at the end of an iteration receives. *)
Inductive Wake : Set :=
| PollIntervalElapsed
| Terminated.

Record PollRound : Set := mkPollRound {
  listing : list PolledFile * option error;
  wake : Wake
}.

Record Remote : Set := mkRemote {
  hostKeyDecodeErr : option error;
  hostKeyParseErr : option error;
  dialErr : option error;
  newClientErr : option error;
  loginErr : option error;
  connectedErr : option error;
  rounds : list PollRound
}.

(** How a run ends. [StillPolling]: the loop is still running when the
    recorded answers are used up (the trace is a prefix of the run). *)
Inductive RunEnd : Set :=
| Returned
| Panicked
| Exited
| StillPolling.

Definition serverAddress (instance : ftpServerInstance) : string :=
  host instance ++ ":" ++ Go.Sprintf_d (port instance).

Definition ftpPathOf (instance : ftpServerInstance) : string :=
  Go.TrimRight (hostpath instance) "/" ++ "/".

(** *** runWithSFTP *)

(** The body of [for _, file := range files] in [runWithSFTP]. *)
Definition sftpPollFile (P : Platform) (instance : ftpServerInstance)
    (ftpPath : string) (file : PolledFile) : list Event :=
  let (matchFileFilter, err) :=
    Match P (ToUpper P (filemask instance)) (ToUpper P (Name file)) in
  match err with
  | Some e => [OnError ErrorReceive (Some e)]
  | None =>
      if matchFileFilter then
        let filename := ftpPath ++ Name file in
        Open filename ::
        match openErr file with
        | Some e => [OnError ErrorReceive (Some e)]
        | None =>
            let (filebuffer, err) := readAll file in
            match err with
            | Some e => [OnError ErrorReceive (Some e)]
            | None =>
                match closeErr file with
                | Some e => [OnError ErrorReceive (Some e)]
                | None =>
                    let err := dataReceivedErr file in
                    OnDataReceived filebuffer (ModTime file) err ::
                    match err with
                    | None =>
                        if deleteAfterRead (config instance) then
                          Remove filename ::
                          match removeErr file with
                          | Some e => [OnError ErrorInternal (Some e)]
                          | None => []
                          end
                        else []
                    | Some _ => []
                    end
                end
            end
        end
      else []
  end.

(** The [for instance.isRunning] loop of [runWithSFTP], one recorded round
    per iteration. [continue] skips the [select]. *)
Fixpoint sftpPoll (P : Platform) (instance : ftpServerInstance)
    (ftpPath : string) (rs : list PollRound) : list Event * RunEnd :=
  match rs with
  | [] => ([], StillPolling)
  | r :: rest =>
      let (files, err) := listing r in
      match err with
      | Some e =>
          let (tr, e') := sftpPoll P instance ftpPath rest in
          (ReadDir ftpPath :: OnError ErrorReceive (Some e) :: tr, e')
      | None =>
          match files with
          | [] =>
              let (tr, e') := sftpPoll P instance ftpPath rest in
              (ReadDir ftpPath :: tr, e')
          | _ :: _ =>
              let body := flat_map (sftpPollFile P instance ftpPath) files in
              match wake r with
              | PollIntervalElapsed =>
                  let (tr, e') := sftpPoll P instance ftpPath rest in
                  ((ReadDir ftpPath :: body) ++ tr, e')%list
              | Terminated => (ReadDir ftpPath :: body, Returned)
              end
          end
      end
  end.

Definition runWithSFTP (P : Platform) (instance : ftpServerInstance)
    (w : Remote) : list Event * RunEnd :=
  let conf := config instance in
  if negb ((authMethod conf =? PASSWORD) || (authMethod conf =? PUBKEY))
  then ([OnError ErrorConfiguration None], Panicked)
  else
    let hostKeyFailure :=
      if String.eqb (hostkey conf) "" then None
      else match hostKeyDecodeErr w with
           | Some e => Some e
           | None => hostKeyParseErr w
           end in
    match hostKeyFailure with
    | Some e => ([OnError ErrorConfiguration (Some e)], Returned)
    | None =>
        let ftpserver := serverAddress instance in
        match dialErr w with
        | Some e => ([Dial ftpserver; OnError ErrorConfiguration (Some e)], Returned)
        | None =>
            match newClientErr w with
            | Some e =>
                ([Dial ftpserver; NewClient; CloseConnection;
                  OnError ErrorConnect (Some e)], Returned)
            | None =>
                match connectedErr w with
                | Some e =>
                    ([Dial ftpserver; NewClient; OnConnected (Some e);
                      OnError ErrorConnect None], Returned)
                | None =>
                    let ftpPath := ftpPathOf instance in
                    let (tr, e) := sftpPoll P instance ftpPath (rounds w) in
                    (Dial ftpserver :: NewClient :: OnConnected None :: tr, e)
                end
            end
        end
    end.

(** *** runWithFTP *)

(** The body of [for _, file := range files] in [runWithFTP]. *)
Definition ftpPollFile (P : Platform) (instance : ftpServerInstance)
    (ftpPath : string) (file : PolledFile) : list Event :=
  let (match_, err) :=
    Match P (ToUpper P (filemask instance)) (ToUpper P (Name file)) in
  match err with
  | Some e => [OnError ErrorInternal (Some e)]
  | None =>
      if match_ then
        let processing := ftpPath ++ Name file ++ ".processing" in
        Rename (ftpPath ++ Name file) processing ::
        match renameErr file with
        | Some e => [OnError ErrorReceive (Some e)]
        | None =>
            Retr processing ::
            match openErr file with
            | Some e => [OnError ErrorReceive (Some e)]
            | None =>
                let (filebuffer, err) := readAll file in
                match err with
                | Some e => [OnError ErrorReceive (Some e)]
                | None =>
                    match closeErr file with
                    | Some e => [OnError ErrorReceive (Some e)]
                    | None =>
                        let err := dataReceivedErr file in
                        OnDataReceived filebuffer (ModTime file) err ::
                        match err with
                        | None =>
                            if deleteAfterRead (config instance) then
                              Delete processing ::
                              match removeErr file with
                              | Some e => [OnError ErrorReceive (Some e)]
                              | None => []
                              end
                            else []
                        | Some _ => []
                        end
                    end
                end
            end
        end
      else []
  end.

(** The [for instance.isRunning] loop of [runWithFTP]. *)
Fixpoint ftpPoll (P : Platform) (instance : ftpServerInstance)
    (ftpPath : string) (rs : list PollRound) : list Event * RunEnd :=
  match rs with
  | [] => ([], StillPolling)
  | r :: rest =>
      let (files, err) := listing r in
      match err with
      | Some e =>
          let (tr, e') := ftpPoll P instance ftpPath rest in
          (List_ ftpPath :: OnError ErrorReceive (Some e) :: tr, e')
      | None =>
          let body := flat_map (ftpPollFile P instance ftpPath) files in
          match wake r with
          | PollIntervalElapsed =>
              let (tr, e') := ftpPoll P instance ftpPath rest in
              ((List_ ftpPath :: body) ++ tr, e')%list
          | Terminated => (List_ ftpPath :: body, Returned)
          end
      end
  end.

Definition runWithFTP (P : Platform) (instance : ftpServerInstance)
    (w : Remote) : list Event * RunEnd :=
  let conf := config instance in
  let address := serverAddress instance in
  match dialErr w with
  | Some e => ([Dial address; OnError ErrorLogin (Some e)], Returned)
  | None =>
      if negb (authMethod conf =? PASSWORD)
      then ([Dial address;
             OnError ErrorConfiguration (Some "Invalid Authentication Method")],
            Exited)
      else
        match loginErr w with
        | Some e =>
            ([Dial address; Login (user conf) (key conf);
              OnError ErrorLogin (Some e)], Returned)
        | None =>
            match connectedErr w with
            | Some e =>
                ([Dial address; Login (user conf) (key conf);
                  OnConnected (Some e); OnError ErrorLogin (Some e)], Returned)
            | None =>
                let ftpPath := ftpPathOf instance in
                let (tr, e) := ftpPoll P instance ftpPath (rounds w) in
                (Dial address :: Login (user conf) (key conf)
                   :: OnConnected None :: tr, e)
            end
        end
  end.

(** [Run]: dispatch on the transport; any other type does nothing. *)
Definition Run (P : Platform) (instance : ftpServerInstance) (w : Remote)
  : list Event * RunEnd :=
  if ftpType instance =? FTP then runWithFTP P instance w
  else if ftpType instance =? SFTP then runWithSFTP P instance w
  else ([], Returned).

(** ** ftpClient.go: Send *)

(** The answers of the clock and of the remote server during one [Send]. *)
Record SendWorld : Type := mkSendWorld {
  now : Now;
  s_hostKeyDecodeErr : option error;
  s_hostKeyParseErr : option error;
  s_dialErr : option error;
  s_newClientErr : option error;
  s_loginErr : option error;
  s_storErr : option error;
  s_createErr : option error;
  s_write : list byte -> Z * option error
}.

Record SendResult : Set := mkSendResult {
  returned : Go.outcome (Z * option error);
  after : ftpServerInstance;
  issued : list Event
}.

(** [instance.config.autoGeneratedFilenames.counter += 1] *)
Definition bumpCounter (instance : ftpServerInstance) : ftpServerInstance :=
  let conf := config instance in
  let a := autoGenerated conf in
  {| ftpType := ftpType instance; host := host instance; port := port instance;
     hostpath := hostpath instance; filemask := filemask instance;
     config := set_autoGenerated conf
                 (mkAutoGen (generatorpattern a) (prefix a) (suffix a)
                            (Go.wrap_int (counter a + 1)));
     isRunning := isRunning instance |}.

Definition nextFileName (w : SendWorld) (instance : ftpServerInstance)
  : option string :=
  let a := autoGenerated (config instance) in
  generateFileName (now w) (generatorpattern a) (prefix a) (suffix a) (counter a).

Definition ftpSend (w : SendWorld) (instance : ftpServerInstance)
    (msg : list (list byte)) : SendResult :=
  let conf := config instance in
  let address := serverAddress instance in
  match s_dialErr w with
  | Some e => mkSendResult (Go.Returns (-1, Some e)) instance [Dial address]
  | None =>
      if negb (authMethod conf =? PASSWORD)
      then mkSendResult Go.Exits instance [Dial address]
      else
        match s_loginErr w with
        | Some e =>
            mkSendResult (Go.Returns (-1, Some e)) instance
              [Dial address; Login (user conf) (key conf)]
        | None =>
            let ftpPath := ftpPathOf instance in
            let instance := bumpCounter instance in
            match nextFileName w instance with
            | None =>
                mkSendResult Go.Panics instance
                  [Dial address; Login (user conf) (key conf)]
            | Some generatedFilename =>
                let databytes :=
                  addLineEndings instance msg (linebreak (config instance)) in
                let ops := [Dial address; Login (user conf) (key conf);
                            Stor (ftpPath ++ generatedFilename) databytes] in
                match s_storErr w with
                | Some e => mkSendResult (Go.Returns (-1, Some e)) instance ops
                | None => mkSendResult (Go.Returns (-1, None)) instance ops
                end
            end
        end
  end.

Definition sftpSend (w : SendWorld) (instance : ftpServerInstance)
    (msg : list (list byte)) : SendResult :=
  let conf := config instance in
  if negb ((authMethod conf =? PASSWORD) || (authMethod conf =? PUBKEY))
  then mkSendResult
         (Go.Returns (-1, Some "invalid (s)FTP Authentication-Method provided"))
         instance []
  else
    let hostKeyFailure :=
      if String.eqb (hostkey conf) "" then None
      else match s_hostKeyDecodeErr w with
           | Some e => Some e
           | None => s_hostKeyParseErr w
           end in
    match hostKeyFailure with
    | Some e => mkSendResult (Go.Returns (-1, Some e)) instance []
    | None =>
        let ftpserver := serverAddress instance in
        match s_dialErr w with
        | Some e => mkSendResult (Go.Returns (-1, Some e)) instance [Dial ftpserver]
        | None =>
            match s_newClientErr w with
            | Some e =>
                mkSendResult (Go.Returns (-1, Some e)) instance
                  [Dial ftpserver; NewClient; CloseConnection]
            | None =>
                let ftpPath := ftpPathOf instance in
                let databytes :=
                  addLineEndings instance msg (linebreak (config instance)) in
                let instance := bumpCounter instance in
                match nextFileName w instance with
                | None =>
                    mkSendResult Go.Panics instance [Dial ftpserver; NewClient]
                | Some generatedFilename =>
                    let path := ftpPath ++ generatedFilename in
                    match s_createErr w with
                    | Some e =>
                        mkSendResult (Go.Returns (-1, Some e)) instance
                          [Dial ftpserver; NewClient; Create path]
                    | None =>
                        let (bytesWritten, err) := s_write w databytes in
                        let ops := [Dial ftpserver; NewClient; Create path;
                                    Write databytes] in
                        match err with
                        | Some e => mkSendResult (Go.Returns (-1, Some e)) instance ops
                        | None =>
                            mkSendResult (Go.Returns (bytesWritten, None)) instance ops
                        end
                    end
                end
            end
        end
    end.

(** [Send]: dispatch on the transport; for any other type the zero values
    are returned. *)
Definition Send (w : SendWorld) (instance : ftpServerInstance)
    (msg : list (list byte)) : SendResult :=
  if ftpType instance =? FTP then ftpSend w instance msg
  else if ftpType instance =? SFTP then sftpSend w instance msg
  else mkSendResult (Go.Returns (0, None)) instance [].

(** ** The LIS1-A1 framing layer

    The protocol package is not part of ftpClient.go; its checksum, its
    settings and its two state machines are modelled from the specification
    and from the protocol's tests. *)

Module Lis1A1.

Local Open Scope list_scope.
Local Open Scope nat_scope.

(** Modelled from the spec: the control-byte alphabet of the [utilities]
    package (section 3). *)
Definition ENQ : byte := x05.
Definition ACK : byte := x06.
Definition STX : byte := x02.
Definition ETX : byte := x03.
Definition EOT : byte := x04.
Definition NAK : byte := x15.
Definition ETB : byte := x17.
Definition CR : byte := x0d.
Definition LF : byte := x0a.

Definition isControl (b : byte) : bool :=
  Byte.eqb b ENQ || Byte.eqb b ACK || Byte.eqb b STX || Byte.eqb b ETX ||
  Byte.eqb b EOT || Byte.eqb b NAK || Byte.eqb b ETB || Byte.eqb b CR ||
  Byte.eqb b LF.

(** Modelled from the spec: a byte that is none of the control bytes, the
    table's "byte (not control)". *)
Definition plain (b : byte) : Prop := isControl b = false.

(** Modelled from the spec: what the receiver assembles from accepted
    frames - the payloads in order, the record separator after each frame
    closed by ETX (frames closed by ETB are coalesced). *)
Definition assembled (sep : byte) (frames : list (list byte * byte))
  : list byte :=
  flat_map (fun f => fst f ++ if Byte.eqb (snd f) ETX then [sep] else [])
           frames.

(** Modelled from the spec: a frame as the sender builds it from a text
    record - a payload of plain bytes closed by ETX or ETB. *)
Definition wellFormedFrame (f : list byte * byte) : Prop :=
  Forall plain (fst f) /\ (snd f = ETX \/ snd f = ETB).

Definition byteSum (l : list byte) : N :=
  fold_left (fun acc b => (acc + Byte.to_N b)%N) l 0%N.

(** Modelled from the spec: one uppercase hexadecimal digit, as [%X]
    prints it. *)
Definition hexDigit (n : N) : byte :=
  nth (N.to_nat n)
      [x30; x31; x32; x33; x34; x35; x36; x37; x38; x39;
       x41; x42; x43; x44; x45; x46] x30.

(** Modelled from the spec: [computeChecksum] of the protocol package (only
    its test is at hand) - the sum of all bytes of the frame number, the
    payload and the terminator, modulo 256, as two uppercase hexadecimal
    digits. *)
Definition computeChecksum (frameNo body terminator : list byte) : list byte :=
  let sum := ((byteSum frameNo + byteSum body + byteSum terminator) mod 256)%N in
  [hexDigit (sum / 16); hexDigit (sum mod 16)].

(** Reading an uppercase hexadecimal digit back (used to state what the
    two characters of a checksum denote). *)
Definition hexValue (b : byte) : option N :=
  let n := Byte.to_N b in
  if ((48 <=? n) && (n <=? 57))%N then Some (n - 48)%N
  else if ((65 <=? n) && (n <=? 70))%N then Some (n - 55)%N
  else None.

Inductive ContentionRole : Set :=
| highPriority
| lowPriority.

(** Modelled from the spec: the LIS1-A1 settings (section 6); the durations
    are in seconds. *)
Record Settings : Set := mkSettings {
  maxFramePayload : nat;
  frameNumberEnabled : bool;
  contentionRole : ContentionRole;
  interFrameTimeout : nat;
  nakBackoff : nat;
  maxRetriesPerFrame : nat;
  recordSeparator : byte
}.

(** Modelled from the spec: [DefaultLis1A1ProtocolSettings], the defaults of
    section 6 - frame payload 240, frame numbering off, low contention
    priority, 15 s inter-frame timeout, 10 s NAK back-off, 6 retries per
    frame, CR between records. *)
Definition DefaultLis1A1ProtocolSettings : Settings :=
  {| maxFramePayload := 240; frameNumberEnabled := false;
     contentionRole := lowPriority; interFrameTimeout := 15;
     nakBackoff := 10; maxRetriesPerFrame := 6; recordSeparator := CR |}.

Definition EnableFrameNumber (s : Settings) : Settings :=
  {| maxFramePayload := maxFramePayload s; frameNumberEnabled := true;
     contentionRole := contentionRole s;
     interFrameTimeout := interFrameTimeout s; nakBackoff := nakBackoff s;
     maxRetriesPerFrame := maxRetriesPerFrame s;
     recordSeparator := recordSeparator s |}.

(** Modelled from the spec: the frame counter starts at 1 and wraps
    7 -> 0; on the wire it is a single digit. *)
Definition firstFrame : nat := 1.
Definition nextFrame (F : nat) : nat := (F + 1) mod 8.

Definition frameDigit (F : nat) : byte :=
  nth (F mod 8) [x30; x31; x32; x33; x34; x35; x36; x37] x30.

(** *** The duplex byte stream *)

(** Modelled from the spec: the minimal duplex stream the protocol is
    defined against (section 9), in state-passing style. [write] hands
    bytes to the peer, [read] takes the next byte the peer sent, or reports
    that none arrived before the deadline. *)
Record Stream (Conn : Type) : Type := mkStream {
  write : Conn -> list byte -> Conn;
  read : Conn -> option byte * Conn
}.
Arguments write {Conn} _ _ _.
Arguments read {Conn} _ _.

(** *** Receiver *)

(** Modelled from the spec: the receiver path of the state machine (section
    4.5). [Verify] is the table's "Receiving (verify)": the terminator was
    seen and the two checksum bytes, CR and LF are being read. *)
Inductive RxPhase : Set :=
| Idle
| Receiving (frame : list byte)
| Verify (terminator : byte) (frame : list byte) (trailer : list byte).

Record RxState : Set := mkRx {
  phase : RxPhase;
  expected : nat;
  message : list byte;
  delivered : option (list byte)
}.

Definition rxInit : RxState :=
  {| phase := Idle; expected := firstFrame; message := []; delivered := None |}.

Definition bytes_eqb (a b : list byte) : bool :=
  if list_eq_dec Byte.byte_eq_dec a b then true else false.

(** Modelled from the spec: the payload of a received frame when its
    trailer verifies - the checksum matches byte for byte, CR LF follows,
    and (with frame numbering) the leading digit is the expected frame
    number. *)
Definition verifyFrame (s : Settings) (expect : nat) (terminator : byte)
    (frame trailer : list byte) : option (list byte) :=
  match trailer with
  | [c1; c2; cr; lf] =>
      if bytes_eqb [c1; c2] (computeChecksum [] frame [terminator])
         && Byte.eqb cr CR && Byte.eqb lf LF
      then
        if frameNumberEnabled s then
          match frame with
          | d :: payload =>
              if Byte.eqb d (frameDigit expect) then Some payload else None
          | [] => None
          end
        else Some frame
      else None
  | _ => None
  end.

(** Modelled from the spec: the receiver's transition on one inbound
    byte - the new state and the bytes sent back. Inputs for which the
    table has no row leave the state unchanged. *)
Definition rxStep (s : Settings) (st : RxState) (b : byte)
  : RxState * list byte :=
  match delivered st with
  | Some _ => (st, [])
  | None =>
      match phase st with
      | Idle =>
          if Byte.eqb b ENQ
          then (mkRx (Receiving []) (expected st) (message st) None, [ACK])
          else (st, [])
      | Receiving frame =>
          if Byte.eqb b STX
          then (mkRx (Receiving []) (expected st) (message st) None, [])
          else if Byte.eqb b ETX || Byte.eqb b ETB
          then (mkRx (Verify b frame []) (expected st) (message st) None, [])
          else if Byte.eqb b EOT
          then (mkRx Idle firstFrame [] (Some (message st)), [])
          else if isControl b
          then (st, [])
          else (mkRx (Receiving (frame ++ [b])) (expected st) (message st) None, [])
      | Verify terminator frame trailer =>
          let trailer := trailer ++ [b] in
          if List.length trailer <? 4
          then (mkRx (Verify terminator frame trailer) (expected st)
                     (message st) None, [])
          else
            match verifyFrame s (expected st) terminator frame trailer with
            | Some payload =>
                let sep :=
                  if Byte.eqb terminator ETX then [recordSeparator s] else [] in
                (mkRx (Receiving []) (nextFrame (expected st))
                      (message st ++ payload ++ sep) None, [ACK])
            | None =>
                (mkRx (Receiving []) (expected st) (message st) None, [NAK])
            end
      end
  end.

Fixpoint rxFeed (s : Settings) (st : RxState) (bs : list byte)
  : RxState * list byte :=
  match bs with
  | [] => (st, [])
  | b :: rest =>
      let (st1, out1) := rxStep s st b in
      let (st2, out2) := rxFeed s st1 rest in
      (st2, out1 ++ out2)
  end.

(** Modelled from the spec: [Receive] - what the receiving end returns
    once the stream has carried [bs]; [None] while no message has been
    delivered. *)
Definition Receive (s : Settings) (bs : list byte) : option (list byte) :=
  delivered (fst (rxFeed s rxInit bs)).

(** *** Sender *)

(** Modelled from the spec: frames longer than [maxFramePayload] are split,
    all but the last closed by ETB, the last by ETX. *)
Fixpoint splitRecord (fuel n : nat) (payload : list byte)
  : list (list byte * byte) :=
  match fuel with
  | O => [(payload, ETX)]
  | S k =>
      if List.length payload <=? n then [(payload, ETX)]
      else (firstn n payload, ETB) :: splitRecord k n (skipn n payload)
  end.

Definition framesOf (s : Settings) (records : list (list byte))
  : list (list byte * byte) :=
  flat_map (fun r => splitRecord (List.length r) (maxFramePayload s) r) records.

(** Modelled from the spec: the bytes of one frame on the wire - STX, the
    frame number when enabled, the payload, ETX or ETB, the checksum, CR
    LF. *)
Definition frameBytes (s : Settings) (F : nat) (payload : list byte)
    (terminator : byte) : list byte :=
  let no := if frameNumberEnabled s then [frameDigit F] else [] in
  STX :: no ++ payload ++ terminator
      :: computeChecksum no payload [terminator] ++ [CR; LF].

Inductive SendEnd : Set :=
| Sent
| Yielded
| Failed (kind : ErrorType).

Section Sender.

Context {Conn : Type} (io : Stream Conn) (s : Settings).

(** Modelled from the spec: SendingFrames - write the frame and wait for
    the answer; on NAK the same frame is written again, [more] further
    times at most, and the last NAK fails the send. *)
Fixpoint transmit (more : nat) (frame : list byte) (c : Conn) : Conn * SendEnd :=
  let c := write io c frame in
  match read io c with
  | (None, c) => (c, Failed ErrorTimeout)
  | (Some b, c) =>
      if Byte.eqb b ACK then (c, Sent)
      else
        match more with
        | O => (c, Failed ErrorChecksumMismatch)
        | S k => transmit k frame c
        end
  end.

(** Modelled from the spec: the frames are sent in order, the frame number
    advancing with each acknowledged frame; EOT closes the transmission. *)
Fixpoint sendFrames (frames : list (list byte * byte)) (F : nat) (c : Conn)
  : Conn * SendEnd :=
  match frames with
  | [] => (write io c [EOT], Sent)
  | (payload, terminator) :: rest =>
      match transmit (maxRetriesPerFrame s - 1)
                     (frameBytes s F payload terminator) c with
      | (c, Sent) => sendFrames rest (nextFrame F) c
      | (c, e) => (c, e)
      end
  end.

(** Modelled from the spec: Idle -> AwaitingACK - send ENQ and wait for
    ACK. ENQ from the peer is contention: the low-priority side answers ACK
    and yields, the high-priority side asks again, as it does after NAK. *)
Fixpoint establish (more : nat) (c : Conn) : Conn * SendEnd :=
  let c := write io c [ENQ] in
  match read io c with
  | (None, c) => (c, Failed ErrorTimeout)
  | (Some b, c) =>
      if Byte.eqb b ACK then (c, Sent)
      else if Byte.eqb b ENQ
              && match contentionRole s with
                 | lowPriority => true
                 | highPriority => false
                 end
      then (write io c [ACK], Yielded)
      else
        match more with
        | O => (c, Failed ErrorTimeout)
        | S k => establish k c
        end
  end.

(** Modelled from the spec: [Send] of the sender path (section 4.5). *)
Definition Send (c : Conn) (records : list (list byte)) : Conn * SendEnd :=
  match establish (maxRetriesPerFrame s - 1) c with
  | (c, Sent) => sendFrames (framesOf s records) firstFrame c
  | (c, e) => (c, e)
  end.

End Sender.

(** *** The two ends of a pipe *)

(** Modelled from the spec: the sender's view of an in-memory pipe whose
    other end runs [Receive] - the bytes written so far, the receiver's
    state and the answers not yet read. *)
Record Pipe : Set := mkPipe {
  wire : list byte;
  peer : RxState;
  inbox : list byte
}.

Definition pipeStream (r : Settings) : Stream Pipe :=
  {| write := fun p bs =>
       let (st, out) := rxFeed r (peer p) bs in
       mkPipe (wire p ++ bs) st (inbox p ++ out);
     read := fun p =>
       match inbox p with
       | [] => (None, p)
       | b :: rest => (Some b, mkPipe (wire p) (peer p) rest)
       end |}.

Definition pipeInit : Pipe := mkPipe [] rxInit [].

(** Send on one end with the settings [snd_], Receive on the other end
    with the settings [rcv]: what Send returns and what Receive returns. *)
Definition sendAndReceive (snd_ rcv : Settings) (records : list (list byte))
  : SendEnd * option (list byte) :=
  let (p, e) := Send (pipeStream rcv) snd_ pipeInit records in
  (e, delivered (peer p)).

(** A scripted peer that acknowledges everything, recording what it is
    sent (the instrument of [TestSendData]). *)
Definition ackingPeer : Stream (list byte) :=
  {| write := fun w bs => w ++ bs; read := fun w => (Some ACK, w) |}.

Definition join (records : list (list byte)) (sep : byte) : list byte :=
  flat_map (fun r => r ++ [sep]) records.

End Lis1A1.

(** ** Observations on traces *)

Definition isConnected (ev : Event) : bool :=
  match ev with
  | OnConnected _ => true
  | _ => false
  end.

Definition isDataReceived (ev : Event) : bool :=
  match ev with
  | OnDataReceived _ _ _ => true
  | _ => false
  end.

Definition countConnected (tr : list Event) : nat :=
  List.length (filter isConnected tr).

Definition isListing (ev : Event) : bool :=
  match ev with
  | ReadDir _ | List_ _ => true
  | _ => false
  end.

(** The order of the handler callbacks in one run: [Connected] is invoked
    at most once; every [DataReceived] has exactly one [Connected] before
    it and none after it; a run that polls the directory has invoked
    [Connected] exactly once; and when [Connected] returns a rejection the
    next and last event is an [Error] report, the run returns and there is
    no [DataReceived]. *)
Definition ConnectedDiscipline (run : list Event * RunEnd) : Prop :=
  let tr := fst run in
  (countConnected tr <= 1)%nat
  /\ (forall pre data t r post,
         tr = (pre ++ OnDataReceived data t r :: post)%list ->
         countConnected pre = 1%nat /\ countConnected post = 0%nat)
  /\ (forall ev, In ev tr -> isListing ev = true -> countConnected tr = 1%nat)
  /\ (forall e,
         In (OnConnected (Some e)) tr ->
         snd run = Returned
         /\ (exists pre kind err,
                tr = (pre ++ [OnConnected (Some e); OnError kind err])%list)
         /\ (forall data t r, ~ In (OnDataReceived data t r) tr)).

(** A round after which the loop goes round again: it took [continue], or
    its [select] saw the poll interval elapse. *)
Definition sftpGoesOn (r : PollRound) : bool :=
  match listing r with
  | (_, Some _) => true
  | ([], None) => true
  | (_ :: _, None) =>
      match wake r with
      | PollIntervalElapsed => true
      | Terminated => false
      end
  end.

Definition ftpGoesOn (r : PollRound) : bool :=
  match listing r with
  | (_, Some _) => true
  | (_, None) =>
      match wake r with
      | PollIntervalElapsed => true
      | Terminated => false
      end
  end.

(** Does the file filter let [name] through? *)
Definition matchesMask (P : Platform) (instance : ftpServerInstance)
    (name : string) : Prop :=
  Match P (ToUpper P (filemask instance)) (ToUpper P name) = (true, None).

(** Concrete inputs used below. *)
Definition asciiUpper (c : ascii) : ascii :=
  let n := nat_of_ascii c in
  if ((97 <=? n) && (n <=? 122))%nat then ascii_of_nat (n - 32) else c.

Fixpoint asciiToUpper (s : string) : string :=
  match s with
  | EmptyString => EmptyString
  | String c rest => String (asciiUpper c) (asciiToUpper rest)
  end.

(** A platform for ASCII names and masks without wildcards. *)
Definition asciiPlatform : Platform :=
  {| ToUpper := asciiToUpper;
     Match := fun mask name => (String.eqb mask name, None) |}.

Definition sampleInstance (ftptype : FTPType) : ftpServerInstance :=
  fst (CreateSFTPClient ftptype "lab.example" 21 "/in/" "ORDER.DAT" DefaultFTPConfig).

Definition sampleFile : PolledFile :=
  {| Name := "ORDER.DAT"; ModTime := 1697300667;
     renameErr := None; openErr := None;
     readAll := (list_byte_of_string "H|1", None); closeErr := None;
     dataReceivedErr := None; removeErr := None |}.

Definition refusedFile : PolledFile :=
  {| Name := "ORDER.DAT"; ModTime := 1697300667;
     renameErr := None; openErr := None;
     readAll := (list_byte_of_string "H|1", None); closeErr := None;
     dataReceivedErr := Some "not processed"; removeErr := None |}.

Definition otherFile : PolledFile :=
  {| Name := "README.TXT"; ModTime := 1697300000;
     renameErr := None; openErr := None;
     readAll := (list_byte_of_string "read me", None); closeErr := None;
     dataReceivedErr := None; removeErr := None |}.

Definition lowerCaseFile : PolledFile :=
  {| Name := "order.dat"; ModTime := 1697300667;
     renameErr := None; openErr := None;
     readAll := (list_byte_of_string "H|1", None); closeErr := None;
     dataReceivedErr := None; removeErr := None |}.

(** Two polls: an empty directory first, then one with two files. *)
Definition twoPollsRemote : Remote :=
  {| hostKeyDecodeErr := None; hostKeyParseErr := None; dialErr := None;
     newClientErr := None; loginErr := None; connectedErr := None;
     rounds := [mkPollRound ([], None) PollIntervalElapsed;
                mkPollRound ([otherFile; lowerCaseFile], None) Terminated] |}.

Definition sampleRemote : Remote :=
  {| hostKeyDecodeErr := None; hostKeyParseErr := None; dialErr := None;
     newClientErr := None; loginErr := None; connectedErr := None;
     rounds := [mkPollRound ([sampleFile], None) Terminated] |}.

Definition unreachableRemote : Remote :=
  {| hostKeyDecodeErr := None; hostKeyParseErr := None;
     dialErr := Some "connection refused";
     newClientErr := None; loginErr := None; connectedErr := None;
     rounds := [] |}.

Definition rejectingRemote : Remote :=
  {| hostKeyDecodeErr := None; hostKeyParseErr := None; dialErr := None;
     newClientErr := None; loginErr := None; connectedErr := Some "rejected";
     rounds := [mkPollRound ([sampleFile], None) Terminated] |}.

Definition sampleNow : Now := mkNow 2023 10 14 16 24 27 0.

Definition sampleSendWorld : SendWorld :=
  {| now := sampleNow;
     s_hostKeyDecodeErr := None; s_hostKeyParseErr := None; s_dialErr := None;
     s_newClientErr := None; s_loginErr := None; s_storErr := None;
     s_createErr := None;
     s_write := fun data => (Z.of_nat (List.length data), None) |}.

(** ** Further observations and inputs *)

(** The line break that [addLineEndings] selects for a setting. *)
Definition lineBreakBytes (l : LINEBREAK) : list byte :=
  if l =? LINEBREAK_CR then [x0d]
  else if l =? LINEBREAK_CRLF then [x0d; x0a]
  else [x0a].

(** Total length of a list of messages. *)
Definition totalLength (msg : list (list byte)) : nat :=
  fold_right (fun m n => (List.length m + n)%nat) 0%nat msg.

(** The first letters of the tokens that [generateFileName] replaces. *)
Definition tokenLetters : string := "yMdhmscn#".

(** A text in which no token of [generateFileName] can start. *)
Fixpoint tokenFree (s : string) : bool :=
  match s with
  | EmptyString => true
  | String c rest => negb (Go.mem_ascii c tokenLetters) && tokenFree rest
  end.

Definition isError (ev : Event) : bool :=
  match ev with
  | OnError _ _ => true
  | _ => false
  end.

Definition isDelete (ev : Event) : bool :=
  match ev with
  | Remove _ | Delete _ => true
  | _ => false
  end.


Definition countEvents (f : Event -> bool) (tr : list Event) : nat :=
  List.length (filter f tr).

(** A round in which the SFTP loop takes [continue]: the listing failed or
    the directory is empty. *)
Definition skipsSelect (r : PollRound) : bool :=
  match listing r with
  | (_, Some _) => true
  | ([], None) => true
  | (_ :: _, None) => false
  end.

(** The same instance with another host path, or another configuration. *)
Definition withHostpath (instance : ftpServerInstance) (h : string)
  : ftpServerInstance :=
  {| ftpType := ftpType instance; host := host instance; port := port instance;
     hostpath := h; filemask := filemask instance; config := config instance;
     isRunning := isRunning instance |}.

Definition withConfig (instance : ftpServerInstance) (conf : ftpConfiguration)
  : ftpServerInstance :=
  {| ftpType := ftpType instance; host := host instance; port := port instance;
     hostpath := hostpath instance; filemask := filemask instance;
     config := conf; isRunning := isRunning instance |}.

Definition emptyRound : PollRound := mkPollRound ([], None) Terminated.

Definition failedRound : PollRound :=
  mkPollRound ([], Some "listing failed") Terminated.

Definition unreadableFile : PolledFile :=
  {| Name := "ORDER.DAT"; ModTime := 1697300667;
     renameErr := None; openErr := Some "permission denied";
     readAll := ([], None); closeErr := None;
     dataReceivedErr := None; removeErr := None |}.

Definition badHostKeyRemote : Remote :=
  {| hostKeyDecodeErr := Some "illegal base64 data"; hostKeyParseErr := None;
     dialErr := None; newClientErr := None; loginErr := None;
     connectedErr := None;
     rounds := [mkPollRound ([sampleFile], None) Terminated] |}.

Definition refusingSendWorld : SendWorld :=
  {| now := sampleNow;
     s_hostKeyDecodeErr := None; s_hostKeyParseErr := None;
     s_dialErr := Some "connection refused";
     s_newClientErr := None; s_loginErr := None; s_storErr := None;
     s_createErr := None;
     s_write := fun data => (Z.of_nat (List.length data), None) |}.

(** * Properties *)

(** ** Go helpers on concrete inputs *)

Example Itoa_2023 : Go.Itoa 2023 = "2023".
Proof. reflexivity. Qed.

Example Sprintf_02d_7 : Go.Sprintf_0d 2 7 = "07".
Proof. reflexivity. Qed.

Example Replace_yyyy :
  Go.Replace "yyyyMMddhhmmss-#.dat" "yyyy" "2023" = "2023MMddhhmmss-#.dat".
Proof. reflexivity. Qed.

Example TrimRight_slashes : Go.TrimRight "/in/orders//" "/" = "/in/orders".
Proof. reflexivity. Qed.

Example generateFileName_default :
  generateFileName sampleNow "yyyyMMddhhmmss-#.dat" "AUTO-" "" 1
  = Some "AUTO-20231014162427-1.dat".
Proof. reflexivity. Qed.

(** ** generateFileName *)

Lemma TrimLeft_dot (cutset : string) :
  Go.TrimLeft "." cutset = if Go.mem_ascii "." cutset then "" else ".".
Proof. simpl. destruct (Go.mem_ascii "." cutset); reflexivity. Qed.

(** With a non-empty suffix the substituted pattern is overwritten: the
    result is the prefix followed by one or two dots, whatever the pattern
    and the counter are. *)
Lemma generateFileName_nonempty_suffix (t : Now) (pattern pre suf : string)
    (cnt : Z) (yy : string) :
  suf <> "" ->
  Go.slice_from 2 (Go.Itoa (Year t)) = Some yy ->
  generateFileName t pattern pre suf cnt
  = Some (pre ++ (if Go.mem_ascii "." suf then "." else "..")).
Proof.
  intros Hsuf Hyy. unfold generateFileName. rewrite Hyy.
  destruct (String.eqb_spec suf "") as [E | _]; [contradiction | ].
  rewrite TrimLeft_dot. destruct (Go.mem_ascii "." suf); reflexivity.
Qed.

(** C4. With pattern "#.dat", prefix "AUTO-", suffix "x" and counter 1 the
    code returns "AUTO-..": the substituted pattern "1.dat" is not part of
    the result and neither is the suffix. *)
Theorem generateFileName_suffix_drops_name :
  generateFileName sampleNow "#.dat" "AUTO-" "x" 1 = Some "AUTO-.."
  /\ substitutedPattern sampleNow "#.dat" 1 = Some "1.dat"
  /\ Go.Contains "AUTO-.." "1.dat" = false
  /\ Go.Contains "AUTO-.." "x" = false.
Proof. repeat split; vm_compute; reflexivity. Qed.

(** ** RemoteAddress *)

Lemma bumpCounter_host (instance : ftpServerInstance) :
  host (bumpCounter instance) = host instance.
Proof. reflexivity. Qed.

Lemma ftpSend_host (w : SendWorld) (instance : ftpServerInstance)
    (msg : list (list byte)) :
  host (after (ftpSend w instance msg)) = host instance.
Proof.
  unfold ftpSend.
  destruct (s_dialErr w); [reflexivity | ].
  destruct (negb _); [reflexivity | ].
  destruct (s_loginErr w); [reflexivity | ].
  destruct (nextFileName w (bumpCounter instance)); [ | reflexivity].
  destruct (s_storErr w); reflexivity.
Qed.

Lemma sftpSend_host (w : SendWorld) (instance : ftpServerInstance)
    (msg : list (list byte)) :
  host (after (sftpSend w instance msg)) = host instance.
Proof.
  unfold sftpSend.
  destruct (negb _); [reflexivity | ].
  match goal with |- context [match ?x with Some _ => _ | None => _ end] =>
    destruct x end; [reflexivity | ].
  destruct (s_dialErr w); [reflexivity | ].
  destruct (s_newClientErr w); [reflexivity | ].
  destruct (nextFileName w (bumpCounter instance)); [ | reflexivity].
  destruct (s_createErr w); [reflexivity | ].
  destruct (s_write w _) as [n [e | ]]; reflexivity.
Qed.

(** C8. [RemoteAddress] returns the configured host with a nil error, for
    every instance: as created, whether running or not, and after any
    [Send]. *)
Theorem RemoteAddress_never_fails :
  (forall instance : ftpServerInstance,
      RemoteAddress instance = (host instance, None))
  /\ (forall ftptype h p hostpath filemask conf,
         RemoteAddress (fst (CreateSFTPClient ftptype h p hostpath filemask conf))
         = (h, None))
  /\ (forall w instance msg,
         RemoteAddress (after (Send w instance msg)) = (host instance, None)).
Proof.
  split; [ | split].
  - intro instance. reflexivity.
  - intros. reflexivity.
  - intros w instance msg. unfold RemoteAddress. f_equal.
    unfold Send.
    destruct (ftpType instance =? FTP); [apply ftpSend_host | ].
    destruct (ftpType instance =? SFTP); [apply sftpSend_host | reflexivity].
Qed.

(** ** Send: the returned byte count *)

Lemma ftpSend_returns_minus_one (w : SendWorld) (instance : ftpServerInstance)
    (msg : list (list byte)) (n : Z) (e : option error) :
  returned (ftpSend w instance msg) = Go.Returns (n, e) -> n = -1.
Proof.
  unfold ftpSend.
  destruct (s_dialErr w); [simpl; congruence | ].
  destruct (negb _); [simpl; discriminate | ].
  destruct (s_loginErr w); [simpl; congruence | ].
  destruct (nextFileName w (bumpCounter instance)); [ | simpl; discriminate].
  destruct (s_storErr w); simpl; congruence.
Qed.

Lemma ftpSend_stored (w : SendWorld) (instance : ftpServerInstance)
    (msg : list (list byte)) (path : string) (data : list byte) :
  In (Stor path data) (issued (ftpSend w instance msg)) ->
  s_storErr w = None ->
  returned (ftpSend w instance msg) = Go.Returns (-1, None).
Proof.
  unfold ftpSend.
  destruct (s_dialErr w); [simpl; intuition discriminate | ].
  destruct (negb _); [simpl; intuition discriminate | ].
  destruct (s_loginErr w); [simpl; intuition discriminate | ].
  destruct (nextFileName w (bumpCounter instance));
    [ | simpl; intuition discriminate].
  intros _ ->. reflexivity.
Qed.

Lemma sftpSend_written (w : SendWorld) (instance : ftpServerInstance)
    (msg : list (list byte)) (data : list byte) :
  In (Write data) (issued (sftpSend w instance msg)) ->
  data = addLineEndings instance msg (linebreak (config instance))
  /\ (snd (s_write w data) = None ->
      returned (sftpSend w instance msg)
      = Go.Returns (fst (s_write w data), None)).
Proof.
  unfold sftpSend.
  destruct (negb _); [simpl; intuition discriminate | ].
  match goal with |- context [match ?x with Some _ => _ | None => _ end] =>
    destruct x end; [simpl; intuition discriminate | ].
  destruct (s_dialErr w); [simpl; intuition discriminate | ].
  destruct (s_newClientErr w); [simpl; intuition discriminate | ].
  destruct (nextFileName w (bumpCounter instance));
    [ | simpl; intuition discriminate].
  destruct (s_createErr w); [simpl; intuition discriminate | ].
  set (databytes := addLineEndings instance msg (linebreak (config instance))).
  destruct (s_write w databytes) as [n err] eqn:Hw.
  assert (Hin : In (Write data)
                   [Dial (serverAddress instance); NewClient;
                    Create (ftpPathOf instance ++ s); Write databytes]
                -> data = databytes).
  { simpl. intros [H | [H | [H | [H | []]]]]; congruence. }
  destruct err; simpl issued; intro H; apply Hin in H; subst data;
    (split; [reflexivity | ]); rewrite Hw; simpl; [discriminate | reflexivity].
Qed.

(** A send in which every step succeeds. *)
Lemma ftpSend_success (w : SendWorld) (instance : ftpServerInstance)
    (msg : list (list byte)) (name : string) :
  s_dialErr w = None ->
  authMethod (config instance) = PASSWORD ->
  s_loginErr w = None ->
  nextFileName w (bumpCounter instance) = Some name ->
  s_storErr w = None ->
  ftpSend w instance msg
  = mkSendResult (Go.Returns (-1, None)) (bumpCounter instance)
      [Dial (serverAddress instance);
       Login (user (config instance)) (key (config instance));
       Stor (ftpPathOf instance ++ name)
            (addLineEndings instance msg (linebreak (config instance)))].
Proof.
  intros Hd Ha Hl Hn Hs. unfold ftpSend. rewrite Hd, Ha, Hl, Hn, Hs.
  reflexivity.
Qed.

Lemma sftpSend_success (w : SendWorld) (instance : ftpServerInstance)
    (msg : list (list byte)) (name : string) (n : Z) :
  authMethod (config instance) = PASSWORD
  \/ authMethod (config instance) = PUBKEY ->
  hostkey (config instance) = ""
  \/ (s_hostKeyDecodeErr w = None /\ s_hostKeyParseErr w = None) ->
  s_dialErr w = None ->
  s_newClientErr w = None ->
  nextFileName w (bumpCounter instance) = Some name ->
  s_createErr w = None ->
  s_write w (addLineEndings instance msg (linebreak (config instance)))
  = (n, None) ->
  sftpSend w instance msg
  = mkSendResult (Go.Returns (n, None)) (bumpCounter instance)
      [Dial (serverAddress instance); NewClient;
       Create (ftpPathOf instance ++ name);
       Write (addLineEndings instance msg (linebreak (config instance)))].
Proof.
  intros Ha Hk Hd Hc Hn Hcr Hw. unfold sftpSend.
  assert (Ha' : (authMethod (config instance) =? PASSWORD)
                || (authMethod (config instance) =? PUBKEY) = true).
  { destruct Ha as [-> | ->]; reflexivity. }
  rewrite Ha'. simpl negb. cbv iota.
  assert (Hk' : (if String.eqb (hostkey (config instance)) "" then None
                 else match s_hostKeyDecodeErr w with
                      | Some e => Some e
                      | None => s_hostKeyParseErr w
                      end) = None).
  { destruct Hk as [-> | [-> ->]]; [reflexivity | ].
    destruct (String.eqb (hostkey (config instance)) ""); reflexivity. }
  rewrite Hk', Hd, Hc, Hn, Hcr, Hw. reflexivity.
Qed.

(** A nil error from [sftpSend] means the data was written, and the count
    is the one the write reported. *)
Lemma sftpSend_nil_error (w : SendWorld) (instance : ftpServerInstance)
    (msg : list (list byte)) (n : Z) :
  returned (sftpSend w instance msg) = Go.Returns (n, None) ->
  In (Write (addLineEndings instance msg (linebreak (config instance))))
     (issued (sftpSend w instance msg))
  /\ s_write w (addLineEndings instance msg (linebreak (config instance)))
     = (n, None).
Proof.
  unfold sftpSend.
  destruct (negb _); [simpl; discriminate | ].
  match goal with |- context [match ?x with Some _ => _ | None => _ end] =>
    destruct x end; [simpl; discriminate | ].
  destruct (s_dialErr w); [simpl; discriminate | ].
  destruct (s_newClientErr w); [simpl; discriminate | ].
  destruct (nextFileName w (bumpCounter instance)); [ | simpl; discriminate].
  destruct (s_createErr w); [simpl; discriminate | ].
  destruct (s_write w _) as [k [e' | ]]; simpl; [discriminate | ].
  intro H. injection H as ->. split; [tauto | reflexivity].
Qed.

(** C10. [ftpSend] returns -1 as its count whenever it returns, also when
    the upload was issued and [Stor] succeeded, where the error is nil: a
    send in which the dial, the login and [Stor] succeed stores the data
    and returns (-1, nil). [sftpSend] returns the number of bytes written:
    a send in which every step succeeds writes the messages with their
    line endings and returns the count reported by that write with a nil
    error, and whenever it returns a nil error it has written that data
    and the count is the one the write reported. *)
Theorem ftpSend_minus_one_sftpSend_bytesWritten :
  forall (w : SendWorld) (instance : ftpServerInstance) (msg : list (list byte)),
    let databytes := addLineEndings instance msg (linebreak (config instance)) in
    (forall n e,
        returned (ftpSend w instance msg) = Go.Returns (n, e) -> n = -1)
    /\ (forall path data,
           In (Stor path data) (issued (ftpSend w instance msg)) ->
           s_storErr w = None ->
           returned (ftpSend w instance msg) = Go.Returns (-1, None))
    /\ (forall data,
           In (Write data) (issued (sftpSend w instance msg)) ->
           snd (s_write w data) = None ->
           returned (sftpSend w instance msg)
           = Go.Returns (fst (s_write w data), None))
    /\ (forall name,
           s_dialErr w = None ->
           authMethod (config instance) = PASSWORD ->
           s_loginErr w = None ->
           nextFileName w (bumpCounter instance) = Some name ->
           s_storErr w = None ->
           returned (ftpSend w instance msg) = Go.Returns (-1, None)
           /\ In (Stor (ftpPathOf instance ++ name) databytes)
                 (issued (ftpSend w instance msg)))
    /\ (forall name n,
           authMethod (config instance) = PASSWORD
           \/ authMethod (config instance) = PUBKEY ->
           hostkey (config instance) = ""
           \/ (s_hostKeyDecodeErr w = None /\ s_hostKeyParseErr w = None) ->
           s_dialErr w = None ->
           s_newClientErr w = None ->
           nextFileName w (bumpCounter instance) = Some name ->
           s_createErr w = None ->
           s_write w databytes = (n, None) ->
           returned (sftpSend w instance msg) = Go.Returns (n, None)
           /\ In (Write databytes) (issued (sftpSend w instance msg)))
    /\ (forall n,
           returned (sftpSend w instance msg) = Go.Returns (n, None) ->
           In (Write databytes) (issued (sftpSend w instance msg))
           /\ s_write w databytes = (n, None)).
Proof.
  intros w instance msg databytes.
  split; [ | split; [ | split; [ | split; [ | split]]]].
  - intros n e. apply ftpSend_returns_minus_one.
  - intros path data. apply ftpSend_stored.
  - intros data Hin. apply (sftpSend_written w instance msg data Hin).
  - intros name Hd Ha Hl Hn Hs.
    rewrite (ftpSend_success w instance msg name Hd Ha Hl Hn Hs).
    split; [reflexivity | simpl; tauto].
  - intros name n Ha Hk Hd Hc Hn Hcr Hw.
    rewrite (sftpSend_success w instance msg name n Ha Hk Hd Hc Hn Hcr Hw).
    split; [reflexivity | simpl; tauto].
  - intro n. apply sftpSend_nil_error.
Qed.

(** ** The polling loops: where the events of a run come from *)

Ltac file_cases P instance file :=
  destruct (Match P (ToUpper P (filemask instance)) (ToUpper P (Name file)))
    as [[ | ] [? | ]];
  destruct (renameErr file); destruct (openErr file);
  destruct (readAll file) as [? [? | ]];
  destruct (closeErr file); destruct (dataReceivedErr file);
  destruct (deleteAfterRead (config instance)); destruct (removeErr file).

(** What a file body delivers is the content and the modification time of
    its own file, and it does so only for a file that passes the filter
    and could be read. *)
Lemma sftpPollFile_delivers P instance ftpPath file data t r :
  In (OnDataReceived data t r) (sftpPollFile P instance ftpPath file) ->
  data = fst (readAll file) /\ t = ModTime file /\ r = dataReceivedErr file
  /\ matchesMask P instance (Name file).
Proof.
  unfold sftpPollFile, matchesMask.
  file_cases P instance file; simpl;
    intuition (try discriminate; try congruence).
Qed.

Lemma ftpPollFile_delivers P instance ftpPath file data t r :
  In (OnDataReceived data t r) (ftpPollFile P instance ftpPath file) ->
  data = fst (readAll file) /\ t = ModTime file /\ r = dataReceivedErr file
  /\ matchesMask P instance (Name file).
Proof.
  unfold ftpPollFile, matchesMask.
  file_cases P instance file; simpl;
    intuition (try discriminate; try congruence).
Qed.

(** Every event of the SFTP loop is the directory listing, the report of a
    failed listing, or an event of the body run on a listed file. *)
Lemma sftpPoll_events P instance ftpPath rs ev :
  In ev (fst (sftpPoll P instance ftpPath rs)) ->
  ev = ReadDir ftpPath
  \/ (exists e, ev = OnError ErrorReceive (Some e))
  \/ (exists r file, In r rs /\ In file (fst (listing r))
                     /\ In ev (sftpPollFile P instance ftpPath file)).
Proof.
  induction rs as [ | r rest IH]; simpl; [intros [] | ].
  destruct (listing r) as [files [e | ]] eqn:Hl.
  - destruct (sftpPoll P instance ftpPath rest) as [tr e'].
    simpl in *. intros [H | [H | H]]; eauto.
    destruct (IH H) as [H1 | [H1 | (r' & f & Hr & Hf & Hin)]]; eauto 8.
  - assert (Hbody : forall fs, fs = files ->
              In ev (flat_map (sftpPollFile P instance ftpPath) fs) ->
              exists r' file, (r = r' \/ In r' rest)
                /\ In file (fst (listing r'))
                /\ In ev (sftpPollFile P instance ftpPath file)).
    { intros fs -> H. apply in_flat_map in H. destruct H as (f & Hf & Hin).
      exists r, f. rewrite Hl. auto. }
    destruct files as [ | f0 fs].
    + destruct (sftpPoll P instance ftpPath rest) as [tr e'].
      simpl in *. intros [H | H]; eauto.
      destruct (IH H) as [H1 | [H1 | (r' & f & Hr & Hf & Hin)]]; eauto 8.
    + destruct (wake r).
      * destruct (sftpPoll P instance ftpPath rest) as [tr e'].
        simpl fst in *. intros [H | H]; [auto | ].
        apply in_app_or in H. destruct H as [H | H].
        -- right; right. apply (Hbody (f0 :: fs) eq_refl) in H.
           destruct H as (r' & f & Hr & Hf & Hin). eauto 8.
        -- destruct (IH H) as [H1 | [H1 | (r' & f & Hr & Hf & Hin)]]; eauto 8.
      * simpl fst. intros [H | H]; [auto | ].
        right; right. apply (Hbody (f0 :: fs) eq_refl) in H.
        destruct H as (r' & f & Hr & Hf & Hin). eauto 8.
Qed.

Lemma ftpPoll_events P instance ftpPath rs ev :
  In ev (fst (ftpPoll P instance ftpPath rs)) ->
  ev = List_ ftpPath
  \/ (exists e, ev = OnError ErrorReceive (Some e))
  \/ (exists r file, In r rs /\ In file (fst (listing r))
                     /\ In ev (ftpPollFile P instance ftpPath file)).
Proof.
  induction rs as [ | r rest IH]; simpl; [intros [] | ].
  destruct (listing r) as [files [e | ]] eqn:Hl.
  - destruct (ftpPoll P instance ftpPath rest) as [tr e'].
    simpl in *. intros [H | [H | H]]; eauto.
    destruct (IH H) as [H1 | [H1 | (r' & f & Hr & Hf & Hin)]]; eauto 8.
  - assert (Hbody :
              In ev (flat_map (ftpPollFile P instance ftpPath) files) ->
              exists r' file, (r = r' \/ In r' rest)
                /\ In file (fst (listing r'))
                /\ In ev (ftpPollFile P instance ftpPath file)).
    { intro H. apply in_flat_map in H. destruct H as (f & Hf & Hin).
      exists r, f. rewrite Hl. auto. }
    destruct (wake r).
    + destruct (ftpPoll P instance ftpPath rest) as [tr e'].
      simpl fst in *. intros [H | H]; [auto | ].
      apply in_app_or in H. destruct H as [H | H].
      * right; right. apply Hbody in H.
        destruct H as (r' & f & Hr & Hf & Hin). eauto 8.
      * destruct (IH H) as [H1 | [H1 | (r' & f & Hr & Hf & Hin)]]; eauto 8.
    + simpl fst. intros [H | H]; [auto | ].
      right; right. apply Hbody in H.
      destruct H as (r' & f & Hr & Hf & Hin). eauto 8.
Qed.

(** The events of a whole run are those of its setup or those of its loop. *)
Lemma runWithSFTP_events P instance w ev :
  In ev (fst (runWithSFTP P instance w)) ->
  isDataReceived ev = false /\
  (forall p, ev <> Remove p) /\ (forall p, ev <> Open p)
  \/ In ev (fst (sftpPoll P instance (ftpPathOf instance) (rounds w))).
Proof.
  unfold runWithSFTP.
  destruct (negb _); [simpl; intuition (subst; auto; discriminate) | ].
  match goal with |- context [match ?x with Some _ => _ | None => _ end] =>
    destruct x end; [simpl; intuition (subst; auto; discriminate) | ].
  destruct (dialErr w); [simpl; intuition (subst; auto; discriminate) | ].
  destruct (newClientErr w); [simpl; intuition (subst; auto; discriminate) | ].
  destruct (connectedErr w); [simpl; intuition (subst; auto; discriminate) | ].
  destruct (sftpPoll P instance (ftpPathOf instance) (rounds w)) as [tr e].
  simpl. intros [H | [H | [H | H]]]; auto;
    left; subst; repeat split; intros; discriminate.
Qed.

Lemma runWithFTP_events P instance w ev :
  In ev (fst (runWithFTP P instance w)) ->
  isDataReceived ev = false /\
  (forall p, ev <> Delete p) /\ (forall p q, ev <> Rename p q)
  \/ In ev (fst (ftpPoll P instance (ftpPathOf instance) (rounds w))).
Proof.
  unfold runWithFTP.
  destruct (dialErr w); [simpl; intuition (subst; auto; discriminate) | ].
  destruct (negb _); [simpl; intuition (subst; auto; discriminate) | ].
  destruct (loginErr w); [simpl; intuition (subst; auto; discriminate) | ].
  destruct (connectedErr w); [simpl; intuition (subst; auto; discriminate) | ].
  destruct (ftpPoll P instance (ftpPathOf instance) (rounds w)) as [tr e].
  simpl. intros [H | [H | [H | H]]]; auto;
    left; subst; repeat split; intros; discriminate.
Qed.

(** ** DataReceived: timestamp and content *)

(** C7. Every [DataReceived] issued by a run of either polling loop
    carries the modification time of a file of some polled listing,
    together with the content read from that same file. *)
Theorem DataReceived_receivedAt_is_ModTime :
  forall (P : Platform) (instance : ftpServerInstance) (w : Remote)
         (data : list byte) (t : Time) (r : option error),
    (In (OnDataReceived data t r) (fst (runWithSFTP P instance w)) ->
     exists round file,
       In round (rounds w) /\ In file (fst (listing round))
       /\ t = ModTime file /\ data = fst (readAll file))
    /\ (In (OnDataReceived data t r) (fst (runWithFTP P instance w)) ->
        exists round file,
          In round (rounds w) /\ In file (fst (listing round))
          /\ t = ModTime file /\ data = fst (readAll file)).
Proof.
  intros P instance w data t r. split; intro H.
  - apply runWithSFTP_events in H. destruct H as [[H _] | H]; [discriminate | ].
    apply sftpPoll_events in H.
    destruct H as [H | [[e H] | (round & file & Hr & Hf & Hin)]];
      try discriminate.
    apply sftpPollFile_delivers in Hin. exists round, file. tauto.
  - apply runWithFTP_events in H. destruct H as [[H _] | H]; [discriminate | ].
    apply ftpPoll_events in H.
    destruct H as [H | [[e H] | (round & file & Hr & Hf & Hin)]];
      try discriminate.
    apply ftpPollFile_delivers in Hin. exists round, file. tauto.
Qed.

Lemma DataReceived_receivedAt_is_ModTime_witness :
  (exists round file,
      In round (rounds sampleRemote) /\ In file (fst (listing round))
      /\ 1697300667 = ModTime file
      /\ list_byte_of_string "H|1" = fst (readAll file))
  /\ (exists round file,
         In round (rounds sampleRemote) /\ In file (fst (listing round))
         /\ 1697300667 = ModTime file
         /\ list_byte_of_string "H|1" = fst (readAll file)).
Proof.
  destruct (DataReceived_receivedAt_is_ModTime asciiPlatform
              (sampleInstance SFTP) sampleRemote
              (list_byte_of_string "H|1") 1697300667 None) as [Hs _].
  destruct (DataReceived_receivedAt_is_ModTime asciiPlatform
              (sampleInstance FTP) sampleRemote
              (list_byte_of_string "H|1") 1697300667 None) as [_ Hf].
  split.
  - apply Hs. simpl. tauto.
  - apply Hf. simpl. tauto.
Defined.

(** ** Delete after read *)

Lemma sftpPollFile_delete P instance ftpPath file data t r :
  In (OnDataReceived data t r) (sftpPollFile P instance ftpPath file) ->
  (r = None -> deleteAfterRead (config instance) = true ->
   exists pre post,
     sftpPollFile P instance ftpPath file
     = (pre ++ OnDataReceived data t r
            :: Remove (ftpPath ++ Name file) :: post)%list)
  /\ (r <> None \/ deleteAfterRead (config instance) = false ->
      forall p, ~ In (Remove p) (sftpPollFile P instance ftpPath file)).
Proof.
  unfold sftpPollFile.
  file_cases P instance file; simpl; intro H;
    (split; [intros Hr Hflag | intros Hor p Hin]);
    repeat match goal with
           | H : _ \/ _ |- _ => destruct H
           | H : False |- _ => destruct H
           | H : OnDataReceived _ _ _ = OnDataReceived _ _ _ |- _ =>
               injection H as <- <- <-
           end;
    try discriminate; try congruence;
    solve [ exists [Open (ftpPath ++ Name file)]; eexists; reflexivity ].
Qed.

Lemma ftpPollFile_delete P instance ftpPath file data t r :
  In (OnDataReceived data t r) (ftpPollFile P instance ftpPath file) ->
  (r = None -> deleteAfterRead (config instance) = true ->
   exists pre post,
     ftpPollFile P instance ftpPath file
     = (pre ++ OnDataReceived data t r
            :: Delete (ftpPath ++ Name file ++ ".processing") :: post)%list)
  /\ (r <> None \/ deleteAfterRead (config instance) = false ->
      forall p, ~ In (Delete p) (ftpPollFile P instance ftpPath file)).
Proof.
  unfold ftpPollFile.
  file_cases P instance file; simpl; intro H;
    (split; [intros Hr Hflag | intros Hor p Hin]);
    repeat match goal with
           | H : _ \/ _ |- _ => destruct H
           | H : False |- _ => destruct H
           | H : OnDataReceived _ _ _ = OnDataReceived _ _ _ |- _ =>
               injection H as <- <- <-
           end;
    try discriminate; try congruence;
    solve [ exists [Rename (ftpPath ++ Name file)
                           (ftpPath ++ Name file ++ ".processing");
                    Retr (ftpPath ++ Name file ++ ".processing")];
            eexists; reflexivity ].
Qed.

Lemma sftpPollFile_remove_iff P instance ftpPath file p :
  In (Remove p) (sftpPollFile P instance ftpPath file)
  <-> p = ftpPath ++ Name file
      /\ deleteAfterRead (config instance) = true
      /\ exists data t,
          In (OnDataReceived data t None) (sftpPollFile P instance ftpPath file).
Proof.
  unfold sftpPollFile.
  file_cases P instance file; simpl;
  (split;
    [ intro H;
      repeat match goal with
             | H : _ \/ _ |- _ => destruct H
             | H : False |- _ => destruct H
             end;
      try discriminate;
      (match goal with
       | H : Remove _ = Remove _ |- _ => injection H as <-
       end;
       (split; [reflexivity | split; [reflexivity | do 2 eexists; eauto 10]]))
    | intros (-> & Hflag & data & t & Hin);
      try discriminate Hflag;
      repeat match goal with
             | H : _ \/ _ |- _ => destruct H
             | H : False |- _ => destruct H
             end;
      try discriminate; auto 10 ]).
Qed.

Lemma ftpPollFile_delete_iff P instance ftpPath file p :
  In (Delete p) (ftpPollFile P instance ftpPath file)
  <-> p = ftpPath ++ Name file ++ ".processing"
      /\ deleteAfterRead (config instance) = true
      /\ exists data t,
          In (OnDataReceived data t None) (ftpPollFile P instance ftpPath file).
Proof.
  unfold ftpPollFile.
  file_cases P instance file; simpl;
  (split;
    [ intro H;
      repeat match goal with
             | H : _ \/ _ |- _ => destruct H
             | H : False |- _ => destruct H
             end;
      try discriminate;
      (match goal with
       | H : Delete _ = Delete _ |- _ => injection H as <-
       end;
       (split; [reflexivity | split; [reflexivity | do 2 eexists; eauto 10]]))
    | intros (-> & Hflag & data & t & Hin);
      try discriminate Hflag;
      repeat match goal with
             | H : _ \/ _ |- _ => destruct H
             | H : False |- _ => destruct H
             end;
      try discriminate; auto 10 ]).
Qed.

(** C3. In the body that either loop runs on a polled file, once
    [DataReceived] has returned: if it returned nil and [deleteAfterRead]
    is set, the delete of that file is the very next command; if it
    returned an error or the flag is cleared, the body issues no delete.
    A delete is issued exactly for the file of the body, when the flag is
    set and [DataReceived] returned nil, and every delete of a run is
    issued by such a body. *)
Theorem delete_iff_nil_and_deleteAfterRead :
  forall (P : Platform) (instance : ftpServerInstance),
    (forall ftpPath file data t r,
        In (OnDataReceived data t r) (sftpPollFile P instance ftpPath file) ->
        (r = None -> deleteAfterRead (config instance) = true ->
         exists pre post,
           sftpPollFile P instance ftpPath file
           = (pre ++ OnDataReceived data t r
                  :: Remove (ftpPath ++ Name file) :: post)%list)
        /\ (r <> None \/ deleteAfterRead (config instance) = false ->
            forall p, ~ In (Remove p) (sftpPollFile P instance ftpPath file)))
    /\ (forall ftpPath file data t r,
           In (OnDataReceived data t r) (ftpPollFile P instance ftpPath file) ->
           (r = None -> deleteAfterRead (config instance) = true ->
            exists pre post,
              ftpPollFile P instance ftpPath file
              = (pre ++ OnDataReceived data t r
                     :: Delete (ftpPath ++ Name file ++ ".processing")
                     :: post)%list)
           /\ (r <> None \/ deleteAfterRead (config instance) = false ->
               forall p, ~ In (Delete p) (ftpPollFile P instance ftpPath file)))
    /\ (forall w p,
           In (Remove p) (fst (runWithSFTP P instance w)) ->
           exists round file,
             In round (rounds w) /\ In file (fst (listing round))
             /\ In (Remove p) (sftpPollFile P instance (ftpPathOf instance) file))
    /\ (forall w p,
           In (Delete p) (fst (runWithFTP P instance w)) ->
           exists round file,
             In round (rounds w) /\ In file (fst (listing round))
             /\ In (Delete p) (ftpPollFile P instance (ftpPathOf instance) file))
    /\ (forall ftpPath file p,
           In (Remove p) (sftpPollFile P instance ftpPath file)
           <-> p = ftpPath ++ Name file
               /\ deleteAfterRead (config instance) = true
               /\ exists data t,
                   In (OnDataReceived data t None)
                      (sftpPollFile P instance ftpPath file))
    /\ (forall ftpPath file p,
           In (Delete p) (ftpPollFile P instance ftpPath file)
           <-> p = ftpPath ++ Name file ++ ".processing"
               /\ deleteAfterRead (config instance) = true
               /\ exists data t,
                   In (OnDataReceived data t None)
                      (ftpPollFile P instance ftpPath file)).
Proof.
  intros P instance.
  repeat match goal with
         | |- _ /\ _ => split
         | |- forall _ : string, forall _ : PolledFile, forall _ : list byte, _ =>
             intros ftpPath file data t r Hin; split
         end;
    [ apply sftpPollFile_delete; assumption
    | apply (sftpPollFile_delete P instance ftpPath file data t r); assumption
    | apply ftpPollFile_delete; assumption
    | apply (ftpPollFile_delete P instance ftpPath file data t r); assumption
    | | | apply sftpPollFile_remove_iff | apply ftpPollFile_delete_iff ].
  - intros w p H. apply runWithSFTP_events in H.
    destruct H as [(_ & H & _) | H]; [exfalso; apply (H p); reflexivity | ].
    apply sftpPoll_events in H.
    destruct H as [H | [[e H] | (round & file & Hr & Hf & Hin)]];
      try discriminate; eauto.
  - intros w p H. apply runWithFTP_events in H.
    destruct H as [(_ & H & _) | H]; [exfalso; apply (H p); reflexivity | ].
    apply ftpPoll_events in H.
    destruct H as [H | [[e H] | (round & file & Hr & Hf & Hin)]];
      try discriminate; eauto.
Qed.

Lemma delete_iff_nil_and_deleteAfterRead_witness :
  (exists pre post,
      sftpPollFile asciiPlatform (sampleInstance SFTP) "/in/" sampleFile
      = (pre ++ OnDataReceived (list_byte_of_string "H|1") 1697300667 None
             :: Remove "/in/ORDER.DAT" :: post)%list)
  /\ (forall p,
         ~ In (Remove p)
              (sftpPollFile asciiPlatform (sampleInstance SFTP) "/in/" refusedFile))
  /\ (exists pre post,
         ftpPollFile asciiPlatform (sampleInstance FTP) "/in/" sampleFile
         = (pre ++ OnDataReceived (list_byte_of_string "H|1") 1697300667 None
                :: Delete "/in/ORDER.DAT.processing" :: post)%list)
  /\ (forall p,
         ~ In (Delete p)
              (ftpPollFile asciiPlatform (sampleInstance FTP) "/in/" refusedFile))
  /\ (exists round file,
         In round (rounds sampleRemote) /\ In file (fst (listing round))
         /\ In (Remove "/in/ORDER.DAT")
               (sftpPollFile asciiPlatform (sampleInstance SFTP)
                             (ftpPathOf (sampleInstance SFTP)) file))
  /\ (exists round file,
         In round (rounds sampleRemote) /\ In file (fst (listing round))
         /\ In (Delete "/in/ORDER.DAT.processing")
               (ftpPollFile asciiPlatform (sampleInstance FTP)
                            (ftpPathOf (sampleInstance FTP)) file)).
Proof.
  destruct (delete_iff_nil_and_deleteAfterRead asciiPlatform (sampleInstance SFTP))
    as (Hs & _ & Hrs & _ & _ & _).
  destruct (delete_iff_nil_and_deleteAfterRead asciiPlatform (sampleInstance FTP))
    as (_ & Hf & _ & Hrf & _ & _).
  repeat split.
  - apply (Hs "/in/" sampleFile (list_byte_of_string "H|1") 1697300667 None);
      [simpl; tauto | reflexivity | reflexivity].
  - apply (Hs "/in/" refusedFile (list_byte_of_string "H|1") 1697300667
              (Some "not processed")); [simpl; tauto | left; discriminate].
  - apply (Hf "/in/" sampleFile (list_byte_of_string "H|1") 1697300667 None);
      [simpl; tauto | reflexivity | reflexivity].
  - apply (Hf "/in/" refusedFile (list_byte_of_string "H|1") 1697300667
              (Some "not processed")); [simpl; tauto | left; discriminate].
  - apply (Hrs sampleRemote). simpl. tauto.
  - apply (Hrf sampleRemote). simpl. tauto.
Defined.

(** ** The file filter *)

Lemma sftpPollFile_selected P instance ftpPath file :
  In (Open (ftpPath ++ Name file)) (sftpPollFile P instance ftpPath file)
  <-> matchesMask P instance (Name file).
Proof.
  unfold sftpPollFile, matchesMask.
  file_cases P instance file; simpl;
    intuition (try discriminate; try congruence).
Qed.

Lemma ftpPollFile_selected P instance ftpPath file :
  In (Rename (ftpPath ++ Name file) (ftpPath ++ Name file ++ ".processing"))
     (ftpPollFile P instance ftpPath file)
  <-> matchesMask P instance (Name file).
Proof.
  unfold ftpPollFile, matchesMask.
  file_cases P instance file; simpl;
    intuition (try discriminate; try congruence).
Qed.

Lemma sftpPollFile_readable P instance ftpPath file :
  matchesMask P instance (Name file) ->
  openErr file = None -> snd (readAll file) = None -> closeErr file = None ->
  In (OnDataReceived (fst (readAll file)) (ModTime file) (dataReceivedErr file))
     (sftpPollFile P instance ftpPath file).
Proof.
  unfold sftpPollFile, matchesMask. intros -> -> Hr ->.
  destruct (readAll file) as [buf err]. simpl in Hr. subst err.
  simpl. auto.
Qed.

Lemma ftpPollFile_readable P instance ftpPath file :
  matchesMask P instance (Name file) ->
  renameErr file = None -> openErr file = None ->
  snd (readAll file) = None -> closeErr file = None ->
  In (OnDataReceived (fst (readAll file)) (ModTime file) (dataReceivedErr file))
     (ftpPollFile P instance ftpPath file).
Proof.
  unfold ftpPollFile, matchesMask. intros -> -> -> Hr ->.
  destruct (readAll file) as [buf err]. simpl in Hr. subst err.
  simpl. auto.
Qed.

(** *** From the body of a file to the run *)

Lemma string_app_inv_head (a b c : string) : a ++ b = a ++ c -> b = c.
Proof.
  induction a as [ | x a IH]; simpl; intro H; [exact H | ].
  injection H as H. apply IH. exact H.
Qed.

(** The body of a listed file is one stretch of the events of its round. *)
Lemma flat_map_segment (body : PolledFile -> list Event) files file :
  In file files ->
  exists a b, flat_map body files = (a ++ body file ++ b)%list.
Proof.
  intro Hin. apply in_split in Hin. destruct Hin as (l1 & l2 & ->).
  exists (flat_map body l1), (flat_map body l2).
  rewrite flat_map_app. reflexivity.
Qed.

Lemma sftpPoll_goesOn P instance ftpPath r rest :
  sftpGoesOn r = true ->
  exists pre,
    fst (sftpPoll P instance ftpPath (r :: rest))
    = (pre ++ fst (sftpPoll P instance ftpPath rest))%list.
Proof.
  unfold sftpGoesOn. simpl.
  destruct (listing r) as [[ | f0 fs] [e | ]];
    try destruct (wake r); try discriminate; intros _;
    destruct (sftpPoll P instance ftpPath rest) as [tr e'].
  - exists [ReadDir ftpPath; OnError ErrorReceive (Some e)]. reflexivity.
  - exists [ReadDir ftpPath; OnError ErrorReceive (Some e)]. reflexivity.
  - exists [ReadDir ftpPath]. reflexivity.
  - exists [ReadDir ftpPath]. reflexivity.
  - exists [ReadDir ftpPath; OnError ErrorReceive (Some e)]. reflexivity.
  - exists [ReadDir ftpPath; OnError ErrorReceive (Some e)]. reflexivity.
  - exists (ReadDir ftpPath
              :: flat_map (sftpPollFile P instance ftpPath) (f0 :: fs)).
    reflexivity.
Qed.

Lemma ftpPoll_goesOn P instance ftpPath r rest :
  ftpGoesOn r = true ->
  exists pre,
    fst (ftpPoll P instance ftpPath (r :: rest))
    = (pre ++ fst (ftpPoll P instance ftpPath rest))%list.
Proof.
  unfold ftpGoesOn. simpl.
  destruct (listing r) as [files [e | ]];
    try destruct (wake r); try discriminate; intros _;
    destruct (ftpPoll P instance ftpPath rest) as [tr e'].
  - exists [List_ ftpPath; OnError ErrorReceive (Some e)]. reflexivity.
  - exists [List_ ftpPath; OnError ErrorReceive (Some e)]. reflexivity.
  - exists (List_ ftpPath :: flat_map (ftpPollFile P instance ftpPath) files).
    reflexivity.
Qed.

(** A round that the loop reaches - every round before it goes on - has
    the body of each file of its listing in the trace. *)
Lemma sftpPoll_reaches P instance ftpPath pre r post files file :
  forallb sftpGoesOn pre = true ->
  listing r = (files, None) -> In file files ->
  exists a b,
    fst (sftpPoll P instance ftpPath (pre ++ r :: post))
    = (a ++ sftpPollFile P instance ftpPath file ++ b)%list.
Proof.
  intros Hpre Hl Hin. induction pre as [ | r0 pre IH].
  - destruct (flat_map_segment (sftpPollFile P instance ftpPath) files file Hin)
      as (a & b & E).
    simpl. rewrite Hl.
    destruct files as [ | f0 fs]; [destruct Hin | ].
    destruct (wake r).
    + destruct (sftpPoll P instance ftpPath post) as [tr e']. simpl fst.
      exists (ReadDir ftpPath :: a), (b ++ tr)%list.
      change (ReadDir ftpPath
                :: flat_map (sftpPollFile P instance ftpPath) (f0 :: fs) ++ tr
              = ReadDir ftpPath
                  :: a ++ sftpPollFile P instance ftpPath file ++ b ++ tr)%list.
      rewrite E, <- !app_assoc. reflexivity.
    + simpl fst. exists (ReadDir ftpPath :: a), b.
      change (ReadDir ftpPath
                :: flat_map (sftpPollFile P instance ftpPath) (f0 :: fs)
              = ReadDir ftpPath
                  :: a ++ sftpPollFile P instance ftpPath file ++ b)%list.
      rewrite E. reflexivity.
  - simpl in Hpre. apply andb_true_iff in Hpre. destruct Hpre as [H0 Hpre].
    destruct (IH Hpre) as (a & b & E).
    destruct (sftpPoll_goesOn P instance ftpPath r0 (pre ++ r :: post) H0)
      as (pre0 & E0).
    exists (pre0 ++ a)%list, b.
    change ((r0 :: pre) ++ r :: post)%list with (r0 :: (pre ++ r :: post))%list.
    rewrite E0, E, <- app_assoc. reflexivity.
Qed.

Lemma ftpPoll_reaches P instance ftpPath pre r post files file :
  forallb ftpGoesOn pre = true ->
  listing r = (files, None) -> In file files ->
  exists a b,
    fst (ftpPoll P instance ftpPath (pre ++ r :: post))
    = (a ++ ftpPollFile P instance ftpPath file ++ b)%list.
Proof.
  intros Hpre Hl Hin. induction pre as [ | r0 pre IH].
  - destruct (flat_map_segment (ftpPollFile P instance ftpPath) files file Hin)
      as (a & b & E).
    simpl. rewrite Hl.
    destruct (wake r).
    + destruct (ftpPoll P instance ftpPath post) as [tr e']. simpl fst.
      exists (List_ ftpPath :: a), (b ++ tr)%list.
      change (List_ ftpPath
                :: flat_map (ftpPollFile P instance ftpPath) files ++ tr
              = List_ ftpPath
                  :: a ++ ftpPollFile P instance ftpPath file ++ b ++ tr)%list.
      rewrite E, <- !app_assoc. reflexivity.
    + simpl fst. exists (List_ ftpPath :: a), b.
      change (List_ ftpPath
                :: flat_map (ftpPollFile P instance ftpPath) files
              = List_ ftpPath
                  :: a ++ ftpPollFile P instance ftpPath file ++ b)%list.
      rewrite E. reflexivity.
  - simpl in Hpre. apply andb_true_iff in Hpre. destruct Hpre as [H0 Hpre].
    destruct (IH Hpre) as (a & b & E).
    destruct (ftpPoll_goesOn P instance ftpPath r0 (pre ++ r :: post) H0)
      as (pre0 & E0).
    exists (pre0 ++ a)%list, b.
    change ((r0 :: pre) ++ r :: post)%list with (r0 :: (pre ++ r :: post))%list.
    rewrite E0, E, <- app_assoc. reflexivity.
Qed.

(** A run whose [Connected] was accepted is its setup followed by the
    events of the loop. *)
Lemma runWithSFTP_entered P instance w :
  In (OnConnected None) (fst (runWithSFTP P instance w)) ->
  fst (runWithSFTP P instance w)
  = ([Dial (serverAddress instance); NewClient; OnConnected None]
       ++ fst (sftpPoll P instance (ftpPathOf instance) (rounds w)))%list.
Proof.
  unfold runWithSFTP.
  destruct (negb _); [simpl; intuition discriminate | ].
  match goal with |- context [match ?x with Some _ => _ | None => _ end] =>
    destruct x end; [simpl; intuition discriminate | ].
  destruct (dialErr w); [simpl; intuition discriminate | ].
  destruct (newClientErr w); [simpl; intuition discriminate | ].
  destruct (connectedErr w); [simpl; intuition discriminate | ].
  destruct (sftpPoll P instance (ftpPathOf instance) (rounds w)) as [tr e].
  reflexivity.
Qed.

Lemma runWithFTP_entered P instance w :
  In (OnConnected None) (fst (runWithFTP P instance w)) ->
  fst (runWithFTP P instance w)
  = ([Dial (serverAddress instance);
      Login (user (config instance)) (key (config instance));
      OnConnected None]
       ++ fst (ftpPoll P instance (ftpPathOf instance) (rounds w)))%list.
Proof.
  unfold runWithFTP.
  destruct (dialErr w); [simpl; intuition discriminate | ].
  destruct (negb _); [simpl; intuition discriminate | ].
  destruct (loginErr w); [simpl; intuition discriminate | ].
  destruct (connectedErr w); [simpl; intuition discriminate | ].
  destruct (ftpPoll P instance (ftpPathOf instance) (rounds w)) as [tr e].
  reflexivity.
Qed.

(** What the body of a file opens, or renames, is that file, and only if
    it passes the filter. *)
Lemma sftpPollFile_opens P instance ftpPath file p :
  In (Open p) (sftpPollFile P instance ftpPath file) ->
  p = ftpPath ++ Name file /\ matchesMask P instance (Name file).
Proof.
  unfold sftpPollFile, matchesMask.
  file_cases P instance file; simpl; intro H;
    repeat match goal with
           | H : _ \/ _ |- _ => destruct H
           | H : False |- _ => destruct H
           end;
    try discriminate; injection H as <-; auto.
Qed.

Lemma ftpPollFile_renamed P instance ftpPath file a b :
  In (Rename a b) (ftpPollFile P instance ftpPath file) ->
  a = ftpPath ++ Name file /\ b = ftpPath ++ Name file ++ ".processing"
  /\ matchesMask P instance (Name file).
Proof.
  unfold ftpPollFile, matchesMask.
  file_cases P instance file; simpl; intro H;
    repeat match goal with
           | H : _ \/ _ |- _ => destruct H
           | H : False |- _ => destruct H
           end;
    try discriminate; injection H as <- <-; auto.
Qed.

(** Every file a run opens, or renames, is a matching file of one of the
    listings it polled. *)
Lemma runWithSFTP_opens_listed P instance w p :
  In (Open p) (fst (runWithSFTP P instance w)) ->
  exists round file,
    In round (rounds w) /\ In file (fst (listing round))
    /\ p = ftpPathOf instance ++ Name file
    /\ matchesMask P instance (Name file).
Proof.
  intro H. apply runWithSFTP_events in H.
  destruct H as [(_ & _ & H) | H]; [exfalso; apply (H p); reflexivity | ].
  apply sftpPoll_events in H.
  destruct H as [H | [[e H] | (round & file & Hr & Hf & Hin)]];
    try discriminate.
  apply sftpPollFile_opens in Hin. exists round, file. tauto.
Qed.

Lemma runWithFTP_renames_listed P instance w a b :
  In (Rename a b) (fst (runWithFTP P instance w)) ->
  exists round file,
    In round (rounds w) /\ In file (fst (listing round))
    /\ a = ftpPathOf instance ++ Name file
    /\ b = ftpPathOf instance ++ Name file ++ ".processing"
    /\ matchesMask P instance (Name file).
Proof.
  intro H. apply runWithFTP_events in H.
  destruct H as [(_ & _ & H) | H]; [exfalso; apply (H a b); reflexivity | ].
  apply ftpPoll_events in H.
  destruct H as [H | [[e H] | (round & file & Hr & Hf & Hin)]];
    try discriminate.
  apply ftpPollFile_renamed in Hin. exists round, file. tauto.
Qed.

(** In a run that entered the loop, the body of every file listed in a
    round the loop reaches is part of the trace. *)
Lemma runWithSFTP_reaches P instance w pre r post files file :
  In (OnConnected None) (fst (runWithSFTP P instance w)) ->
  rounds w = (pre ++ r :: post)%list ->
  forallb sftpGoesOn pre = true ->
  listing r = (files, None) -> In file files ->
  incl (sftpPollFile P instance (ftpPathOf instance) file)
       (fst (runWithSFTP P instance w)).
Proof.
  intros Hc Hr Hpre Hl Hin.
  rewrite (runWithSFTP_entered P instance w Hc), Hr.
  destruct (sftpPoll_reaches P instance (ftpPathOf instance) pre r post
              files file Hpre Hl Hin) as (a & b & E).
  rewrite E. intros ev Hev.
  apply in_or_app. right. apply in_or_app. right.
  apply in_or_app. left. exact Hev.
Qed.

Lemma runWithFTP_reaches P instance w pre r post files file :
  In (OnConnected None) (fst (runWithFTP P instance w)) ->
  rounds w = (pre ++ r :: post)%list ->
  forallb ftpGoesOn pre = true ->
  listing r = (files, None) -> In file files ->
  incl (ftpPollFile P instance (ftpPathOf instance) file)
       (fst (runWithFTP P instance w)).
Proof.
  intros Hc Hr Hpre Hl Hin.
  rewrite (runWithFTP_entered P instance w Hc), Hr.
  destruct (ftpPoll_reaches P instance (ftpPathOf instance) pre r post
              files file Hpre Hl Hin) as (a & b & E).
  rewrite E. intros ev Hev.
  apply in_or_app. right. apply in_or_app. right.
  apply in_or_app. left. exact Hev.
Qed.

(** C9. In both polling loops a file of the polled directory is selected
    for processing (SFTP: opened; FTP: renamed for processing) exactly when
    [sftp.Match] accepts its upper-cased name against the upper-cased
    filemask. This holds of the body run on a listed file and of the whole
    run: for every file in the listing of a round the loop reaches, the
    run opens (renames) it if and only if it matches, and delivers it
    through [DataReceived] when it matches and the server's commands on it
    succeed; conversely every file a run opens, renames or delivers is a
    matching file of a polled listing. Two names, or two masks, that agree
    in upper case are treated alike. *)
Theorem filemask_match_is_case_insensitive :
  forall (P : Platform) (instance : ftpServerInstance) (ftpPath : string)
         (file : PolledFile),
    (In (Open (ftpPath ++ Name file)) (sftpPollFile P instance ftpPath file)
     <-> Match P (ToUpper P (filemask instance)) (ToUpper P (Name file))
         = (true, None))
    /\ (In (Rename (ftpPath ++ Name file) (ftpPath ++ Name file ++ ".processing"))
           (ftpPollFile P instance ftpPath file)
        <-> Match P (ToUpper P (filemask instance)) (ToUpper P (Name file))
            = (true, None))
    /\ (forall data t r,
           In (OnDataReceived data t r) (sftpPollFile P instance ftpPath file)
           \/ In (OnDataReceived data t r) (ftpPollFile P instance ftpPath file) ->
           Match P (ToUpper P (filemask instance)) (ToUpper P (Name file))
           = (true, None))
    /\ (Match P (ToUpper P (filemask instance)) (ToUpper P (Name file))
        = (true, None) ->
        renameErr file = None -> openErr file = None ->
        snd (readAll file) = None -> closeErr file = None ->
        In (OnDataReceived (fst (readAll file)) (ModTime file)
                           (dataReceivedErr file))
           (sftpPollFile P instance ftpPath file)
        /\ In (OnDataReceived (fst (readAll file)) (ModTime file)
                              (dataReceivedErr file))
              (ftpPollFile P instance ftpPath file))
    /\ (forall (instance' : ftpServerInstance) (file' : PolledFile),
           ToUpper P (filemask instance') = ToUpper P (filemask instance) ->
           ToUpper P (Name file') = ToUpper P (Name file) ->
           (In (Open (ftpPath ++ Name file'))
               (sftpPollFile P instance' ftpPath file')
            <-> In (Open (ftpPath ++ Name file))
                   (sftpPollFile P instance ftpPath file))
           /\ (In (Rename (ftpPath ++ Name file')
                          (ftpPath ++ Name file' ++ ".processing"))
                  (ftpPollFile P instance' ftpPath file')
               <-> In (Rename (ftpPath ++ Name file)
                              (ftpPath ++ Name file ++ ".processing"))
                      (ftpPollFile P instance ftpPath file)))
    /\ (forall (w : Remote) (pre : list PollRound) (r : PollRound)
               (post : list PollRound) (files : list PolledFile),
           In (OnConnected None) (fst (runWithSFTP P instance w)) ->
           rounds w = (pre ++ r :: post)%list ->
           forallb sftpGoesOn pre = true ->
           listing r = (files, None) -> In file files ->
           (In (Open (ftpPathOf instance ++ Name file))
               (fst (runWithSFTP P instance w))
            <-> Match P (ToUpper P (filemask instance)) (ToUpper P (Name file))
                = (true, None))
           /\ (Match P (ToUpper P (filemask instance)) (ToUpper P (Name file))
               = (true, None) ->
               openErr file = None -> snd (readAll file) = None ->
               closeErr file = None ->
               In (OnDataReceived (fst (readAll file)) (ModTime file)
                                  (dataReceivedErr file))
                  (fst (runWithSFTP P instance w))))
    /\ (forall (w : Remote) (pre : list PollRound) (r : PollRound)
               (post : list PollRound) (files : list PolledFile),
           In (OnConnected None) (fst (runWithFTP P instance w)) ->
           rounds w = (pre ++ r :: post)%list ->
           forallb ftpGoesOn pre = true ->
           listing r = (files, None) -> In file files ->
           (In (Rename (ftpPathOf instance ++ Name file)
                       (ftpPathOf instance ++ Name file ++ ".processing"))
               (fst (runWithFTP P instance w))
            <-> Match P (ToUpper P (filemask instance)) (ToUpper P (Name file))
                = (true, None))
           /\ (Match P (ToUpper P (filemask instance)) (ToUpper P (Name file))
               = (true, None) ->
               renameErr file = None -> openErr file = None ->
               snd (readAll file) = None -> closeErr file = None ->
               In (OnDataReceived (fst (readAll file)) (ModTime file)
                                  (dataReceivedErr file))
                  (fst (runWithFTP P instance w))))
    /\ (forall (w : Remote) (p : string),
           In (Open p) (fst (runWithSFTP P instance w)) ->
           exists round listed,
             In round (rounds w) /\ In listed (fst (listing round))
             /\ p = ftpPathOf instance ++ Name listed
             /\ Match P (ToUpper P (filemask instance))
                      (ToUpper P (Name listed)) = (true, None))
    /\ (forall (w : Remote) (a b : string),
           In (Rename a b) (fst (runWithFTP P instance w)) ->
           exists round listed,
             In round (rounds w) /\ In listed (fst (listing round))
             /\ a = ftpPathOf instance ++ Name listed
             /\ Match P (ToUpper P (filemask instance))
                      (ToUpper P (Name listed)) = (true, None))
    /\ (forall (w : Remote) data t res,
           In (OnDataReceived data t res) (fst (runWithSFTP P instance w))
           \/ In (OnDataReceived data t res) (fst (runWithFTP P instance w)) ->
           exists round listed,
             In round (rounds w) /\ In listed (fst (listing round))
             /\ data = fst (readAll listed)
             /\ Match P (ToUpper P (filemask instance))
                      (ToUpper P (Name listed)) = (true, None)).
Proof.
  intros P instance ftpPath file.
  split; [apply sftpPollFile_selected | ].
  split; [apply ftpPollFile_selected | ].
  split.
  { intros data t r [H | H].
    - apply sftpPollFile_delivers in H. apply H.
    - apply ftpPollFile_delivers in H. apply H. }
  split.
  { intros Hm Hren Hopen Hread Hclose. split.
    - apply sftpPollFile_readable; assumption.
    - apply ftpPollFile_readable; assumption. }
  split.
  { intros instance' file' Hmask Hname.
    rewrite !sftpPollFile_selected, !ftpPollFile_selected.
    unfold matchesMask. rewrite Hmask, Hname. tauto. }
  split.
  { intros w pre r post files Hc Hr Hpre Hl Hin.
    pose proof (runWithSFTP_reaches P instance w pre r post files file
                  Hc Hr Hpre Hl Hin) as Hincl.
    split; [split | ].
    - intro H. apply runWithSFTP_opens_listed in H.
      destruct H as (round & listed & _ & _ & Hp & Hm).
      apply string_app_inv_head in Hp. unfold matchesMask in Hm.
      rewrite Hp. exact Hm.
    - intro Hm. apply Hincl. apply sftpPollFile_selected. exact Hm.
    - intros Hm Hopen Hread Hclose. apply Hincl.
      apply sftpPollFile_readable; assumption. }
  split.
  { intros w pre r post files Hc Hr Hpre Hl Hin.
    pose proof (runWithFTP_reaches P instance w pre r post files file
                  Hc Hr Hpre Hl Hin) as Hincl.
    split; [split | ].
    - intro H. apply runWithFTP_renames_listed in H.
      destruct H as (round & listed & _ & _ & Hp & _ & Hm).
      apply string_app_inv_head in Hp. unfold matchesMask in Hm.
      rewrite Hp. exact Hm.
    - intro Hm. apply Hincl. apply ftpPollFile_selected. exact Hm.
    - intros Hm Hren Hopen Hread Hclose. apply Hincl.
      apply ftpPollFile_readable; assumption. }
  split.
  { intros w p H. apply runWithSFTP_opens_listed in H.
    destruct H as (round & listed & Hr & Hf & Hp & Hm).
    exists round, listed. auto. }
  split.
  { intros w a b H. apply runWithFTP_renames_listed in H.
    destruct H as (round & listed & Hr & Hf & Ha & _ & Hm).
    exists round, listed. auto. }
  intros w data t res [H | H].
  - apply runWithSFTP_events in H. destruct H as [[H _] | H]; [discriminate | ].
    apply sftpPoll_events in H.
    destruct H as [H | [[e H] | (round & listed & Hr & Hf & Hin)]];
      try discriminate.
    apply sftpPollFile_delivers in Hin. exists round, listed. tauto.
  - apply runWithFTP_events in H. destruct H as [[H _] | H]; [discriminate | ].
    apply ftpPoll_events in H.
    destruct H as [H | [[e H] | (round & listed & Hr & Hf & Hin)]];
      try discriminate.
    apply ftpPollFile_delivers in Hin. exists round, listed. tauto.
Qed.

Lemma filemask_match_is_case_insensitive_witness :
  In (Open "/in/order.dat")
     (sftpPollFile asciiPlatform (sampleInstance SFTP) "/in/" lowerCaseFile)
  /\ In (Rename "/in/order.dat" "/in/order.dat.processing")
        (ftpPollFile asciiPlatform (sampleInstance FTP) "/in/" lowerCaseFile)
  /\ Match asciiPlatform (ToUpper asciiPlatform "ORDER.DAT")
           (ToUpper asciiPlatform "order.dat") = (true, None)
  /\ In (OnDataReceived (list_byte_of_string "H|1") 1697300667 None)
        (ftpPollFile asciiPlatform (sampleInstance FTP) "/in/" lowerCaseFile)
  /\ (In (Open "/in/ORDER.DAT")
         (sftpPollFile asciiPlatform (sampleInstance SFTP) "/in/" sampleFile)
      <-> In (Open "/in/order.dat")
             (sftpPollFile asciiPlatform (sampleInstance SFTP) "/in/"
                           lowerCaseFile))
  /\ (In (Open "/in/order.dat")
         (fst (runWithSFTP asciiPlatform (sampleInstance SFTP) twoPollsRemote))
      /\ In (OnDataReceived (list_byte_of_string "H|1") 1697300667 None)
            (fst (runWithSFTP asciiPlatform (sampleInstance SFTP)
                              twoPollsRemote)))
  /\ (In (Rename "/in/order.dat" "/in/order.dat.processing")
         (fst (runWithFTP asciiPlatform (sampleInstance FTP) twoPollsRemote))
      /\ In (OnDataReceived (list_byte_of_string "H|1") 1697300667 None)
            (fst (runWithFTP asciiPlatform (sampleInstance FTP)
                             twoPollsRemote)))
  /\ (exists round listed,
         In round (rounds twoPollsRemote) /\ In listed (fst (listing round))
         /\ "/in/order.dat" = ftpPathOf (sampleInstance SFTP) ++ Name listed
         /\ Match asciiPlatform
                  (ToUpper asciiPlatform (filemask (sampleInstance SFTP)))
                  (ToUpper asciiPlatform (Name listed)) = (true, None)).
Proof.
  destruct (filemask_match_is_case_insensitive asciiPlatform
              (sampleInstance SFTP) "/in/" lowerCaseFile)
    as (Hopen & _ & Hdata & Hread & Hcase & Hrun & _ & Hlisted & _ & _).
  destruct (filemask_match_is_case_insensitive asciiPlatform
              (sampleInstance FTP) "/in/" lowerCaseFile)
    as (_ & Hrename & _ & _ & _ & _ & Hrunf & _ & _ & _).
  split; [apply Hopen; reflexivity | ].
  split; [apply Hrename; reflexivity | ].
  split.
  { apply (Hdata (list_byte_of_string "H|1") 1697300667 None).
    left. simpl. tauto. }
  split.
  { apply Hread; reflexivity. }
  split.
  { apply (Hcase (sampleInstance SFTP) sampleFile); reflexivity. }
  destruct (Hrun twoPollsRemote
              [mkPollRound ([], None) PollIntervalElapsed]
              (mkPollRound ([otherFile; lowerCaseFile], None) Terminated)
              [] [otherFile; lowerCaseFile])
    as [Hiff Hdeliv];
    [simpl; tauto | reflexivity | reflexivity | reflexivity | simpl; tauto | ].
  destruct (Hrunf twoPollsRemote
              [mkPollRound ([], None) PollIntervalElapsed]
              (mkPollRound ([otherFile; lowerCaseFile], None) Terminated)
              [] [otherFile; lowerCaseFile])
    as [Hifff Hdelivf];
    [simpl; tauto | reflexivity | reflexivity | reflexivity | simpl; tauto | ].
  split.
  { split; [apply Hiff; reflexivity | apply Hdeliv; reflexivity]. }
  split.
  { split; [apply Hifff; reflexivity | apply Hdelivf; reflexivity]. }
  apply (Hlisted twoPollsRemote "/in/order.dat"). simpl. tauto.
Defined.

(** ** Session establishment *)

Lemma countConnected_app (a b : list Event) :
  countConnected (a ++ b) = (countConnected a + countConnected b)%nat.
Proof. unfold countConnected. rewrite filter_app, length_app. reflexivity. Qed.

Lemma countConnected_zero_notin (tr : list Event) (ev : Event) :
  countConnected tr = 0%nat -> In ev tr -> isConnected ev = false.
Proof.
  unfold countConnected. induction tr as [ | a tr IH]; simpl; [tauto | ].
  destruct (isConnected a) eqn:Ha; simpl; [discriminate | ].
  intros H [-> | Hin]; auto.
Qed.

Lemma sftpPollFile_noConnected P instance ftpPath file :
  countConnected (sftpPollFile P instance ftpPath file) = 0%nat.
Proof. unfold sftpPollFile. file_cases P instance file; reflexivity. Qed.

Lemma ftpPollFile_noConnected P instance ftpPath file :
  countConnected (ftpPollFile P instance ftpPath file) = 0%nat.
Proof. unfold ftpPollFile. file_cases P instance file; reflexivity. Qed.

Lemma flat_map_noConnected (body : PolledFile -> list Event) files :
  (forall file, countConnected (body file) = 0%nat) ->
  countConnected (flat_map body files) = 0%nat.
Proof.
  intro Hbody. induction files as [ | f fs IH]; [reflexivity | ].
  simpl. rewrite countConnected_app, Hbody, IH. reflexivity.
Qed.

Lemma sftpPoll_noConnected P instance ftpPath rs :
  countConnected (fst (sftpPoll P instance ftpPath rs)) = 0%nat.
Proof.
  induction rs as [ | r rest IH]; [reflexivity | ].
  simpl. destruct (listing r) as [files [e | ]].
  - destruct (sftpPoll P instance ftpPath rest). exact IH.
  - pose proof (flat_map_noConnected (sftpPollFile P instance ftpPath) files
                  (sftpPollFile_noConnected P instance ftpPath)) as Hb.
    destruct files as [ | f0 fs].
    + destruct (sftpPoll P instance ftpPath rest). exact IH.
    + destruct (wake r).
      * destruct (sftpPoll P instance ftpPath rest) as [tr e'].
        simpl fst in *.
        change (countConnected
                  ((ReadDir ftpPath
                      :: flat_map (sftpPollFile P instance ftpPath) (f0 :: fs))
                     ++ tr) = 0%nat).
        rewrite countConnected_app, IH.
        change (countConnected
                  (flat_map (sftpPollFile P instance ftpPath) (f0 :: fs))
                + 0 = 0)%nat.
        rewrite Hb. reflexivity.
      * exact Hb.
Qed.

Lemma ftpPoll_noConnected P instance ftpPath rs :
  countConnected (fst (ftpPoll P instance ftpPath rs)) = 0%nat.
Proof.
  induction rs as [ | r rest IH]; [reflexivity | ].
  simpl. destruct (listing r) as [files [e | ]].
  - destruct (ftpPoll P instance ftpPath rest). exact IH.
  - pose proof (flat_map_noConnected (ftpPollFile P instance ftpPath) files
                  (ftpPollFile_noConnected P instance ftpPath)) as Hb.
    destruct (wake r).
    + destruct (ftpPoll P instance ftpPath rest) as [tr e'].
      simpl fst in *.
      change (countConnected
                ((List_ ftpPath
                    :: flat_map (ftpPollFile P instance ftpPath) files)
                   ++ tr) = 0%nat).
      rewrite countConnected_app, IH.
      change (countConnected (flat_map (ftpPollFile P instance ftpPath) files)
              + 0 = 0)%nat.
      rewrite Hb. reflexivity.
    + exact Hb.
Qed.

(** In a trace made of a setup without callbacks, the accepted [Connected]
    and the events of the loop, every [DataReceived] has exactly one
    [Connected] before it and none after it. *)
Lemma once_before_data (setup poll : list Event) :
  countConnected setup = 0%nat ->
  existsb isDataReceived setup = false ->
  countConnected poll = 0%nat ->
  forall pre data t r post,
    (setup ++ OnConnected None :: poll
     = pre ++ OnDataReceived data t r :: post)%list ->
    countConnected pre = 1%nat /\ countConnected post = 0%nat.
Proof.
  intros Hc Hd Hp. induction setup as [ | s setup IH]; intros pre data t r post E.
  - destruct pre as [ | a pre]; simpl in E; [discriminate | ].
    injection E as <- E. subst poll.
    rewrite countConnected_app in Hp.
    change (countConnected (OnDataReceived data t r :: post))
      with (countConnected post) in Hp.
    change (countConnected (OnConnected None :: pre))
      with (S (countConnected pre)). lia.
  - simpl in Hd. apply orb_false_iff in Hd. destruct Hd as [Hs Hd].
    assert (Hs' : isConnected s = false).
    { apply (countConnected_zero_notin (s :: setup)); simpl; auto. }
    assert (Hc' : countConnected setup = 0%nat).
    { unfold countConnected in *. simpl in Hc. rewrite Hs' in Hc. exact Hc. }
    destruct pre as [ | a pre]; simpl in E.
    + injection E as -> _. discriminate.
    + injection E as <- E. destruct (IH Hc' Hd pre data t r post E) as [H1 H2].
      split; [ | exact H2].
      unfold countConnected in *. simpl. rewrite Hs'. exact H1.
Qed.

Lemma existsb_false_notin (f : Event -> bool) (tr : list Event) (ev : Event) :
  existsb f tr = false -> In ev tr -> f ev = false.
Proof.
  intros H Hin. destruct (f ev) eqn:Hf; [ | reflexivity].
  assert (existsb f tr = true) by (apply existsb_exists; eauto). congruence.
Qed.

(** A run that never reaches the loop. *)
Lemma discipline_without_polling (tr : list Event) (ending : RunEnd) :
  existsb isDataReceived tr = false ->
  existsb isListing tr = false ->
  (countConnected tr <= 1)%nat ->
  (forall e, In (OnConnected (Some e)) tr ->
             ending = Returned
             /\ exists pre kind err,
                 tr = (pre ++ [OnConnected (Some e); OnError kind err])%list) ->
  ConnectedDiscipline (tr, ending).
Proof.
  intros Hd Hl Hc Hrej. unfold ConnectedDiscipline. simpl.
  assert (Hnodata : forall data t r, ~ In (OnDataReceived data t r) tr).
  { intros data t r Hin.
    apply (existsb_false_notin _ _ _ Hd) in Hin. discriminate. }
  repeat split.
  - exact Hc.
  - exfalso. apply (Hnodata data t r). rewrite H. apply in_elt.
  - exfalso. apply (Hnodata data t r). rewrite H. apply in_elt.
  - intros ev Hin Hev. apply (existsb_false_notin _ _ _ Hl) in Hin. congruence.
  - apply (Hrej e H).
  - apply (Hrej e H).
  - apply Hnodata.
Qed.

(** A run whose [Connected] was accepted and that entered the loop. *)
Lemma discipline_polling (setup poll : list Event) (ending : RunEnd) :
  countConnected setup = 0%nat ->
  existsb isDataReceived setup = false ->
  countConnected poll = 0%nat ->
  ConnectedDiscipline ((setup ++ OnConnected None :: poll)%list, ending).
Proof.
  intros Hc Hd Hp. unfold ConnectedDiscipline. simpl.
  assert (Hone : countConnected (setup ++ OnConnected None :: poll) = 1%nat).
  { rewrite countConnected_app, Hc.
    change (countConnected (OnConnected None :: poll))
      with (S (countConnected poll)). rewrite Hp. reflexivity. }
  split; [lia | ].
  split; [apply once_before_data; assumption | ].
  split; [intros; exact Hone | ].
  intros e Hin. exfalso.
  apply in_app_or in Hin. destruct Hin as [Hin | [Hin | Hin]].
  - apply (countConnected_zero_notin _ _ Hc) in Hin. discriminate.
  - discriminate.
  - apply (countConnected_zero_notin _ _ Hp) in Hin. discriminate.
Qed.

Lemma runWithSFTP_discipline P instance w :
  ConnectedDiscipline (runWithSFTP P instance w).
Proof.
  unfold runWithSFTP.
  destruct (negb _).
  { apply discipline_without_polling;
      [reflexivity | reflexivity | cbv; lia | simpl; intuition discriminate]. }
  match goal with |- context [match ?x with Some _ => _ | None => _ end] =>
    destruct x end.
  { apply discipline_without_polling;
      [reflexivity | reflexivity | cbv; lia | simpl; intuition discriminate]. }
  destruct (dialErr w).
  { apply discipline_without_polling;
      [reflexivity | reflexivity | cbv; lia | simpl; intuition discriminate]. }
  destruct (newClientErr w).
  { apply discipline_without_polling;
      [reflexivity | reflexivity | cbv; lia | simpl; intuition discriminate]. }
  destruct (connectedErr w) as [e0 | ].
  { apply discipline_without_polling;
      [reflexivity | reflexivity | cbv; lia | ].
    simpl. intros e [H | [H | [H | [H | []]]]]; try discriminate.
    injection H as <-. split; [reflexivity | ].
    exists [Dial (serverAddress instance); NewClient], ErrorConnect, None.
    reflexivity. }
  pose proof (sftpPoll_noConnected P instance (ftpPathOf instance) (rounds w))
    as Hp.
  destruct (sftpPoll P instance (ftpPathOf instance) (rounds w)) as [tr e].
  apply (discipline_polling [Dial (serverAddress instance); NewClient] tr e);
    [reflexivity | reflexivity | exact Hp].
Qed.

Lemma runWithFTP_discipline P instance w :
  ConnectedDiscipline (runWithFTP P instance w).
Proof.
  unfold runWithFTP.
  destruct (dialErr w).
  { apply discipline_without_polling;
      [reflexivity | reflexivity | cbv; lia | simpl; intuition discriminate]. }
  destruct (negb _).
  { apply discipline_without_polling;
      [reflexivity | reflexivity | cbv; lia | simpl; intuition discriminate]. }
  destruct (loginErr w).
  { apply discipline_without_polling;
      [reflexivity | reflexivity | cbv; lia | simpl; intuition discriminate]. }
  destruct (connectedErr w) as [e0 | ].
  { apply discipline_without_polling;
      [reflexivity | reflexivity | cbv; lia | ].
    simpl. intros e [H | [H | [H | [H | []]]]]; try discriminate.
    injection H as <-. split; [reflexivity | ].
    exists [Dial (serverAddress instance);
            Login (user (config instance)) (key (config instance))],
           ErrorLogin, (Some e0).
    reflexivity. }
  pose proof (ftpPoll_noConnected P instance (ftpPathOf instance) (rounds w))
    as Hp.
  destruct (ftpPoll P instance (ftpPathOf instance) (rounds w)) as [tr e].
  apply (discipline_polling
           [Dial (serverAddress instance);
            Login (user (config instance)) (key (config instance))] tr e);
    [reflexivity | reflexivity | exact Hp].
Qed.

(** C6. In every run of either polling loop [Connected] is invoked at most
    once, and exactly once before the loop polls; every [DataReceived] has
    that one [Connected] strictly before it; and when [Connected] returns a
    rejection, the run reports it through [Error], returns, and never
    invokes [DataReceived]. *)
Theorem Connected_once_before_DataReceived :
  forall (P : Platform) (instance : ftpServerInstance) (w : Remote),
    ConnectedDiscipline (runWithSFTP P instance w)
    /\ ConnectedDiscipline (runWithFTP P instance w).
Proof.
  intros P instance w. split.
  - apply runWithSFTP_discipline.
  - apply runWithFTP_discipline.
Qed.

Lemma Connected_once_before_DataReceived_witness :
  (countConnected [Dial "lab.example:21"; NewClient; OnConnected None;
                   ReadDir "/in/"; Open "/in/ORDER.DAT"] = 1%nat
   /\ countConnected [Remove "/in/ORDER.DAT"] = 0%nat)
  /\ countConnected (fst (runWithFTP asciiPlatform (sampleInstance FTP)
                                     sampleRemote)) = 1%nat
  /\ (snd (runWithSFTP asciiPlatform (sampleInstance SFTP) rejectingRemote)
      = Returned
      /\ (exists pre kind err,
             fst (runWithSFTP asciiPlatform (sampleInstance SFTP) rejectingRemote)
             = (pre ++ [OnConnected (Some "rejected"); OnError kind err])%list)
      /\ (forall data t r,
             ~ In (OnDataReceived data t r)
                  (fst (runWithSFTP asciiPlatform (sampleInstance SFTP)
                                    rejectingRemote)))).
Proof.
  destruct (Connected_once_before_DataReceived asciiPlatform
              (sampleInstance SFTP) sampleRemote) as [(_ & Hdata & _ & _) _].
  destruct (Connected_once_before_DataReceived asciiPlatform
              (sampleInstance FTP) sampleRemote) as [_ (_ & _ & Hpoll & _)].
  destruct (Connected_once_before_DataReceived asciiPlatform
              (sampleInstance SFTP) rejectingRemote) as [(_ & _ & _ & Hrej) _].
  split; [ | split].
  - apply (Hdata _ (list_byte_of_string "H|1") 1697300667 None _).
    reflexivity.
  - apply (Hpoll (List_ "/in/")); [simpl; tauto | reflexivity].
  - apply Hrej. simpl. tauto.
Defined.

(** ** A failed dial *)

(** C5, as stated, fails: when the dial is refused the SFTP run reports
    kind Configuration and the FTP run kind Login; no [Error] of kind
    Connect is reported in either run. *)
Lemma dial_failure_is_not_reported_as_Connect :
  dialErr unreachableRemote = Some "connection refused"
  /\ runWithSFTP asciiPlatform (sampleInstance SFTP) unreachableRemote
     = ([Dial "lab.example:21";
         OnError ErrorConfiguration (Some "connection refused")], Returned)
  /\ runWithFTP asciiPlatform (sampleInstance FTP) unreachableRemote
     = ([Dial "lab.example:21";
         OnError ErrorLogin (Some "connection refused")], Returned)
  /\ (forall err,
         ~ In (OnError ErrorConnect err)
              (fst (runWithSFTP asciiPlatform (sampleInstance SFTP)
                                unreachableRemote)))
  /\ (forall err,
         ~ In (OnError ErrorConnect err)
              (fst (runWithFTP asciiPlatform (sampleInstance FTP)
                               unreachableRemote))).
Proof.
  repeat split; try reflexivity;
    intros err H; simpl in H; intuition discriminate.
Qed.

(** C5, amended. Whenever the dial to the remote server is attempted and
    fails, the handler's [Error] callback is invoked once with the dial's
    error - with kind Configuration in the SFTP run, with kind Login in the
    FTP run - and the run returns without establishing a session:
    [Connected] is never invoked. *)
Theorem dial_failure_reported_and_run_returns :
  forall (P : Platform) (instance : ftpServerInstance) (w : Remote) (e : error),
    dialErr w = Some e ->
    (In (Dial (serverAddress instance)) (fst (runWithSFTP P instance w)) ->
     runWithSFTP P instance w
     = ([Dial (serverAddress instance); OnError ErrorConfiguration (Some e)],
        Returned)
     /\ countConnected (fst (runWithSFTP P instance w)) = 0%nat)
    /\ runWithFTP P instance w
       = ([Dial (serverAddress instance); OnError ErrorLogin (Some e)],
          Returned)
    /\ countConnected (fst (runWithFTP P instance w)) = 0%nat.
Proof.
  intros P instance w e Hdial. split; [ | split].
  - unfold runWithSFTP. rewrite Hdial.
    destruct (negb _); [simpl; intuition discriminate | ].
    match goal with |- context [match ?x with Some _ => _ | None => _ end] =>
      destruct x end; [simpl; intuition discriminate | ].
    intros _. split; reflexivity.
  - unfold runWithFTP. rewrite Hdial. reflexivity.
  - unfold runWithFTP. rewrite Hdial. reflexivity.
Qed.

Lemma dial_failure_reported_and_run_returns_witness :
  (runWithSFTP asciiPlatform (sampleInstance SFTP) unreachableRemote
   = ([Dial (serverAddress (sampleInstance SFTP));
       OnError ErrorConfiguration (Some "connection refused")], Returned)
   /\ countConnected
        (fst (runWithSFTP asciiPlatform (sampleInstance SFTP) unreachableRemote))
      = 0%nat)
  /\ runWithFTP asciiPlatform (sampleInstance SFTP) unreachableRemote
     = ([Dial (serverAddress (sampleInstance SFTP));
         OnError ErrorLogin (Some "connection refused")], Returned).
Proof.
  destruct (dial_failure_reported_and_run_returns asciiPlatform
              (sampleInstance SFTP) unreachableRemote "connection refused"
              eq_refl) as (Hs & Hf & _).
  split.
  - apply Hs. simpl. tauto.
  - exact Hf.
Defined.

Lemma ftpSend_minus_one_sftpSend_bytesWritten_witness :
  -1 = -1
  /\ returned (ftpSend sampleSendWorld (sampleInstance FTP)
                       [list_byte_of_string "H|1"; list_byte_of_string "L|1|N"])
     = Go.Returns (-1, None)
  /\ returned (sftpSend sampleSendWorld (sampleInstance SFTP)
                        [list_byte_of_string "H|1"; list_byte_of_string "L|1|N"])
     = Go.Returns (10, None)
  /\ (returned (ftpSend sampleSendWorld (sampleInstance FTP)
                        [list_byte_of_string "H|1"; list_byte_of_string "L|1|N"])
      = Go.Returns (-1, None)
      /\ In (Stor "/in/AUTO-20231014162427-1.dat"
                  (list_byte_of_string "H|1" ++ [x0a]
                     ++ list_byte_of_string "L|1|N" ++ [x0a])%list)
            (issued (ftpSend sampleSendWorld (sampleInstance FTP)
                       [list_byte_of_string "H|1";
                        list_byte_of_string "L|1|N"])))
  /\ (returned (sftpSend sampleSendWorld (sampleInstance SFTP)
                         [list_byte_of_string "H|1"; list_byte_of_string "L|1|N"])
      = Go.Returns (10, None)
      /\ In (Write (list_byte_of_string "H|1" ++ [x0a]
                      ++ list_byte_of_string "L|1|N" ++ [x0a])%list)
            (issued (sftpSend sampleSendWorld (sampleInstance SFTP)
                       [list_byte_of_string "H|1";
                        list_byte_of_string "L|1|N"])))
  /\ s_write sampleSendWorld
             (list_byte_of_string "H|1" ++ [x0a]
                ++ list_byte_of_string "L|1|N" ++ [x0a])%list
     = (10, None).
Proof.
  destruct (ftpSend_minus_one_sftpSend_bytesWritten sampleSendWorld
              (sampleInstance FTP)
              [list_byte_of_string "H|1"; list_byte_of_string "L|1|N"])
    as (Hminus & Hstor & _ & Hftp & _ & _).
  destruct (ftpSend_minus_one_sftpSend_bytesWritten sampleSendWorld
              (sampleInstance SFTP)
              [list_byte_of_string "H|1"; list_byte_of_string "L|1|N"])
    as (_ & _ & Hwrite & _ & Hsftp & Hnil).
  split; [ | split; [ | split; [ | split; [ | ]]]].
  - apply (Hminus (-1) None). reflexivity.
  - apply (Hstor "/in/AUTO-20231014162427-1.dat"
                 (list_byte_of_string "H|1" ++ [x0a]
                    ++ list_byte_of_string "L|1|N" ++ [x0a])%list);
      [simpl; tauto | reflexivity].
  - apply (Hwrite (list_byte_of_string "H|1" ++ [x0a]
                     ++ list_byte_of_string "L|1|N" ++ [x0a])%list);
      [simpl; tauto | reflexivity].
  - apply (Hftp "AUTO-20231014162427-1.dat"); reflexivity.
  - split.
    + apply (Hsftp "AUTO-20231014162427-1.dat" 10);
        try reflexivity; left; reflexivity.
    + apply (Hnil 10). reflexivity.
Defined.

(** ** The LIS1-A1 checksum *)

Section Lis1A1Checksum.

Import Lis1A1.
Local Open Scope list_scope.

Lemma byteSum_from (l : list byte) (acc : N) :
  fold_left (fun a b => (a + Byte.to_N b)%N) l acc = (acc + byteSum l)%N.
Proof.
  unfold byteSum. revert acc.
  induction l as [ | b l IH]; intro acc; simpl.
  - lia.
  - rewrite IH, (IH (Byte.to_N b)). lia.
Qed.

Lemma byteSum_app (a b : list byte) :
  byteSum (a ++ b) = (byteSum a + byteSum b)%N.
Proof.
  unfold byteSum at 1. rewrite fold_left_app.
  fold (byteSum a). apply byteSum_from.
Qed.

Lemma hexValue_hexDigit (n : N) :
  (n < 16)%N -> hexValue (hexDigit n) = Some n.
Proof.
  intro H.
  assert (Hn : (N.to_nat n < 16)%nat) by lia.
  rewrite <- (N2Nat.id n). clear H. revert Hn.
  generalize (N.to_nat n). intros k Hk.
  do 16 (destruct k as [ | k]; [reflexivity | ]). lia.
Qed.

(** C1. [computeChecksum] returns exactly two characters, both uppercase
    hexadecimal digits, whose value (high digit first) is the sum of all
    bytes of the frame number, the payload and the terminator modulo 256;
    for frame "1", the body of the test and ETX it is "3D", that is 61. *)
Theorem computeChecksum_two_uppercase_hex_digits :
  (forall frameNo body terminator : list byte,
      exists hi lo h l,
        computeChecksum frameNo body terminator = [hi; lo]
        /\ hexValue hi = Some h /\ hexValue lo = Some l
        /\ (h < 16 /\ l < 16)%N
        /\ (16 * h + l = byteSum (frameNo ++ body ++ terminator) mod 256)%N)
  /\ computeChecksum
       (list_byte_of_string "1")
       (list_byte_of_string
          "This is transmission text for which we need a checksum")
       [ETX]
     = list_byte_of_string "3D"
  /\ (byteSum (list_byte_of_string "1"
               ++ list_byte_of_string
                    "This is transmission text for which we need a checksum"
               ++ [ETX]) mod 256 = 61)%N.
Proof.
  split; [ | split; vm_compute; reflexivity].
  intros frameNo body terminator.
  rewrite !byteSum_app, N.add_assoc.
  set (sum := ((byteSum frameNo + byteSum body + byteSum terminator) mod 256)%N).
  assert (Hsum : (sum < 256)%N) by (apply N.mod_upper_bound; lia).
  assert (Hhi : (sum / 16 < 16)%N) by (apply N.Div0.div_lt_upper_bound; lia).
  assert (Hlo : (sum mod 16 < 16)%N) by (apply N.mod_upper_bound; lia).
  exists (hexDigit (sum / 16)), (hexDigit (sum mod 16)),
         (sum / 16)%N, (sum mod 16)%N.
  split; [reflexivity | ].
  split; [apply hexValue_hexDigit; exact Hhi | ].
  split; [apply hexValue_hexDigit; exact Hlo | ].
  split; [split; assumption | ].
  symmetry. apply N.div_mod. lia.
Qed.

End Lis1A1Checksum.

(** ** LIS1-A1: Send on one end of a pipe, Receive on the other *)

Section Lis1A1RoundTrip.

Import Lis1A1.
Local Open Scope list_scope.
Local Open Scope nat_scope.

Lemma plain_not_control (b : byte) :
  plain b ->
  Byte.eqb b STX = false /\ Byte.eqb b ETX = false /\ Byte.eqb b ETB = false
  /\ Byte.eqb b EOT = false.
Proof.
  unfold plain, isControl. intro H.
  repeat (apply orb_false_iff in H; destruct H as [H ?]). auto.
Qed.

Lemma frameDigit_plain (F : nat) : plain (frameDigit F).
Proof.
  unfold frameDigit. pose proof (Nat.mod_upper_bound F 8) as H.
  destruct (F mod 8) as [ | [ | [ | [ | [ | [ | [ | [ | k]]]]]]]];
    try reflexivity. lia.
Qed.

Lemma rxFeed_app (r : Settings) (st : RxState) (a b : list byte) :
  rxFeed r st (a ++ b)
  = let (st1, out1) := rxFeed r st a in
    let (st2, out2) := rxFeed r st1 b in
    (st2, out1 ++ out2).
Proof.
  revert st. induction a as [ | x a IH]; intro st; simpl.
  - destruct (rxFeed r st b). reflexivity.
  - destruct (rxStep r st x) as [st1 out1]. rewrite IH.
    destruct (rxFeed r st1 a) as [st2 out2].
    destruct (rxFeed r st2 b) as [st3 out3].
    rewrite app_assoc. reflexivity.
Qed.

(** Plain bytes are appended to the frame buffer and draw no answer. *)
Lemma rxFeed_plain (r : Settings) (F : nat) (m : list byte) :
  forall (l buf : list byte),
    Forall plain l ->
    rxFeed r (mkRx (Receiving buf) F m None) l
    = (mkRx (Receiving (buf ++ l)) F m None, []).
Proof.
  induction l as [ | b l IH]; intros buf Hl; simpl.
  - rewrite app_nil_r. reflexivity.
  - inversion Hl as [ | ? ? Hb Hl']; subst.
    destruct (plain_not_control b Hb) as (H1 & H2 & H3 & H4).
    unfold rxStep. simpl. rewrite H1, H2, H3, H4. simpl.
    unfold plain in Hb. rewrite Hb.
    rewrite (IH (buf ++ [b]) Hl'). rewrite <- app_assoc. reflexivity.
Qed.

(** The four trailer bytes of a frame: the state after them is decided by
    [verifyFrame]. *)
Lemma rxFeed_trailer (r : Settings) (F : nat) (m frame : list byte)
    (terminator c1 c2 : byte) (payload : list byte) :
  verifyFrame r F terminator frame [c1; c2; CR; LF] = Some payload ->
  rxFeed r (mkRx (Verify terminator frame []) F m None) [c1; c2; CR; LF]
  = (mkRx (Receiving []) (nextFrame F)
          (m ++ payload
             ++ if Byte.eqb terminator ETX then [recordSeparator r] else [])
          None,
     [ACK]).
Proof.
  intro Hv. unfold rxFeed, rxStep. cbn -[verifyFrame].
  rewrite Hv. reflexivity.
Qed.

Lemma bytes_eqb_refl (l : list byte) : bytes_eqb l l = true.
Proof.
  unfold bytes_eqb. destruct (list_eq_dec Byte.byte_eq_dec l l); congruence.
Qed.

Lemma byte_eqb_refl (b : byte) : Byte.eqb b b = true.
Proof. apply Byte.byte_dec_lb. reflexivity. Qed.

(** The receiver accepts the trailer the sender computes. *)
Lemma verifyFrame_sent (s r : Settings) (F : nat) (payload : list byte)
    (terminator : byte) :
  frameNumberEnabled s = frameNumberEnabled r ->
  let no := if frameNumberEnabled s then [frameDigit F] else [] in
  verifyFrame r F terminator (no ++ payload)
              (computeChecksum no payload [terminator] ++ [CR; LF])
  = Some payload.
Proof.
  intros Hfn no. unfold verifyFrame.
  assert (Hcs : computeChecksum [] (no ++ payload) [terminator]
                = computeChecksum no payload [terminator]).
  { unfold computeChecksum. rewrite byteSum_app. reflexivity. }
  rewrite Hcs.
  assert (E : exists c1 c2, computeChecksum no payload [terminator] = [c1; c2])
    by (unfold computeChecksum; eauto).
  destruct E as (c1 & c2 & ->).
  cbn [app]. rewrite bytes_eqb_refl, !byte_eqb_refl. cbn [andb].
  rewrite <- Hfn. subst no.
  destruct (frameNumberEnabled s); simpl.
  - rewrite byte_eqb_refl. reflexivity.
  - reflexivity.
Qed.

(** One frame of the sender, fed to a receiver that is between frames. *)
Lemma rxFeed_frame (s r : Settings) (F : nat) (m buf payload : list byte)
    (terminator : byte) :
  frameNumberEnabled s = frameNumberEnabled r ->
  Forall plain payload ->
  terminator = ETX \/ terminator = ETB ->
  rxFeed r (mkRx (Receiving buf) F m None) (frameBytes s F payload terminator)
  = (mkRx (Receiving []) (nextFrame F)
          (m ++ payload
             ++ if Byte.eqb terminator ETX then [recordSeparator r] else [])
          None,
     [ACK]).
Proof.
  intros Hfn Hpl Hterm. unfold frameBytes.
  set (no := if frameNumberEnabled s then [frameDigit F] else []).
  assert (Hno : Forall plain (no ++ payload)).
  { apply Forall_app. split; [ | exact Hpl].
    subst no. destruct (frameNumberEnabled s); repeat constructor.
    apply frameDigit_plain. }
  pose proof (verifyFrame_sent s r F payload terminator Hfn) as Hv.
  fold no in Hv. cbv zeta in Hv.
  assert (E : exists c1 c2, computeChecksum no payload [terminator] = [c1; c2])
    by (unfold computeChecksum; eauto).
  destruct E as (c1 & c2 & E). rewrite E in *. cbn [app] in Hv.
  change (STX :: no ++ payload ++ terminator :: [c1; c2] ++ [CR; LF])
    with ([STX] ++ no ++ payload ++ [terminator] ++ [c1; c2; CR; LF]).
  rewrite rxFeed_app.
  change (rxFeed r (mkRx (Receiving buf) F m None) [STX])
    with (mkRx (Receiving []) F m None, @nil byte).
  rewrite app_assoc, rxFeed_app, (rxFeed_plain r F m _ [] Hno).
  rewrite rxFeed_app.
  assert (Hstep : rxFeed r (mkRx (Receiving ([] ++ no ++ payload)) F m None)
                         [terminator]
                  = (mkRx (Verify terminator (no ++ payload) []) F m None, [])).
  { destruct Hterm; subst terminator; reflexivity. }
  rewrite Hstep, (rxFeed_trailer r F m _ terminator c1 c2 payload Hv).
  reflexivity.
Qed.

(** The sender's [transmit] against a receiver that is between frames: one
    write, one ACK. *)
Lemma transmit_acknowledged (s r : Settings) (more F : nat)
    (w m buf payload : list byte) (terminator : byte) :
  frameNumberEnabled s = frameNumberEnabled r ->
  Forall plain payload ->
  terminator = ETX \/ terminator = ETB ->
  transmit (pipeStream r) more (frameBytes s F payload terminator)
           (mkPipe w (mkRx (Receiving buf) F m None) [])
  = (mkPipe (w ++ frameBytes s F payload terminator)
            (mkRx (Receiving []) (nextFrame F)
                  (m ++ payload
                     ++ if Byte.eqb terminator ETX
                        then [recordSeparator r] else [])
                  None)
            [],
     Sent).
Proof.
  intros Hfn Hpl Hterm.
  pose proof (rxFeed_frame s r F m buf payload terminator Hfn Hpl Hterm) as Hf.
  destruct more; cbn [transmit pipeStream write read wire peer inbox];
    rewrite Hf; reflexivity.
Qed.

(** All frames are acknowledged in turn; after EOT the receiver has
    delivered what it assembled. *)
Lemma sendFrames_delivers (s r : Settings) :
  frameNumberEnabled s = frameNumberEnabled r ->
  forall (frames : list (list byte * byte)) (F : nat) (w m buf : list byte),
    Forall wellFormedFrame frames ->
    exists w',
      sendFrames (pipeStream r) s frames F
                 (mkPipe w (mkRx (Receiving buf) F m None) [])
      = (mkPipe w' (mkRx Idle firstFrame []
                         (Some (m ++ assembled (recordSeparator r) frames)))
                [],
         Sent).
Proof.
  intro Hfn. induction frames as [ | [payload terminator] rest IH];
    intros F w m buf Hwf.
  - exists (w ++ [EOT]). cbn. rewrite app_nil_r. reflexivity.
  - inversion Hwf as [ | ? ? [Hpl Hterm] Hrest]; subst. simpl in Hpl, Hterm.
    cbn [sendFrames].
    rewrite (transmit_acknowledged s r _ F w m buf payload terminator
               Hfn Hpl Hterm).
    destruct (IH (nextFrame F)
                 (w ++ frameBytes s F payload terminator)
                 (m ++ payload
                    ++ if Byte.eqb terminator ETX
                       then [recordSeparator r] else [])
                 [] Hrest) as [w' Hw'].
    exists w'. rewrite Hw'. unfold assembled. cbn [flat_map fst snd].
    rewrite <- !app_assoc. reflexivity.
Qed.

Lemma Forall_firstn_skipn (A : Type) (Q : A -> Prop) (n : nat) (l : list A) :
  Forall Q l -> Forall Q (firstn n l) /\ Forall Q (skipn n l).
Proof.
  intro H. rewrite <- (firstn_skipn n l) in H. apply Forall_app in H. exact H.
Qed.

(** Splitting a record loses nothing: the frames are well formed and the
    receiver assembles the record followed by one separator. *)
Lemma splitRecord_assembled (sep : byte) (n fuel : nat) :
  forall payload : list byte,
    Forall plain payload ->
    Forall wellFormedFrame (splitRecord fuel n payload)
    /\ assembled sep (splitRecord fuel n payload) = payload ++ [sep].
Proof.
  induction fuel as [ | k IH]; intros payload Hpl; simpl.
  - split; [repeat constructor; auto | ].
    unfold assembled. simpl. rewrite app_nil_r. reflexivity.
  - destruct (List.length payload <=? n).
    + split; [repeat constructor; auto | ].
      unfold assembled. simpl. rewrite app_nil_r. reflexivity.
    + destruct (Forall_firstn_skipn _ plain n payload Hpl) as [Hf Hs].
      destruct (IH (skipn n payload) Hs) as [Hwf Hasm].
      split.
      * constructor; [split; simpl; auto | exact Hwf].
      * unfold assembled in *. cbn [flat_map fst snd].
        rewrite Hasm. change (Byte.eqb ETB ETX) with false. cbv iota.
        rewrite app_nil_r, app_assoc, firstn_skipn. reflexivity.
Qed.

Lemma assembled_app (sep : byte) (a b : list (list byte * byte)) :
  assembled sep (a ++ b) = assembled sep a ++ assembled sep b.
Proof. unfold assembled. apply flat_map_app. Qed.

Lemma framesOf_assembled (s : Settings) (sep : byte) :
  forall records : list (list byte),
    Forall (Forall plain) records ->
    Forall wellFormedFrame (framesOf s records)
    /\ assembled sep (framesOf s records) = join records sep.
Proof.
  induction records as [ | rec rest IH]; intro H.
  - split; [constructor | reflexivity].
  - inversion H as [ | ? ? Hrec Hrest]; subst.
    destruct (IH Hrest) as [Hwf Hasm].
    destruct (splitRecord_assembled sep (maxFramePayload s)
                (List.length rec) rec Hrec) as [Hwf1 Hasm1].
    unfold framesOf, join in *. cbn [flat_map]. split.
    + apply Forall_app. split; assumption.
    + rewrite assembled_app, Hasm1, Hasm. reflexivity.
Qed.

Lemma establish_acknowledged (s r : Settings) (more : nat) :
  establish (pipeStream r) s more pipeInit
  = (mkPipe [ENQ] (mkRx (Receiving []) firstFrame [] None) [], Sent).
Proof. destruct more; reflexivity. Qed.

(** The round trip for any two ends that agree on frame numbering: Send
    succeeds and Receive returns the records, each followed by the
    receiver's record separator. *)
Lemma sendAndReceive_general (s r : Settings) (records : list (list byte)) :
  frameNumberEnabled s = frameNumberEnabled r ->
  Forall (Forall plain) records ->
  sendAndReceive s r records = (Sent, Some (join records (recordSeparator r))).
Proof.
  intros Hfn Hrec. unfold sendAndReceive, Send.
  rewrite establish_acknowledged.
  destruct (framesOf_assembled s (recordSeparator r) records Hrec)
    as [Hwf Hasm].
  destruct (sendFrames_delivers s r Hfn (framesOf s records) firstFrame
              [ENQ] [] [] Hwf) as [w' Hw'].
  rewrite Hw'. cbn [peer delivered app]. rewrite Hasm. reflexivity.
Qed.

(** Whatever holds of the connection and is kept by every write and
    every read still holds when [Send] is over. *)
Lemma Send_preserves (Conn : Type) (io : Stream Conn) (s : Settings)
    (Inv : Conn -> Prop) :
  (forall c bs, Inv c -> Inv (write io c bs)) ->
  (forall c, Inv c -> Inv (snd (read io c))) ->
  forall c records, Inv c -> Inv (fst (Send io s c records)).
Proof.
  intros Hw Hr.
  assert (Htx : forall more frame c,
             Inv c -> Inv (fst (transmit io more frame c))).
  { induction more as [ | k IH]; intros frame c Hc; simpl;
      specialize (Hr _ (Hw c frame Hc));
      destruct (read io (write io c frame)) as [[b | ] c']; simpl in *; auto;
      destruct (Byte.eqb b ACK); simpl; auto. }
  assert (Hfs : forall frames F c,
             Inv c -> Inv (fst (sendFrames io s frames F c))).
  { induction frames as [ | [payload terminator] rest IH]; intros F c Hc; simpl.
    - apply Hw. exact Hc.
    - specialize (Htx (maxRetriesPerFrame s - 1)
                      (frameBytes s F payload terminator) c Hc).
      destruct (transmit io (maxRetriesPerFrame s - 1)
                         (frameBytes s F payload terminator) c) as [c' [ | | k]];
        simpl in *; auto. }
  assert (Hes : forall more c, Inv c -> Inv (fst (establish io s more c))).
  { induction more as [ | k IH]; intros c Hc; simpl;
      specialize (Hr _ (Hw c [ENQ] Hc));
      destruct (read io (write io c [ENQ])) as [[b | ] c']; simpl in *; auto;
      destruct (Byte.eqb b ACK); simpl; auto;
      destruct (Byte.eqb b ENQ && _); simpl; auto. }
  intros c records Hc. unfold Send.
  specialize (Hes (maxRetriesPerFrame s - 1) c Hc).
  destruct (establish io s (maxRetriesPerFrame s - 1) c) as [c' [ | | k]];
    simpl in *; auto.
Qed.

(** On a pipe the receiving end is always in the state that [rxFeed]
    reaches on the bytes written so far. *)
Lemma pipe_peer_follows_wire (s r : Settings) (records : list (list byte)) :
  let p := fst (Send (pipeStream r) s pipeInit records) in
  peer p = fst (rxFeed r rxInit (wire p)).
Proof.
  apply (Send_preserves Pipe (pipeStream r) s
           (fun p => peer p = fst (rxFeed r rxInit (wire p)))).
  - intros c bs Hc. cbn [pipeStream write].
    destruct (rxFeed r (peer c) bs) as [st out] eqn:E. cbn [peer wire].
    rewrite rxFeed_app. rewrite Hc in E.
    destruct (rxFeed r rxInit (wire c)) as [st0 out0]. simpl in E.
    rewrite E. reflexivity.
  - intros c Hc. cbn [pipeStream read].
    destruct (inbox c); simpl; exact Hc.
  - reflexivity.
Qed.

(** The wire bytes of [TestSendData]: the sender of "H||||" and
    "O|1|||||", frame numbers on, against an acknowledging peer. *)
Example Send_wire_bytes :
  fst (Send ackingPeer (EnableFrameNumber DefaultLis1A1ProtocolSettings) []
            [list_byte_of_string "H||||"; list_byte_of_string "O|1|||||"])
  = [ENQ; STX] ++ list_byte_of_string "1H||||" ++ [ETX; x36; x43; CR; LF; STX]
    ++ list_byte_of_string "2O|1|||||" ++ [ETX; x39; x44; CR; LF; EOT].
Proof. vm_compute. reflexivity. Qed.

(** Frames are split at [maxFramePayload] and coalesced on receipt. *)
Example round_trip_split_frames :
  let s := mkSettings 3 true lowPriority 15 10 6 CR in
  sendAndReceive s s [list_byte_of_string "abcdefgh"]
  = (Sent, Some (list_byte_of_string "abcdefgh" ++ [CR])).
Proof. vm_compute. reflexivity. Qed.

End Lis1A1RoundTrip.

(** * Further properties of ftpClient.go *)

(** ** addLineEndings *)

Lemma fold_left_line_endings (lb : list byte) (msg : list (list byte))
    (acc : list byte) :
  fold_left (fun databytes m => ((databytes ++ m) ++ lb)%list) msg acc
  = (acc ++ flat_map (fun m => (m ++ lb)%list) msg)%list.
Proof.
  revert acc. induction msg as [ | m rest IH]; intro acc; simpl.
  - rewrite app_nil_r. reflexivity.
  - rewrite IH. rewrite <- !app_assoc. reflexivity.
Qed.

Lemma addLineEndings_flat_map (instance : ftpServerInstance)
    (msg : list (list byte)) (arg : LINEBREAK) :
  addLineEndings instance msg arg
  = flat_map (fun m => (m ++ lineBreakBytes (linebreak (config instance)))%list)
             msg.
Proof.
  unfold addLineEndings, lineBreakBytes.
  rewrite fold_left_line_endings. simpl.
  destruct (linebreak (config instance) =? LINEBREAK_CR); [reflexivity | ].
  destruct (linebreak (config instance) =? LINEBREAK_CRLF); [reflexivity | ].
  destruct (linebreak (config instance) =? LINEBREAK_LF); reflexivity.
Qed.

(** X1. [addLineEndings] returns the messages in order, each followed by
    the line break of the instance's configuration - CR, CR LF, or LF for
    LF and for every other value of the setting; the [linebreak] argument
    has no influence on the result. *)
Theorem addLineEndings_appends_configured_break :
  forall (instance : ftpServerInstance) (msg : list (list byte))
         (arg arg' : LINEBREAK),
    addLineEndings instance msg arg
    = flat_map
        (fun m => (m ++ lineBreakBytes (linebreak (config instance)))%list) msg
    /\ addLineEndings instance msg arg = addLineEndings instance msg arg'
    /\ (linebreak (config instance) <> LINEBREAK_CR ->
        linebreak (config instance) <> LINEBREAK_CRLF ->
        addLineEndings instance msg arg
        = flat_map (fun m => (m ++ [x0a])%list) msg).
Proof.
  intros instance msg arg arg'. split; [ | split].
  - apply addLineEndings_flat_map.
  - rewrite !addLineEndings_flat_map. reflexivity.
  - intros Hcr Hcrlf. rewrite addLineEndings_flat_map. unfold lineBreakBytes.
    destruct (Z.eqb_spec (linebreak (config instance)) LINEBREAK_CR);
      [contradiction | ].
    destruct (Z.eqb_spec (linebreak (config instance)) LINEBREAK_CRLF);
      [contradiction | reflexivity].
Qed.

Lemma addLineEndings_appends_configured_break_witness :
  addLineEndings (withConfig (sampleInstance FTP)
                             (set_linebreak DefaultFTPConfig 7))
                 [list_byte_of_string "H|1"; list_byte_of_string "L|1"]
                 LINEBREAK_CR
  = flat_map (fun m => (m ++ [x0a])%list)
             [list_byte_of_string "H|1"; list_byte_of_string "L|1"].
Proof.
  apply (addLineEndings_appends_configured_break
           (withConfig (sampleInstance FTP) (set_linebreak DefaultFTPConfig 7))
           [list_byte_of_string "H|1"; list_byte_of_string "L|1"]
           LINEBREAK_CR LINEBREAK_CR);
    discriminate.
Defined.

Lemma length_flat_map_break (lb : list byte) (msg : list (list byte)) :
  List.length (flat_map (fun m => (m ++ lb)%list) msg)
  = (totalLength msg + List.length msg * List.length lb)%nat.
Proof.
  induction msg as [ | m rest IH]; simpl; [reflexivity | ].
  rewrite !length_app, IH. lia.
Qed.

(** X2. [addLineEndings] distributes over the concatenation of message
    lists, returns nothing for no message, and its result is as long as
    all messages together plus one line break (one byte, for CR LF two) per
    message. *)
Theorem addLineEndings_concat_and_length :
  forall (instance : ftpServerInstance) (msg msg' : list (list byte))
         (arg : LINEBREAK),
    addLineEndings instance (msg ++ msg') arg
    = (addLineEndings instance msg arg ++ addLineEndings instance msg' arg)%list
    /\ addLineEndings instance [] arg = []
    /\ List.length (addLineEndings instance msg arg)
       = (totalLength msg
          + List.length msg
            * (if (linebreak (config instance) =? LINEBREAK_CRLF)%Z
               then 2 else 1))%nat.
Proof.
  intros instance msg msg' arg. split; [ | split].
  - rewrite !addLineEndings_flat_map. apply flat_map_app.
  - reflexivity.
  - rewrite addLineEndings_flat_map, length_flat_map_break.
    unfold lineBreakBytes.
    destruct (Z.eqb_spec (linebreak (config instance)) LINEBREAK_CR) as [E | _].
    + rewrite E. reflexivity.
    + destruct (linebreak (config instance) =? LINEBREAK_CRLF); reflexivity.
Qed.

(** ** generateFileName *)

Lemma mem_ascii_app (c : ascii) (a b : string) :
  Go.mem_ascii c (a ++ b) = Go.mem_ascii c a || Go.mem_ascii c b.
Proof.
  induction a as [ | d a IH]; simpl; [reflexivity | ].
  rewrite IH, orb_assoc. reflexivity.
Qed.

(** A pattern whose first byte does not occur in the text is not found. *)
Lemma replace_scan_absent (c : ascii) (old' new s : string) :
  Go.mem_ascii c s = false ->
  Go.replace_scan (String c old') new 0 s = s.
Proof.
  induction s as [ | d s IH]; simpl; [reflexivity | ].
  intro H. apply orb_false_iff in H. destruct H as [Hcd Hs].
  destruct (ascii_dec c d) as [-> | _].
  - rewrite Ascii.eqb_refl in Hcd. discriminate.
  - rewrite (IH Hs). reflexivity.
Qed.

Lemma Replace_absent (c : ascii) (old' new s : string) :
  Go.mem_ascii c s = false -> Go.Replace s (String c old') new = s.
Proof.
  intro H. unfold Go.Replace.
  destruct (String.eqb (String c old') new); [reflexivity | ].
  apply replace_scan_absent. exact H.
Qed.

Lemma tokenFree_no_letter (s : string) (c : ascii) :
  tokenFree s = true -> Go.mem_ascii c tokenLetters = true ->
  Go.mem_ascii c s = false.
Proof.
  intros Hs Hc. induction s as [ | d s IH]; simpl in *; [reflexivity | ].
  apply andb_true_iff in Hs. destruct Hs as [Hd Hs].
  rewrite (IH Hs), orb_false_r.
  destruct (Ascii.eqb_spec c d) as [-> | _]; [ | reflexivity].
  rewrite Hc in Hd. discriminate.
Qed.

(** A single-byte pattern in a text that holds it once. *)
Lemma replace_scan_once (c : ascii) (new a b : string) :
  Go.mem_ascii c a = false -> Go.mem_ascii c b = false ->
  Go.replace_scan (String c "") new 0 (a ++ String c b) = a ++ new ++ b.
Proof.
  intros Ha Hb. induction a as [ | d a IH].
  - simpl. destruct (ascii_dec c c) as [_ | N]; [ | contradiction].
    replace (String.prefix "" b) with true by (destruct b; reflexivity).
    rewrite (replace_scan_absent c "" new b Hb). reflexivity.
  - simpl in Ha. apply orb_false_iff in Ha. destruct Ha as [Hd Ha].
    simpl. destruct (ascii_dec c d) as [E | _].
    + subst d. rewrite Ascii.eqb_refl in Hd. discriminate.
    + rewrite (IH Ha). reflexivity.
Qed.

Lemma Replace_hash (new a b : string) :
  Go.mem_ascii "#" a = false -> Go.mem_ascii "#" b = false ->
  Go.Replace (a ++ String "#" b) "#" new = a ++ new ++ b.
Proof.
  intros Ha Hb. unfold Go.Replace.
  destruct (String.eqb_spec "#" new) as [<- | _]; [reflexivity | ].
  apply replace_scan_once; assumption.
Qed.

Ltac no_token :=
  rewrite ?mem_ascii_app; cbn [Go.mem_ascii];
  repeat (apply orb_false_iff; split);
  try reflexivity;
  try (eapply tokenFree_no_letter; [eassumption | reflexivity]).

(** X4. Without a suffix, a pattern that holds no token letter is used as
    it is, and in a pattern [a#b] whose parts hold none the counter takes
    the place of the [#]: the result is the prefix, [a], the counter in
    decimal, [b]. (The year needs two digits at least, otherwise the call
    panics.) *)
Theorem generateFileName_literal_and_counter :
  forall (t : Now) (a b pre yy : string) (cnt : Z),
    Go.slice_from 2 (Go.Itoa (Year t)) = Some yy ->
    tokenFree a = true -> tokenFree b = true ->
    generateFileName t a pre "" cnt = Some (pre ++ a)
    /\ generateFileName t (a ++ String "#" b) pre "" cnt
       = Some (pre ++ a ++ Go.Itoa cnt ++ b).
Proof.
  intros t a b pre yy cnt Hyy Ha Hb. unfold generateFileName. rewrite Hyy.
  split.
  - repeat rewrite (Replace_absent _ _ _ a) by no_token. reflexivity.
  - repeat rewrite (Replace_absent _ _ _ (a ++ String "#" b)) by no_token.
    rewrite Replace_hash by no_token. reflexivity.
Qed.

Lemma generateFileName_literal_and_counter_witness :
  generateFileName sampleNow "RESULT.TXT" "AUTO-" "" 7 = Some "AUTO-RESULT.TXT"
  /\ generateFileName sampleNow "RES-#.TXT" "AUTO-" "" 7
     = Some "AUTO-RES-7.TXT".
Proof.
  destruct (generateFileName_literal_and_counter sampleNow "RESULT.TXT" ".TXT"
              "AUTO-" "23" 7 eq_refl eq_refl eq_refl) as [H _].
  destruct (generateFileName_literal_and_counter sampleNow "RES-" ".TXT"
              "AUTO-" "23" 7 eq_refl eq_refl eq_refl) as [_ H'].
  split; [exact H | exact H'].
Defined.

(** X3. With a non-empty suffix the generated name does not depend on the
    pattern or on the counter: it is the prefix followed by one dot when
    the suffix holds a dot, by two dots otherwise. *)
Theorem generateFileName_suffix_overrides_pattern :
  forall (t : Now) (pattern pattern' pre suf yy : string) (cnt cnt' : Z),
    suf <> "" ->
    Go.slice_from 2 (Go.Itoa (Year t)) = Some yy ->
    generateFileName t pattern pre suf cnt
    = Some (pre ++ (if Go.mem_ascii "." suf then "." else ".."))
    /\ generateFileName t pattern pre suf cnt
       = generateFileName t pattern' pre suf cnt'.
Proof.
  intros t pattern pattern' pre suf yy cnt cnt' Hsuf Hyy.
  rewrite (generateFileName_nonempty_suffix t pattern pre suf cnt yy Hsuf Hyy).
  rewrite (generateFileName_nonempty_suffix t pattern' pre suf cnt' yy Hsuf Hyy).
  split; reflexivity.
Qed.

Lemma generateFileName_suffix_overrides_pattern_witness :
  generateFileName sampleNow "yyyyMMdd-#.dat" "AUTO-" ".bak" 1 = Some "AUTO-."
  /\ generateFileName sampleNow "yyyyMMdd-#.dat" "AUTO-" ".bak" 1
     = generateFileName sampleNow "other" "AUTO-" ".bak" 2.
Proof.
  apply (generateFileName_suffix_overrides_pattern sampleNow "yyyyMMdd-#.dat"
           "other" "AUTO-" ".bak" "23" 1 2); [discriminate | reflexivity].
Defined.

(** ** The polled path *)

Lemma string_app_assoc (a b c : string) : (a ++ b) ++ c = a ++ (b ++ c).
Proof. induction a as [ | x a IH]; simpl; [ | rewrite IH]; reflexivity. Qed.

Lemma string_app_nil_r (a : string) : a ++ "" = a.
Proof. induction a as [ | x a IH]; simpl; [ | rewrite IH]; reflexivity. Qed.

Lemma rev_string_acc (s acc : string) :
  Go.rev_string acc s = Go.rev_string "" s ++ acc.
Proof.
  revert acc. induction s as [ | c s IH]; intro acc; simpl; [reflexivity | ].
  rewrite IH, (IH (String c "")). rewrite string_app_assoc. reflexivity.
Qed.

Lemma rev_string_app (a b : string) :
  Go.rev_string "" (a ++ b) = Go.rev_string "" b ++ Go.rev_string "" a.
Proof.
  induction a as [ | c a IH]; simpl.
  - rewrite string_app_nil_r. reflexivity.
  - rewrite rev_string_acc, IH, (rev_string_acc a (String c "")).
    rewrite string_app_assoc. reflexivity.
Qed.

Lemma rev_string_involutive (s : string) :
  Go.rev_string "" (Go.rev_string "" s) = s.
Proof.
  induction s as [ | c s IH]; simpl; [reflexivity | ].
  rewrite (rev_string_acc s (String c "")), rev_string_app, IH. reflexivity.
Qed.

(** What [TrimLeft] returns does not start with a byte of the cutset. *)
Lemma TrimLeft_head (s cutset : string) (c : ascii) (rest : string) :
  Go.TrimLeft s cutset = String c rest -> Go.mem_ascii c cutset = false.
Proof.
  induction s as [ | d s IH]; simpl; [discriminate | ].
  destruct (Go.mem_ascii d cutset) eqn:Hd; [exact IH | ].
  intro H. injection H as <- _. exact Hd.
Qed.

Lemma TrimRight_slash (h : string) :
  Go.TrimRight (h ++ "/") "/" = Go.TrimRight h "/".
Proof. unfold Go.TrimRight. rewrite rev_string_app. reflexivity. Qed.

Lemma TrimRight_no_trailing (h q cutset : string) (c : ascii) :
  Go.TrimRight h cutset = q ++ String c "" -> Go.mem_ascii c cutset = false.
Proof.
  unfold Go.TrimRight. intro H.
  apply (f_equal (Go.rev_string "")) in H.
  rewrite rev_string_involutive, rev_string_app in H. simpl in H.
  apply (TrimLeft_head _ _ _ _ H).
Qed.

(** X5. The polled path is the host path with all its trailing slashes
    replaced by one: a host path with one more slash at its end gives the
    same polled path, and the polled path never ends in two slashes. *)
Theorem ftpPath_single_trailing_slash :
  forall (instance : ftpServerInstance),
    ftpPathOf (withHostpath instance (hostpath instance ++ "/"))
    = ftpPathOf instance
    /\ (forall q, ftpPathOf instance <> q ++ "//")
    /\ exists p, ftpPathOf instance = p ++ "/".
Proof.
  intro instance. unfold ftpPathOf. simpl hostpath.
  split; [ | split].
  - rewrite TrimRight_slash. reflexivity.
  - intros q H.
    assert (E : Go.TrimRight (hostpath instance) "/" = q ++ "/").
    { apply (f_equal (Go.rev_string "")) in H.
      rewrite !rev_string_app in H. simpl in H.
      injection H as H. apply (f_equal (Go.rev_string "")) in H.
      rewrite rev_string_involutive in H. rewrite H.
      change (String "/" (Go.rev_string "" q))
        with (Go.rev_string "" "/" ++ Go.rev_string "" q).
      rewrite <- rev_string_app, rev_string_involutive. reflexivity. }
    apply TrimRight_no_trailing in E. discriminate E.
  - eexists. reflexivity.
Qed.

(** ** Transports and authentication *)

(** X6. On an instance whose type is neither FTP nor SFTP, [Run] returns
    at once without any callback or command, and [Send] reports success
    with a count of 0 although nothing was sent. *)
Theorem unknown_transport_is_silently_ignored :
  forall (P : Platform) (instance : ftpServerInstance) (w : Remote)
         (sw : SendWorld) (msg : list (list byte)),
    ftpType instance <> FTP -> ftpType instance <> SFTP ->
    Run P instance w = ([], Returned)
    /\ Send sw instance msg = mkSendResult (Go.Returns (0, None)) instance [].
Proof.
  intros P instance w sw msg Hftp Hsftp. unfold Run, Send.
  destruct (Z.eqb_spec (ftpType instance) FTP); [contradiction | ].
  destruct (Z.eqb_spec (ftpType instance) SFTP); [contradiction | ].
  split; reflexivity.
Qed.

Lemma unknown_transport_is_silently_ignored_witness :
  Run asciiPlatform (sampleInstance 0) sampleRemote = ([], Returned)
  /\ Send sampleSendWorld (sampleInstance 0) [list_byte_of_string "H|1"]
     = mkSendResult (Go.Returns (0, None)) (sampleInstance 0) [].
Proof.
  apply (unknown_transport_is_silently_ignored asciiPlatform (sampleInstance 0)
           sampleRemote sampleSendWorld [list_byte_of_string "H|1"]);
    discriminate.
Defined.

Lemma sftpPoll_end P instance ftpPath rs :
  snd (sftpPoll P instance ftpPath rs) = StillPolling
  \/ snd (sftpPoll P instance ftpPath rs) = Returned
     /\ exists r, In r rs /\ wake r = Terminated /\ skipsSelect r = false.
Proof.
  induction rs as [ | r rest IH]; simpl; [auto | ].
  assert (Hrest : forall tr,
             snd (let (tr0, e') := sftpPoll P instance ftpPath rest in
                  ((tr ++ tr0)%list, e')) = StillPolling
             \/ snd (let (tr0, e') := sftpPoll P instance ftpPath rest in
                     ((tr ++ tr0)%list, e')) = Returned
                /\ exists r', (r = r' \/ In r' rest) /\ wake r' = Terminated
                              /\ skipsSelect r' = false).
  { intro tr. destruct (sftpPoll P instance ftpPath rest) as [tr0 e'].
    simpl in *. destruct IH as [H | [H (r' & Hin & Hw & Hs)]]; eauto 8. }
  unfold skipsSelect in *.
  destruct (listing r) as [files [e | ]] eqn:Hl.
  - apply (Hrest [ReadDir ftpPath; OnError ErrorReceive (Some e)]).
  - destruct files as [ | f0 fs].
    + apply (Hrest [ReadDir ftpPath]).
    + destruct (wake r) eqn:Hw.
      * apply (Hrest (ReadDir ftpPath
                        :: flat_map (sftpPollFile P instance ftpPath)
                                    (f0 :: fs))).
      * right. split; [reflexivity | ]. exists r. rewrite Hl. auto.
Qed.

Lemma ftpPoll_end P instance ftpPath rs :
  snd (ftpPoll P instance ftpPath rs) = StillPolling
  \/ snd (ftpPoll P instance ftpPath rs) = Returned
     /\ exists r, In r rs /\ wake r = Terminated /\ snd (listing r) = None.
Proof.
  induction rs as [ | r rest IH]; simpl; [auto | ].
  assert (Hrest : forall tr,
             snd (let (tr0, e') := ftpPoll P instance ftpPath rest in
                  ((tr ++ tr0)%list, e')) = StillPolling
             \/ snd (let (tr0, e') := ftpPoll P instance ftpPath rest in
                     ((tr ++ tr0)%list, e')) = Returned
                /\ exists r', (r = r' \/ In r' rest) /\ wake r' = Terminated
                              /\ snd (listing r') = None).
  { intro tr. destruct (ftpPoll P instance ftpPath rest) as [tr0 e'].
    simpl in *. destruct IH as [H | [H (r' & Hin & Hw & Hs)]]; eauto 8. }
  destruct (listing r) as [files [e | ]] eqn:Hl.
  - apply (Hrest [List_ ftpPath; OnError ErrorReceive (Some e)]).
  - destruct (wake r) eqn:Hw.
    + apply (Hrest (List_ ftpPath
                      :: flat_map (ftpPollFile P instance ftpPath) files)).
    + right. split; [reflexivity | ]. exists r. rewrite Hl. auto.
Qed.

(** X7. A run of [runWithFTP] ends the process ([log.Fatal]) exactly when
    the dial succeeded and the authentication method is not PASSWORD - so
    always on a reachable server with a configuration made by [PubKey] -
    and it never panics; before exiting it reports kind Configuration and
    attempts no login. *)
Theorem runWithFTP_exits_iff_not_password :
  forall (P : Platform) (instance : ftpServerInstance) (w : Remote),
    (snd (runWithFTP P instance w) = Exited
     <-> dialErr w = None /\ authMethod (config instance) <> PASSWORD)
    /\ snd (runWithFTP P instance w) <> Panicked
    /\ (snd (runWithFTP P instance w) = Exited ->
        fst (runWithFTP P instance w)
        = [Dial (serverAddress instance);
           OnError ErrorConfiguration (Some "Invalid Authentication Method")])
    /\ (forall conf u k,
           dialErr w = None ->
           snd (runWithFTP P (withConfig instance (PubKey conf u k)) w)
           = Exited).
Proof.
  intros P instance w.
  assert (Hloop := ftpPoll_end P instance (ftpPathOf instance) (rounds w)).
  unfold runWithFTP.
  destruct (dialErr w) as [e | ].
  { simpl. repeat split; try discriminate; intuition discriminate. }
  destruct (Z.eqb_spec (authMethod (config instance)) PASSWORD) as [Ha | Ha];
    simpl negb; cbv iota.
  - split; [ | split; [ | split]].
    + destruct (loginErr w); [simpl; intuition discriminate | ].
      destruct (connectedErr w); [simpl; intuition discriminate | ].
      destruct (ftpPoll P instance (ftpPathOf instance) (rounds w)) as [tr e].
      simpl in *. split; [ | tauto].
      intro H. subst e. destruct Hloop as [H | [H _]]; discriminate.
    + destruct (loginErr w); [simpl; discriminate | ].
      destruct (connectedErr w); [simpl; discriminate | ].
      destruct (ftpPoll P instance (ftpPathOf instance) (rounds w)) as [tr e].
      simpl in *. destruct Hloop as [H | [H _]]; rewrite H; discriminate.
    + destruct (loginErr w); [simpl; discriminate | ].
      destruct (connectedErr w); [simpl; discriminate | ].
      destruct (ftpPoll P instance (ftpPathOf instance) (rounds w)) as [tr e].
      simpl in *. intro H. subst e.
      destruct Hloop as [H | [H _]]; discriminate.
    + intros conf u k _. reflexivity.
  - split; [ | split; [ | split]].
    + simpl. tauto.
    + simpl. discriminate.
    + reflexivity.
    + intros conf u k _. reflexivity.
Qed.

Lemma runWithFTP_exits_iff_not_password_witness :
  snd (runWithFTP asciiPlatform
         (withConfig (sampleInstance FTP) (PubKey DefaultFTPConfig "lab" "key"))
         sampleRemote) = Exited
  /\ fst (runWithFTP asciiPlatform
            (withConfig (sampleInstance FTP)
                        (PubKey DefaultFTPConfig "lab" "key"))
            sampleRemote)
     = [Dial "lab.example:21";
        OnError ErrorConfiguration (Some "Invalid Authentication Method")].
Proof.
  destruct (runWithFTP_exits_iff_not_password asciiPlatform
              (withConfig (sampleInstance FTP)
                          (PubKey DefaultFTPConfig "lab" "key"))
              sampleRemote) as (Hiff & _ & Htrace & _).
  assert (H : snd (runWithFTP asciiPlatform
                     (withConfig (sampleInstance FTP)
                                 (PubKey DefaultFTPConfig "lab" "key"))
                     sampleRemote) = Exited).
  { apply Hiff. split; [reflexivity | discriminate]. }
  split; [exact H | apply Htrace; exact H].
Defined.

(** X8. A run of [runWithSFTP] panics exactly when the authentication
    method is neither PASSWORD nor PUBKEY; it then has reported kind
    Configuration with a nil error and dialled nothing. It never ends the
    process, and [sftpSend] with such a method returns -1 and an error
    instead of panicking. Configurations made by [UserPass] or [PubKey]
    never panic. *)
Theorem runWithSFTP_panics_iff_unknown_auth :
  forall (P : Platform) (instance : ftpServerInstance) (w : Remote)
         (sw : SendWorld) (msg : list (list byte)),
    (snd (runWithSFTP P instance w) = Panicked
     <-> authMethod (config instance) <> PASSWORD
         /\ authMethod (config instance) <> PUBKEY)
    /\ snd (runWithSFTP P instance w) <> Exited
    /\ (snd (runWithSFTP P instance w) = Panicked ->
        fst (runWithSFTP P instance w) = [OnError ErrorConfiguration None]
        /\ sftpSend sw instance msg
           = mkSendResult
               (Go.Returns
                  (-1, Some "invalid (s)FTP Authentication-Method provided"))
               instance [])
    /\ (forall conf u k,
           snd (runWithSFTP P (withConfig instance (UserPass conf u k)) w)
           <> Panicked
           /\ snd (runWithSFTP P (withConfig instance (PubKey conf u k)) w)
              <> Panicked).
Proof.
  intros P instance w sw msg.
  assert (Hnever : forall i, (authMethod (config i) =? PASSWORD)
                             || (authMethod (config i) =? PUBKEY) = true ->
                             snd (runWithSFTP P i w) <> Panicked
                             /\ snd (runWithSFTP P i w) <> Exited).
  { intros i Hi. unfold runWithSFTP. rewrite Hi. simpl negb. cbv iota.
    assert (Hloop := sftpPoll_end P i (ftpPathOf i) (rounds w)).
    match goal with |- context [match ?x with Some _ => _ | None => _ end] =>
      destruct x end; [simpl; split; discriminate | ].
    destruct (dialErr w); [simpl; split; discriminate | ].
    destruct (newClientErr w); [simpl; split; discriminate | ].
    destruct (connectedErr w); [simpl; split; discriminate | ].
    destruct (sftpPoll P i (ftpPathOf i) (rounds w)) as [tr e].
    simpl in *. destruct Hloop as [H | [H _]]; rewrite H; split; discriminate. }
  split; [ | split; [ | split]].
  - destruct ((authMethod (config instance) =? PASSWORD)
              || (authMethod (config instance) =? PUBKEY)) eqn:Hauth.
    + split; [intro H; destruct (Hnever instance Hauth) as [Hn _]; contradiction | ].
      intros [Hp Hk]. apply orb_true_iff in Hauth.
      destruct Hauth as [H | H]; apply Z.eqb_eq in H; contradiction.
    + split.
      * intros _. apply orb_false_iff in Hauth. destruct Hauth as [Hp Hk].
        apply Z.eqb_neq in Hp. apply Z.eqb_neq in Hk. auto.
      * intros _. unfold runWithSFTP. rewrite Hauth. reflexivity.
  - destruct ((authMethod (config instance) =? PASSWORD)
              || (authMethod (config instance) =? PUBKEY)) eqn:Hauth.
    + apply (Hnever instance Hauth).
    + unfold runWithSFTP. rewrite Hauth. simpl. discriminate.
  - destruct ((authMethod (config instance) =? PASSWORD)
              || (authMethod (config instance) =? PUBKEY)) eqn:Hauth.
    + intro H. destruct (Hnever instance Hauth) as [Hn _]. contradiction.
    + intros _. unfold runWithSFTP, sftpSend. rewrite Hauth. split; reflexivity.
  - intros conf u k. split; apply Hnever; reflexivity.
Qed.

Lemma runWithSFTP_panics_iff_unknown_auth_witness :
  snd (runWithSFTP asciiPlatform
         (withConfig (sampleInstance SFTP)
            (mkFtpConfiguration 0 "" "" "" 0 false 0 0 (mkAutoGen "" "" "" 0)))
         sampleRemote) = Panicked.
Proof.
  apply (runWithSFTP_panics_iff_unknown_auth asciiPlatform
           (withConfig (sampleInstance SFTP)
              (mkFtpConfiguration 0 "" "" "" 0 false 0 0 (mkAutoGen "" "" "" 0)))
           sampleRemote sampleSendWorld []).
  split; discriminate.
Defined.

(** X9. With a host key configured, a host key that cannot be decoded or
    parsed makes [runWithSFTP] report kind Configuration and return
    without dialling; without one, the run does not depend on what
    decoding or parsing would answer. *)
Theorem runWithSFTP_host_key :
  forall (P : Platform) (instance : ftpServerInstance)
         (decode parse decode' parse' dial nc login conn : option error)
         (rs : list PollRound),
    (authMethod (config instance) = PASSWORD
     \/ authMethod (config instance) = PUBKEY) ->
    (hostkey (config instance) <> "" ->
     forall e,
       decode = Some e \/ (decode = None /\ parse = Some e) ->
       runWithSFTP P instance (mkRemote decode parse dial nc login conn rs)
       = ([OnError ErrorConfiguration (Some e)], Returned))
    /\ (hostkey (config instance) = "" ->
        runWithSFTP P instance (mkRemote decode parse dial nc login conn rs)
        = runWithSFTP P instance (mkRemote decode' parse' dial nc login conn rs)).
Proof.
  intros P instance decode parse decode' parse' dial nc login conn rs Hauth.
  assert (Ha : (authMethod (config instance) =? PASSWORD)
               || (authMethod (config instance) =? PUBKEY) = true).
  { destruct Hauth as [-> | ->]; reflexivity. }
  split.
  - intros Hk e He. unfold runWithSFTP. rewrite Ha. simpl negb. cbv iota.
    destruct (String.eqb_spec (hostkey (config instance)) "");
      [contradiction | ].
    simpl. destruct He as [-> | [-> ->]]; reflexivity.
  - intro Hk. unfold runWithSFTP. rewrite Ha, Hk. reflexivity.
Qed.

Lemma runWithSFTP_host_key_witness :
  runWithSFTP asciiPlatform
    (withConfig (sampleInstance SFTP) (HostKey DefaultFTPConfig "AAAA"))
    badHostKeyRemote
  = ([OnError ErrorConfiguration (Some "illegal base64 data")], Returned)
  /\ runWithSFTP asciiPlatform (sampleInstance SFTP) badHostKeyRemote
     = runWithSFTP asciiPlatform (sampleInstance SFTP) sampleRemote.
Proof.
  destruct (runWithSFTP_host_key asciiPlatform
              (withConfig (sampleInstance SFTP) (HostKey DefaultFTPConfig "AAAA"))
              (Some "illegal base64 data") None None None None None None None
              [mkPollRound ([sampleFile], None) Terminated]
              (or_introl eq_refl)) as [Hbad _].
  destruct (runWithSFTP_host_key asciiPlatform (sampleInstance SFTP)
              (Some "illegal base64 data") None None None None None None None
              [mkPollRound ([sampleFile], None) Terminated]
              (or_introl eq_refl)) as [_ Hnone].
  split.
  - apply Hbad; [discriminate | left; reflexivity].
  - apply Hnone. reflexivity.
Defined.

(** ** Send: what is uploaded *)

Lemma wrap_int_range (z : Z) : - 2 ^ 63 <= Go.wrap_int z < 2 ^ 63.
Proof.
  unfold Go.wrap_int.
  pose proof (Z.mod_pos_bound (z + 2 ^ 63) (2 ^ 64) ltac:(lia)). lia.
Qed.

Lemma wrap_int_small (z : Z) :
  - 2 ^ 63 <= z < 2 ^ 63 -> Go.wrap_int z = z.
Proof.
  intro H. unfold Go.wrap_int. rewrite Z.mod_small; lia.
Qed.

(** X10. When [ftpSend] issues its upload, the file goes to the polled path
    followed by the name generated from the configured pattern, prefix and
    suffix with the counter just incremented; its content is the messages
    with their line endings; and the instance keeps the incremented
    counter (one more than before, wrapping as a 64-bit integer). The same
    holds for the file [sftpSend] creates. *)
Theorem Send_uploads_generated_file :
  forall (w : SendWorld) (instance : ftpServerInstance) (msg : list (list byte))
         (path : string) (data : list byte),
    let a := autoGenerated (config instance) in
    let cnt := Go.wrap_int (counter a + 1) in
    (In (Stor path data) (issued (ftpSend w instance msg)) ->
     (exists name,
         generateFileName (now w) (generatorpattern a) (prefix a) (suffix a) cnt
         = Some name
         /\ path = ftpPathOf instance ++ name)
     /\ data = addLineEndings instance msg (linebreak (config instance))
     /\ counter (autoGenerated (config (after (ftpSend w instance msg)))) = cnt)
    /\ (In (Create path) (issued (sftpSend w instance msg)) ->
        (exists name,
            generateFileName (now w) (generatorpattern a) (prefix a) (suffix a)
                             cnt
            = Some name
            /\ path = ftpPathOf instance ++ name)
        /\ counter (autoGenerated (config (after (sftpSend w instance msg))))
           = cnt)
    /\ (- 2 ^ 63 <= counter a < 2 ^ 63 - 1 -> cnt = counter a + 1).
Proof.
  intros w instance msg path data a cnt. split; [ | split].
  - unfold ftpSend.
    destruct (s_dialErr w); [simpl; intuition discriminate | ].
    destruct (negb _); [simpl; intuition discriminate | ].
    destruct (s_loginErr w); [simpl; intuition discriminate | ].
    destruct (nextFileName w (bumpCounter instance)) as [name | ] eqn:Hn;
      [ | simpl; intuition discriminate].
    assert (Hin : In (Stor path data)
                     [Dial (serverAddress instance);
                      Login (user (config instance)) (key (config instance));
                      Stor (ftpPathOf instance ++ name)
                           (addLineEndings (bumpCounter instance) msg
                              (linebreak (config (bumpCounter instance))))] ->
                  path = ftpPathOf instance ++ name
                  /\ data = addLineEndings instance msg
                              (linebreak (config instance))).
    { simpl. intros [H | [H | [H | []]]]; try discriminate.
      injection H as <- <-. split; reflexivity. }
    destruct (s_storErr w); simpl issued; intro H; apply Hin in H;
      destruct H as [-> ->]; (split; [exists name; split; [exact Hn | reflexivity] | ]);
      split; reflexivity.
  - unfold sftpSend.
    destruct (negb _); [simpl; intuition discriminate | ].
    match goal with |- context [match ?x with Some _ => _ | None => _ end] =>
      destruct x end; [simpl; intuition discriminate | ].
    destruct (s_dialErr w); [simpl; intuition discriminate | ].
    destruct (s_newClientErr w); [simpl; intuition discriminate | ].
    destruct (nextFileName w (bumpCounter instance)) as [name | ] eqn:Hn;
      [ | simpl; intuition discriminate].
    assert (Hin : forall tl,
               (forall p, ~ In (Create p) tl) ->
               In (Create path)
                  (Dial (serverAddress instance) :: NewClient
                     :: Create (ftpPathOf instance ++ name) :: tl) ->
               path = ftpPathOf instance ++ name).
    { simpl. intros tl Htl [H | [H | [H | H]]]; try discriminate.
      - injection H as <-. reflexivity.
      - destruct (Htl _ H). }
    destruct (s_createErr w).
    + simpl issued. intro H. apply (Hin []) in H; [ | intros p []].
      subst path. split; [exists name; split; [exact Hn | reflexivity] | reflexivity].
    + destruct (s_write w _) as [n [e | ]]; simpl issued; intro H;
        (apply (Hin [Write (addLineEndings instance msg
                              (linebreak (config instance)))]) in H;
         [ | intros p [Hp | []]; discriminate ]);
        subst path;
        (split; [exists name; split; [exact Hn | reflexivity] | reflexivity]).
  - intro H. subst cnt. apply wrap_int_small. lia.
Qed.

Lemma Send_uploads_generated_file_witness :
  (exists name,
      generateFileName sampleNow "yyyyMMddhhmmss-#.dat" "AUTO-" ""
                       (Go.wrap_int (0 + 1)) = Some name
      /\ "/in/AUTO-20231014162427-1.dat"
         = ftpPathOf (sampleInstance FTP) ++ name)
  /\ Go.wrap_int (0 + 1) = 0 + 1.
Proof.
  destruct (Send_uploads_generated_file sampleSendWorld (sampleInstance FTP)
              [list_byte_of_string "H|1"] "/in/AUTO-20231014162427-1.dat"
              (list_byte_of_string "H|1" ++ [x0a])%list)
    as (Hstor & _ & Hcnt).
  split.
  - apply Hstor. simpl. tauto.
  - apply Hcnt. simpl. lia.
Defined.

(** X11. When the dial fails - or, for FTP, the login, for SFTP, the
    client handshake - a send returns -1 with that error, uploads nothing
    and leaves the instance, counter included, as it was. For SFTP this
    holds whenever the dial is attempted, that is with a known
    authentication method and either no host key configured or one that
    decodes and parses. *)
Theorem Send_failed_connection_changes_nothing :
  forall (w : SendWorld) (instance : ftpServerInstance) (msg : list (list byte))
         (e : error),
    (s_dialErr w = Some e \/ (s_dialErr w = None /\ s_loginErr w = Some e
                              /\ authMethod (config instance) = PASSWORD) ->
     returned (ftpSend w instance msg) = Go.Returns (-1, Some e)
     /\ after (ftpSend w instance msg) = instance
     /\ forall p d, ~ In (Stor p d) (issued (ftpSend w instance msg)))
    /\ ((authMethod (config instance) = PASSWORD
         \/ authMethod (config instance) = PUBKEY) ->
        hostkey (config instance) = ""
        \/ (s_hostKeyDecodeErr w = None /\ s_hostKeyParseErr w = None) ->
        s_dialErr w = Some e \/ (s_dialErr w = None /\ s_newClientErr w = Some e) ->
        returned (sftpSend w instance msg) = Go.Returns (-1, Some e)
        /\ after (sftpSend w instance msg) = instance
        /\ forall p d, ~ In (Create p) (issued (sftpSend w instance msg))
                       /\ ~ In (Write d) (issued (sftpSend w instance msg)))
    /\ (In (Dial (serverAddress instance)) (issued (sftpSend w instance msg)) ->
        s_dialErr w = Some e \/ (s_dialErr w = None /\ s_newClientErr w = Some e) ->
        returned (sftpSend w instance msg) = Go.Returns (-1, Some e)
        /\ after (sftpSend w instance msg) = instance
        /\ forall p d, ~ In (Create p) (issued (sftpSend w instance msg))
                       /\ ~ In (Write d) (issued (sftpSend w instance msg))).
Proof.
  intros w instance msg e. split; [ | split].
  - unfold ftpSend. intros [-> | (-> & -> & ->)]; simpl;
      repeat split; intros; intuition discriminate.
  - intros Hauth Hk Hfail. unfold sftpSend.
    assert (Ha : (authMethod (config instance) =? PASSWORD)
                 || (authMethod (config instance) =? PUBKEY) = true).
    { destruct Hauth as [-> | ->]; reflexivity. }
    assert (Hk' : (if String.eqb (hostkey (config instance)) "" then None
                   else match s_hostKeyDecodeErr w with
                        | Some e0 => Some e0
                        | None => s_hostKeyParseErr w
                        end) = None).
    { destruct Hk as [-> | [-> ->]]; [reflexivity | ].
      destruct (String.eqb (hostkey (config instance)) ""); reflexivity. }
    rewrite Ha, Hk'. simpl negb. cbv iota.
    destruct Hfail as [-> | (-> & ->)]; simpl;
      repeat split; intros; intuition discriminate.
  - unfold sftpSend.
    destruct (negb _); [simpl; intros []| ].
    match goal with |- context [match ?x with Some _ => _ | None => _ end] =>
      destruct x end; [simpl; intros [] | ].
    intros _ Hfail.
    destruct Hfail as [-> | (-> & ->)]; simpl;
      repeat split; intros; intuition discriminate.
Qed.

Lemma Send_failed_connection_changes_nothing_witness :
  (returned (ftpSend refusingSendWorld (sampleInstance FTP)
                     [list_byte_of_string "H|1"])
   = Go.Returns (-1, Some "connection refused")
   /\ after (ftpSend refusingSendWorld (sampleInstance FTP)
                     [list_byte_of_string "H|1"]) = sampleInstance FTP)
  /\ returned (sftpSend refusingSendWorld (sampleInstance SFTP)
                        [list_byte_of_string "H|1"])
     = Go.Returns (-1, Some "connection refused")
  /\ returned (sftpSend refusingSendWorld
                 (withConfig (sampleInstance SFTP)
                             (HostKey DefaultFTPConfig "AAAA"))
                 [list_byte_of_string "H|1"])
     = Go.Returns (-1, Some "connection refused").
Proof.
  destruct (Send_failed_connection_changes_nothing refusingSendWorld
              (sampleInstance FTP) [list_byte_of_string "H|1"]
              "connection refused") as [Hftp _].
  destruct (Send_failed_connection_changes_nothing refusingSendWorld
              (sampleInstance SFTP) [list_byte_of_string "H|1"]
              "connection refused") as (_ & Hsftp & _).
  destruct (Send_failed_connection_changes_nothing refusingSendWorld
              (withConfig (sampleInstance SFTP) (HostKey DefaultFTPConfig "AAAA"))
              [list_byte_of_string "H|1"]
              "connection refused") as (_ & _ & Hkey).
  split; [ | split].
  - destruct (Hftp (or_introl eq_refl)) as (H1 & H2 & _). split; assumption.
  - apply Hsftp; [left; reflexivity | left; reflexivity | left; reflexivity].
  - apply Hkey; [simpl; tauto | left; reflexivity].
Defined.

(** X12. Whenever [sftpSend] returns an error its count is -1, and it
    never ends the process; when it returns a nil error it has written the
    messages with their line endings and the count is the one that write
    reported. When [ftpSend] returns a nil error it has issued the
    upload. *)
Theorem Send_result_reflects_upload :
  forall (w : SendWorld) (instance : ftpServerInstance) (msg : list (list byte))
         (n : Z),
    (forall e, returned (sftpSend w instance msg) = Go.Returns (n, Some e) ->
               n = -1)
    /\ returned (sftpSend w instance msg) <> Go.Exits
    /\ (returned (sftpSend w instance msg) = Go.Returns (n, None) ->
        let data := addLineEndings instance msg (linebreak (config instance)) in
        In (Write data) (issued (sftpSend w instance msg))
        /\ s_write w data = (n, None))
    /\ (returned (ftpSend w instance msg) = Go.Returns (n, None) ->
        exists path,
          In (Stor path (addLineEndings instance msg
                           (linebreak (config instance))))
             (issued (ftpSend w instance msg))).
Proof.
  intros w instance msg n.
  split; [ | split; [ | split]].
  - intro e. unfold sftpSend.
    destruct (negb _); [simpl; congruence | ].
    match goal with |- context [match ?x with Some _ => _ | None => _ end] =>
      destruct x end; [simpl; congruence | ].
    destruct (s_dialErr w); [simpl; congruence | ].
    destruct (s_newClientErr w); [simpl; congruence | ].
    destruct (nextFileName w (bumpCounter instance)); [ | simpl; discriminate].
    destruct (s_createErr w); [simpl; congruence | ].
    destruct (s_write w _) as [k [e' | ]]; simpl; congruence.
  - unfold sftpSend.
    destruct (negb _); [simpl; discriminate | ].
    match goal with |- context [match ?x with Some _ => _ | None => _ end] =>
      destruct x end; [simpl; discriminate | ].
    destruct (s_dialErr w); [simpl; discriminate | ].
    destruct (s_newClientErr w); [simpl; discriminate | ].
    destruct (nextFileName w (bumpCounter instance)); [ | simpl; discriminate].
    destruct (s_createErr w); [simpl; discriminate | ].
    destruct (s_write w _) as [k [e' | ]]; simpl; discriminate.
  - unfold sftpSend.
    destruct (negb _); [simpl; discriminate | ].
    match goal with |- context [match ?x with Some _ => _ | None => _ end] =>
      destruct x end; [simpl; discriminate | ].
    destruct (s_dialErr w); [simpl; discriminate | ].
    destruct (s_newClientErr w); [simpl; discriminate | ].
    destruct (nextFileName w (bumpCounter instance)); [ | simpl; discriminate].
    destruct (s_createErr w); [simpl; discriminate | ].
    destruct (s_write w _) as [k [e' | ]] eqn:Hw; simpl; [discriminate | ].
    intro H. injection H as ->. split; [tauto | reflexivity].
  - unfold ftpSend.
    destruct (s_dialErr w); [simpl; discriminate | ].
    destruct (negb _); [simpl; discriminate | ].
    destruct (s_loginErr w); [simpl; discriminate | ].
    destruct (nextFileName w (bumpCounter instance)) as [name | ];
      [ | simpl; discriminate].
    destruct (s_storErr w); simpl; [discriminate | ].
    intros _. exists (ftpPathOf instance ++ name). tauto.
Qed.

Lemma Send_result_reflects_upload_witness :
  In (Write (addLineEndings (sampleInstance SFTP) [list_byte_of_string "H|1"]
                            (linebreak (config (sampleInstance SFTP)))))
     (issued (sftpSend sampleSendWorld (sampleInstance SFTP)
                       [list_byte_of_string "H|1"]))
  /\ exists path,
      In (Stor path (addLineEndings (sampleInstance FTP)
                                    [list_byte_of_string "H|1"]
                                    (linebreak (config (sampleInstance FTP)))))
         (issued (ftpSend sampleSendWorld (sampleInstance FTP)
                          [list_byte_of_string "H|1"])).
Proof.
  destruct (Send_result_reflects_upload sampleSendWorld (sampleInstance SFTP)
              [list_byte_of_string "H|1"] 4) as (_ & _ & Hw & _).
  destruct (Send_result_reflects_upload sampleSendWorld (sampleInstance FTP)
              [list_byte_of_string "H|1"] (-1)) as (_ & _ & _ & Hs).
  split.
  - apply Hw. reflexivity.
  - apply Hs. reflexivity.
Defined.

(** ** The polling loops: ending, errors, deletes *)

Lemma sftpPoll_skip P instance ftpPath r rest :
  skipsSelect r = true ->
  exists pre,
    sftpPoll P instance ftpPath (r :: rest)
    = ((ReadDir ftpPath :: pre) ++ fst (sftpPoll P instance ftpPath rest),
       snd (sftpPoll P instance ftpPath rest))%list
    /\ (pre = [] \/ exists e, pre = [OnError ErrorReceive (Some e)]).
Proof.
  unfold skipsSelect. simpl.
  destruct (listing r) as [[ | f0 fs] [e | ]]; try discriminate; intros _;
    destruct (sftpPoll P instance ftpPath rest) as [tr e'].
  - exists [OnError ErrorReceive (Some e)]. split; [reflexivity | eauto].
  - exists []. split; [reflexivity | auto].
  - exists [OnError ErrorReceive (Some e)]. split; [reflexivity | eauto].
Qed.

(** X13. As long as the directory listing fails or is empty, the SFTP loop
    goes round without looking at the termination channel: such rounds
    never end the run, whatever the channel holds; each issues one
    [ReadDir] and at most the report of the failed listing. The FTP loop
    does stop on termination after an empty listing. *)
Theorem sftp_loop_deaf_to_termination_while_idle :
  forall (P : Platform) (instance : ftpServerInstance) (ftpPath : string)
         (rs rest : list PollRound),
    forallb skipsSelect rs = true ->
    snd (sftpPoll P instance ftpPath rs) = StillPolling
    /\ snd (sftpPoll P instance ftpPath (rs ++ rest))
       = snd (sftpPoll P instance ftpPath rest)
    /\ countEvents isListing (fst (sftpPoll P instance ftpPath rs))
       = List.length rs
    /\ (forall ev, In ev (fst (sftpPoll P instance ftpPath rs)) ->
                   ev = ReadDir ftpPath
                   \/ exists e, ev = OnError ErrorReceive (Some e))
    /\ ftpPoll P instance ftpPath (mkPollRound ([], None) Terminated :: rest)
       = ([List_ ftpPath], Returned).
Proof.
  intros P instance ftpPath rs rest.
  induction rs as [ | r rs IH]; intro Hrs.
  - simpl. repeat split; try reflexivity. intros ev [].
  - simpl in Hrs. apply andb_true_iff in Hrs. destruct Hrs as [Hr Hrs].
    destruct (IH Hrs) as (H1 & H2 & H3 & H4 & H5).
    destruct (sftpPoll_skip P instance ftpPath r rs Hr) as (pre & E & Hpre).
    destruct (sftpPoll_skip P instance ftpPath r (rs ++ rest) Hr)
      as (pre' & E' & _).
    change ((r :: rs) ++ rest)%list with (r :: (rs ++ rest))%list.
    rewrite E, E'. cbn [fst snd].
    split; [exact H1 | ].
    split; [exact H2 | ].
    split.
    + unfold countEvents in *. rewrite filter_app, length_app, H3.
      destruct Hpre as [-> | [e ->]]; reflexivity.
    + split; [ | exact H5].
      intros ev Hin. apply in_app_or in Hin. destruct Hin as [[Hin | Hin] | Hin].
      * left. symmetry. exact Hin.
      * destruct Hpre as [-> | [e ->]]; [destruct Hin | ].
        destruct Hin as [<- | []]. eauto.
      * apply H4. exact Hin.
Qed.

Lemma sftp_loop_deaf_to_termination_while_idle_witness :
  snd (sftpPoll asciiPlatform (sampleInstance SFTP) "/in/"
                [emptyRound; failedRound]) = StillPolling
  /\ snd (sftpPoll asciiPlatform (sampleInstance SFTP) "/in/"
                   ([emptyRound; failedRound]
                      ++ [mkPollRound ([sampleFile], None) Terminated]))
     = snd (sftpPoll asciiPlatform (sampleInstance SFTP) "/in/"
                     [mkPollRound ([sampleFile], None) Terminated]).
Proof.
  destruct (sftp_loop_deaf_to_termination_while_idle asciiPlatform
              (sampleInstance SFTP) "/in/" [emptyRound; failedRound]
              [mkPollRound ([sampleFile], None) Terminated] eq_refl)
    as (H1 & H2 & _).
  split; [exact H1 | exact H2].
Defined.

(** X14. Once [Connected] has been accepted, a run returns only on the
    termination channel: if it returned, some polled round received the
    termination signal at its [select]; with no such signal the loop is
    still polling, whatever errors the server or the handler produced. *)
Theorem run_returns_only_on_termination :
  forall (P : Platform) (instance : ftpServerInstance) (w : Remote),
    (In (OnConnected None) (fst (runWithSFTP P instance w)) ->
     (snd (runWithSFTP P instance w) = Returned ->
      exists r, In r (rounds w) /\ wake r = Terminated
                /\ skipsSelect r = false)
     /\ ((forall r, In r (rounds w) -> wake r = PollIntervalElapsed) ->
         snd (runWithSFTP P instance w) = StillPolling))
    /\ (In (OnConnected None) (fst (runWithFTP P instance w)) ->
        (snd (runWithFTP P instance w) = Returned ->
         exists r, In r (rounds w) /\ wake r = Terminated
                   /\ snd (listing r) = None)
        /\ ((forall r, In r (rounds w) -> wake r = PollIntervalElapsed) ->
            snd (runWithFTP P instance w) = StillPolling)).
Proof.
  intros P instance w. split.
  - assert (Hloop := sftpPoll_end P instance (ftpPathOf instance) (rounds w)).
    unfold runWithSFTP.
    destruct (negb _); [simpl; intuition discriminate | ].
    match goal with |- context [match ?x with Some _ => _ | None => _ end] =>
      destruct x end; [simpl; intuition discriminate | ].
    destruct (dialErr w); [simpl; intuition discriminate | ].
    destruct (newClientErr w); [simpl; intuition discriminate | ].
    destruct (connectedErr w); [simpl; intuition discriminate | ].
    destruct (sftpPoll P instance (ftpPathOf instance) (rounds w)) as [tr e].
    simpl in *. intros _. split.
    + intro He. destruct Hloop as [H | [_ H]]; [congruence | exact H].
    + intro Hall. destruct Hloop as [H | [_ (r & Hin & Hw & _)]]; [exact H | ].
      rewrite (Hall r Hin) in Hw. discriminate.
  - assert (Hloop := ftpPoll_end P instance (ftpPathOf instance) (rounds w)).
    unfold runWithFTP.
    destruct (dialErr w); [simpl; intuition discriminate | ].
    destruct (negb _); [simpl; intuition discriminate | ].
    destruct (loginErr w); [simpl; intuition discriminate | ].
    destruct (connectedErr w); [simpl; intuition discriminate | ].
    destruct (ftpPoll P instance (ftpPathOf instance) (rounds w)) as [tr e].
    simpl in *. intros _. split.
    + intro He. destruct Hloop as [H | [_ H]]; [congruence | exact H].
    + intro Hall. destruct Hloop as [H | [_ (r & Hin & Hw & _)]]; [exact H | ].
      rewrite (Hall r Hin) in Hw. discriminate.
Qed.

Lemma run_returns_only_on_termination_witness :
  (exists r, In r (rounds sampleRemote) /\ wake r = Terminated
             /\ skipsSelect r = false)
  /\ snd (runWithFTP asciiPlatform (sampleInstance FTP)
            (mkRemote None None None None None None
               [mkPollRound ([refusedFile], None) PollIntervalElapsed]))
     = StillPolling.
Proof.
  destruct (run_returns_only_on_termination asciiPlatform (sampleInstance SFTP)
              sampleRemote) as [Hs _].
  destruct (run_returns_only_on_termination asciiPlatform (sampleInstance FTP)
              (mkRemote None None None None None None
                 [mkPollRound ([refusedFile], None) PollIntervalElapsed]))
    as [_ Hf].
  split.
  - apply Hs; [simpl; tauto | reflexivity].
  - apply Hf; [simpl; tauto | ].
    intros r [<- | []]. reflexivity.
Defined.

Lemma sftpPollFile_error_kinds P instance ftpPath file k e :
  In (OnError k e) (sftpPollFile P instance ftpPath file) ->
  (k = ErrorReceive \/ k = ErrorInternal) /\ e <> None.
Proof.
  unfold sftpPollFile.
  file_cases P instance file; simpl; intro H;
    repeat match goal with
           | H : _ \/ _ |- _ => destruct H
           | H : False |- _ => destruct H
           | H : OnError _ _ = OnError _ _ |- _ => injection H as <- <-
           end;
    try discriminate; (split; [auto | discriminate]).
Qed.

Lemma ftpPollFile_error_kinds P instance ftpPath file k e :
  In (OnError k e) (ftpPollFile P instance ftpPath file) ->
  (k = ErrorReceive \/ k = ErrorInternal) /\ e <> None.
Proof.
  unfold ftpPollFile.
  file_cases P instance file; simpl; intro H;
    repeat match goal with
           | H : _ \/ _ |- _ => destruct H
           | H : False |- _ => destruct H
           | H : OnError _ _ = OnError _ _ |- _ => injection H as <- <-
           end;
    try discriminate; (split; [auto | discriminate]).
Qed.

Ltac setup_error :=
  simpl; intro H;
  repeat match goal with
         | H : _ \/ _ |- _ => destruct H
         | H : False |- _ => destruct H
         | H : OnError _ _ = OnError _ _ |- _ => injection H as <- <-
         end;
  try discriminate; auto 8.

(** X15. The kinds a run reports: [runWithSFTP] only Configuration,
    Connect, Receive and Internal; [runWithFTP] only Login, Configuration,
    Receive and Internal, never Connect. Inside either loop the kinds are
    Receive and Internal only, each with the error that caused it. *)
Theorem run_error_kinds :
  forall (P : Platform) (instance : ftpServerInstance) (w : Remote)
         (k : ErrorType) (e : option error),
    (In (OnError k e) (fst (runWithSFTP P instance w)) ->
     k = ErrorConfiguration \/ k = ErrorConnect
     \/ k = ErrorReceive \/ k = ErrorInternal)
    /\ (In (OnError k e) (fst (runWithFTP P instance w)) ->
        k = ErrorLogin \/ k = ErrorConfiguration
        \/ k = ErrorReceive \/ k = ErrorInternal)
    /\ (forall ftpPath rs,
           In (OnError k e) (fst (sftpPoll P instance ftpPath rs))
           \/ In (OnError k e) (fst (ftpPoll P instance ftpPath rs)) ->
           (k = ErrorReceive \/ k = ErrorInternal) /\ e <> None).
Proof.
  intros P instance w k e.
  assert (Hloop : forall ftpPath rs,
             In (OnError k e) (fst (sftpPoll P instance ftpPath rs))
             \/ In (OnError k e) (fst (ftpPoll P instance ftpPath rs)) ->
             (k = ErrorReceive \/ k = ErrorInternal) /\ e <> None).
  { intros ftpPath rs [H | H].
    - apply sftpPoll_events in H.
      destruct H as [H | [[e' H] | (r & file & _ & _ & H)]].
      + discriminate.
      + injection H as -> ->. split; [auto | discriminate].
      + apply (sftpPollFile_error_kinds _ _ _ _ _ _ H).
    - apply ftpPoll_events in H.
      destruct H as [H | [[e' H] | (r & file & _ & _ & H)]].
      + discriminate.
      + injection H as -> ->. split; [auto | discriminate].
      + apply (ftpPollFile_error_kinds _ _ _ _ _ _ H). }
  split; [ | split; [ | exact Hloop]].
  - unfold runWithSFTP.
    destruct (negb _); [setup_error | ].
    match goal with |- context [match ?x with Some _ => _ | None => _ end] =>
      destruct x end; [setup_error | ].
    destruct (dialErr w); [setup_error | ].
    destruct (newClientErr w); [setup_error | ].
    destruct (connectedErr w); [setup_error | ].
    pose proof (Hloop (ftpPathOf instance) (rounds w)) as Hl.
    destruct (sftpPoll P instance (ftpPathOf instance) (rounds w)) as [tr e'].
    simpl in *. intros [H | [H | [H | H]]]; try discriminate.
    destruct (Hl (or_introl H)) as [[-> | ->] _]; auto.
  - unfold runWithFTP.
    destruct (dialErr w); [setup_error | ].
    destruct (negb _); [setup_error | ].
    destruct (loginErr w); [setup_error | ].
    destruct (connectedErr w); [setup_error | ].
    pose proof (Hloop (ftpPathOf instance) (rounds w)) as Hl.
    destruct (ftpPoll P instance (ftpPathOf instance) (rounds w)) as [tr e'].
    simpl in *. intros [H | [H | [H | H]]]; try discriminate.
    destruct (Hl (or_intror H)) as [[-> | ->] _]; auto.
Qed.

Lemma run_error_kinds_witness :
  ErrorReceive = ErrorConfiguration \/ ErrorReceive = ErrorConnect
  \/ ErrorReceive = ErrorReceive \/ ErrorReceive = ErrorInternal.
Proof.
  destruct (run_error_kinds asciiPlatform (sampleInstance SFTP)
              (mkRemote None None None None None None
                 [mkPollRound ([unreadableFile], None) Terminated])
              ErrorReceive (Some "permission denied")) as [H _].
  apply H. simpl. tauto.
Defined.

Lemma sftpPollFile_keeps P instance ftpPath file ev :
  deleteAfterRead (config instance) = false ->
  In ev (sftpPollFile P instance ftpPath file) -> isDelete ev = false.
Proof.
  unfold sftpPollFile. intro Hflag. rewrite Hflag.
  destruct (Match P (ToUpper P (filemask instance)) (ToUpper P (Name file)))
    as [[ | ] [? | ]];
    destruct (openErr file); destruct (readAll file) as [? [? | ]];
    destruct (closeErr file); destruct (dataReceivedErr file);
    simpl; intuition (subst; reflexivity).
Qed.

Lemma ftpPollFile_keeps P instance ftpPath file ev :
  deleteAfterRead (config instance) = false ->
  In ev (ftpPollFile P instance ftpPath file) -> isDelete ev = false.
Proof.
  unfold ftpPollFile. intro Hflag. rewrite Hflag.
  destruct (Match P (ToUpper P (filemask instance)) (ToUpper P (Name file)))
    as [[ | ] [? | ]];
    destruct (renameErr file);
    destruct (openErr file); destruct (readAll file) as [? [? | ]];
    destruct (closeErr file); destruct (dataReceivedErr file);
    simpl; intuition (subst; reflexivity).
Qed.

(** X16. With [deleteAfterRead] cleared - as [DontDeleteAfterRead] leaves
    it - no run of either loop ever issues a delete, whatever the handler
    returns. *)
Theorem cleared_deleteAfterRead_never_deletes :
  forall (P : Platform) (instance : ftpServerInstance) (w : Remote) (ev : Event),
    deleteAfterRead (config instance) = false ->
    (In ev (fst (runWithSFTP P instance w)) -> isDelete ev = false)
    /\ (In ev (fst (runWithFTP P instance w)) -> isDelete ev = false)
    /\ (forall conf,
           deleteAfterRead (config (withConfig instance (DontDeleteAfterRead conf)))
           = false).
Proof.
  intros P instance w ev Hflag. split; [ | split; [ | reflexivity]].
  - unfold runWithSFTP.
    destruct (negb _); [simpl; intuition (subst; reflexivity) | ].
    match goal with |- context [match ?x with Some _ => _ | None => _ end] =>
      destruct x end; [simpl; intuition (subst; reflexivity) | ].
    destruct (dialErr w); [simpl; intuition (subst; reflexivity) | ].
    destruct (newClientErr w); [simpl; intuition (subst; reflexivity) | ].
    destruct (connectedErr w); [simpl; intuition (subst; reflexivity) | ].
    pose proof (sftpPoll_events P instance (ftpPathOf instance) (rounds w) ev)
      as Hl.
    destruct (sftpPoll P instance (ftpPathOf instance) (rounds w)) as [tr e'].
    simpl in *. intros [H | [H | [H | H]]]; try (subst; reflexivity).
    destruct (Hl H) as [-> | [[e ->] | (r & file & _ & _ & Hin)]];
      try reflexivity.
    apply (sftpPollFile_keeps _ _ _ _ _ Hflag Hin).
  - unfold runWithFTP.
    destruct (dialErr w); [simpl; intuition (subst; reflexivity) | ].
    destruct (negb _); [simpl; intuition (subst; reflexivity) | ].
    destruct (loginErr w); [simpl; intuition (subst; reflexivity) | ].
    destruct (connectedErr w); [simpl; intuition (subst; reflexivity) | ].
    pose proof (ftpPoll_events P instance (ftpPathOf instance) (rounds w) ev)
      as Hl.
    destruct (ftpPoll P instance (ftpPathOf instance) (rounds w)) as [tr e'].
    simpl in *. intros [H | [H | [H | H]]]; try (subst; reflexivity).
    destruct (Hl H) as [-> | [[e ->] | (r & file & _ & _ & Hin)]];
      try reflexivity.
    apply (ftpPollFile_keeps _ _ _ _ _ Hflag Hin).
Qed.

Lemma cleared_deleteAfterRead_never_deletes_witness :
  isDelete (OnDataReceived (list_byte_of_string "H|1") 1697300667 None) = false.
Proof.
  destruct (cleared_deleteAfterRead_never_deletes asciiPlatform
              (withConfig (sampleInstance SFTP)
                          (DontDeleteAfterRead DefaultFTPConfig))
              sampleRemote
              (OnDataReceived (list_byte_of_string "H|1") 1697300667 None)
              eq_refl) as [H _].
  apply H. simpl. tauto.
Defined.

(** ** Files on the server *)















(** X18. On one listed file in one poll, the handler gets at most one
    [DataReceived] and at most one [Error]; a file that the filter
    rejects without an error causes no callback and no command at all. *)
Theorem one_callback_of_each_kind_per_file :
  forall (P : Platform) (instance : ftpServerInstance) (ftpPath : string)
         (file : PolledFile),
    (countEvents isDataReceived (sftpPollFile P instance ftpPath file) <= 1
     /\ countEvents isError (sftpPollFile P instance ftpPath file) <= 1
     /\ countEvents isDataReceived (ftpPollFile P instance ftpPath file) <= 1
     /\ countEvents isError (ftpPollFile P instance ftpPath file) <= 1)%nat
    /\ (Match P (ToUpper P (filemask instance)) (ToUpper P (Name file))
        = (false, None) ->
        sftpPollFile P instance ftpPath file = []
        /\ ftpPollFile P instance ftpPath file = []).
Proof.
  intros P instance ftpPath file. split.
  - unfold sftpPollFile, ftpPollFile.
    file_cases P instance file; cbv; repeat split; lia.
  - intro H. unfold sftpPollFile, ftpPollFile. rewrite H. split; reflexivity.
Qed.

Lemma one_callback_of_each_kind_per_file_witness :
  sftpPollFile asciiPlatform (sampleInstance SFTP) "/in/" otherFile = []
  /\ ftpPollFile asciiPlatform (sampleInstance SFTP) "/in/" otherFile = [].
Proof.
  apply (one_callback_of_each_kind_per_file asciiPlatform (sampleInstance SFTP)
           "/in/" otherFile).
  reflexivity.
Defined.

(** ** Session setup after the dial *)

(** X19. When the handler rejects [Connected], the SFTP run reports kind
    Connect with a nil error - the handler's error is not passed on -
    while the FTP run reports kind Login with the handler's error; both
    return, and neither closes the connection it opened. *)
Theorem rejected_Connected_report :
  forall (P : Platform) (instance : ftpServerInstance) (w : Remote) (e : error),
    (In (OnConnected (Some e)) (fst (runWithSFTP P instance w)) ->
     runWithSFTP P instance w
     = ([Dial (serverAddress instance); NewClient; OnConnected (Some e);
         OnError ErrorConnect None], Returned))
    /\ (In (OnConnected (Some e)) (fst (runWithFTP P instance w)) ->
        runWithFTP P instance w
        = ([Dial (serverAddress instance);
            Login (user (config instance)) (key (config instance));
            OnConnected (Some e); OnError ErrorLogin (Some e)], Returned)).
Proof.
  intros P instance w e. split.
  - pose proof (sftpPoll_noConnected P instance (ftpPathOf instance) (rounds w))
      as Hp.
    unfold runWithSFTP.
    destruct (negb _); [simpl; intuition discriminate | ].
    match goal with |- context [match ?x with Some _ => _ | None => _ end] =>
      destruct x end; [simpl; intuition discriminate | ].
    destruct (dialErr w); [simpl; intuition discriminate | ].
    destruct (newClientErr w); [simpl; intuition discriminate | ].
    destruct (connectedErr w) as [e0 | ].
    + simpl. intros [H | [H | [H | [H | []]]]]; try discriminate.
      injection H as ->. reflexivity.
    + destruct (sftpPoll P instance (ftpPathOf instance) (rounds w)) as [tr e'].
      simpl in *. intros [H | [H | [H | H]]]; try discriminate.
      apply (countConnected_zero_notin _ _ Hp) in H. discriminate.
  - pose proof (ftpPoll_noConnected P instance (ftpPathOf instance) (rounds w))
      as Hp.
    unfold runWithFTP.
    destruct (dialErr w); [simpl; intuition discriminate | ].
    destruct (negb _); [simpl; intuition discriminate | ].
    destruct (loginErr w); [simpl; intuition discriminate | ].
    destruct (connectedErr w) as [e0 | ].
    + simpl. intros [H | [H | [H | [H | []]]]]; try discriminate.
      injection H as ->. reflexivity.
    + destruct (ftpPoll P instance (ftpPathOf instance) (rounds w)) as [tr e'].
      simpl in *. intros [H | [H | [H | H]]]; try discriminate.
      apply (countConnected_zero_notin _ _ Hp) in H. discriminate.
Qed.

Lemma rejected_Connected_report_witness :
  runWithSFTP asciiPlatform (sampleInstance SFTP) rejectingRemote
  = ([Dial (serverAddress (sampleInstance SFTP)); NewClient;
      OnConnected (Some "rejected"); OnError ErrorConnect None], Returned)
  /\ runWithFTP asciiPlatform (sampleInstance FTP) rejectingRemote
     = ([Dial (serverAddress (sampleInstance FTP));
         Login (user (config (sampleInstance FTP)))
               (key (config (sampleInstance FTP)));
         OnConnected (Some "rejected"); OnError ErrorLogin (Some "rejected")],
        Returned).
Proof.
  destruct (rejected_Connected_report asciiPlatform (sampleInstance SFTP)
              rejectingRemote "rejected") as [Hs _].
  destruct (rejected_Connected_report asciiPlatform (sampleInstance FTP)
              rejectingRemote "rejected") as [_ Hf].
  split.
  - apply Hs. simpl. tauto.
  - apply Hf. simpl. tauto.
Defined.

(** X20. After a successful dial: when the SFTP client cannot be created,
    [runWithSFTP] closes the SSH connection, reports kind Connect with
    that error and returns; when the FTP login fails, [runWithFTP] reports
    kind Login with that error and returns. In both cases [Connected] is
    not invoked and the directory is never listed. *)
Theorem failed_handshake_or_login :
  forall (P : Platform) (instance : ftpServerInstance) (w : Remote) (e : error),
    dialErr w = None ->
    (newClientErr w = Some e ->
     In NewClient (fst (runWithSFTP P instance w)) ->
     runWithSFTP P instance w
     = ([Dial (serverAddress instance); NewClient; CloseConnection;
         OnError ErrorConnect (Some e)], Returned))
    /\ (loginErr w = Some e ->
        authMethod (config instance) = PASSWORD ->
        runWithFTP P instance w
        = ([Dial (serverAddress instance);
            Login (user (config instance)) (key (config instance));
            OnError ErrorLogin (Some e)], Returned)).
Proof.
  intros P instance w e Hdial. split.
  - intros Hnc. unfold runWithSFTP. rewrite Hdial, Hnc.
    destruct (negb _); [simpl; intuition discriminate | ].
    match goal with |- context [match ?x with Some _ => _ | None => _ end] =>
      destruct x end; [simpl; intuition discriminate | ].
    reflexivity.
  - intros Hl Ha. unfold runWithFTP. rewrite Hdial, Hl, Ha. reflexivity.
Qed.

Lemma failed_handshake_or_login_witness :
  runWithSFTP asciiPlatform (sampleInstance SFTP)
    (mkRemote None None None (Some "no sftp subsystem") None None [])
  = ([Dial (serverAddress (sampleInstance SFTP)); NewClient; CloseConnection;
      OnError ErrorConnect (Some "no sftp subsystem")], Returned)
  /\ runWithFTP asciiPlatform (sampleInstance FTP)
       (mkRemote None None None None (Some "530 Login incorrect") None [])
     = ([Dial (serverAddress (sampleInstance FTP));
         Login (user (config (sampleInstance FTP)))
               (key (config (sampleInstance FTP)));
         OnError ErrorLogin (Some "530 Login incorrect")], Returned).
Proof.
  destruct (failed_handshake_or_login asciiPlatform (sampleInstance SFTP)
              (mkRemote None None None (Some "no sftp subsystem") None None [])
              "no sftp subsystem" eq_refl) as [Hs _].
  destruct (failed_handshake_or_login asciiPlatform (sampleInstance FTP)
              (mkRemote None None None None (Some "530 Login incorrect") None [])
              "530 Login incorrect" eq_refl) as [_ Hf].
  split.
  - apply Hs; [reflexivity | simpl; tauto].
  - apply Hf; reflexivity.
Defined.
